(** * UniStudentsApp: the data-processing pipeline of [data_storage.py]

    A shallow embedding of the [DataProcessor] class and a verification
    of its documented behaviour.

    - A record (one row, a Python dictionary) is an association list
      ([PyDict]): the order of its keys is observable, it fixes the column
      order of the [pd.DataFrame] built from the records.
    - The dictionaries keyed by dataset name and the statistics entries
      are finite maps ([gmap string]); the order in which [self.data]
      holds its keys, which the loops over it follow, is kept beside the
      map.  Python sets of strings are [gset string].
    - [datetime.now()], the file system and the CSV reader are the
      [World] the methods run in; a method is a computation in the
      state-and-exception monad [M].
    - pandas tables are [DataFrame]s: a list of column labels and rows of
      cells. *)

From Stdlib Require Import ZArith List Bool Ascii String Lia Sorting.Sorted.
From stdpp Require Import base decidable option list gmap strings sorting.

Open Scope string_scope.
Open Scope Z_scope.

(* ===================================================================== *)
(** * Records: insertion-ordered dictionaries *)
(* ===================================================================== *)

Module PyDict.

Definition t (V : Type) : Type := list (string * V).

(** [d.get(k)] *)
Fixpoint get {V} (k : string) (d : t V) : option V :=
  match d with
  | [] => None
  | (k', v) :: d' => if String.eqb k' k then Some v else get k d'
  end.

(** [list(d.keys())] *)
Definition keys {V} (d : t V) : list string := map fst d.

(** [d[k] = v]: an existing key keeps its position, a new one goes last. *)
Fixpoint set {V} (k : string) (v : V) (d : t V) : t V :=
  match d with
  | [] => [(k, v)]
  | (k', v') :: d' =>
      if String.eqb k' k then (k', v) :: d' else (k', v') :: set k v d'
  end.

(** [del d[k]], the removal [d.pop(k)] performs *)
Definition remove {V} (k : string) (d : t V) : t V :=
  List.filter (fun kv => negb (String.eqb (fst kv) k)) d.

End PyDict.

Abbreviation dict := PyDict.t.

(* ===================================================================== *)
(** * Cell values *)
(* ===================================================================== *)

(** A [pd.Timestamp]: the fields the program formats. *)
Record datetime : Type := mkDatetime {
  dt_year : nat; dt_month : nat; dt_day : nat;
  dt_hour : nat; dt_minute : nat; dt_second : nat; dt_micro : nat
}.

(** The scalars a record or a statistics entry holds ([Any] in the
    source).  [VNone] stands for the missing markers [None] and [NaN],
    which [json.dump] writes as [null] and [NaN]; [VTime] is what
    [pd.to_datetime] leaves in a date column.  Other floating-point cells
    and [NaT], the missing timestamp, are outside the model. *)
Inductive value : Type :=
| VNone
| VBool (b : bool)
| VInt (z : Z)
| VStr (s : string)
| VTime (t : datetime).

Definition record : Type := dict value.

Definition value_eqb (a b : value) : bool :=
  match a, b with
  | VNone, VNone => true
  | VBool x, VBool y => Bool.eqb x y
  | VInt x, VInt y => Z.eqb x y
  | VStr x, VStr y => String.eqb x y
  | VTime x, VTime y =>
      Nat.eqb (dt_year x) (dt_year y) && Nat.eqb (dt_month x) (dt_month y)
      && Nat.eqb (dt_day x) (dt_day y) && Nat.eqb (dt_hour x) (dt_hour y)
      && Nat.eqb (dt_minute x) (dt_minute y)
      && Nat.eqb (dt_second x) (dt_second y)
      && Nat.eqb (dt_micro x) (dt_micro y)
  | _, _ => false
  end.

Definition is_missing (v : value) : bool :=
  match v with VNone => true | _ => false end.
Definition is_int (v : value) : bool :=
  match v with VInt _ => true | _ => false end.
Definition is_bool (v : value) : bool :=
  match v with VBool _ => true | _ => false end.
Definition is_str (v : value) : bool :=
  match v with VStr _ => true | _ => false end.
Definition is_number (v : value) : bool := is_bool v || is_int v.
Definition is_time (v : value) : bool :=
  match v with VTime _ => true | _ => false end.

(** [json.dump] encodes [None], booleans, integers and strings; a
    [Timestamp] makes it raise [TypeError]. *)
Definition json_encodable (v : value) : bool :=
  match v with VTime _ => false | _ => true end.

(** ** Formatting of dates *)

Definition digit (n : nat) : ascii := ascii_of_nat (48 + n mod 10).

(** [n] in decimal on exactly [w] digits (the low-order ones). *)
Fixpoint pad (w : nat) (n : nat) : string :=
  match w with
  | O => ""
  | S w' => pad w' (n / 10) ++ String (digit n) ""
  end.

(** [strftime('%Y-%m')] *)
Definition strftime_Y_m (t : datetime) : string :=
  pad 4 (dt_year t) ++ "-" ++ pad 2 (dt_month t).

(** [strftime("%Y%m%d_%H%M%S")] *)
Definition strftime_compact (t : datetime) : string :=
  pad 4 (dt_year t) ++ pad 2 (dt_month t) ++ pad 2 (dt_day t) ++ "_"
  ++ pad 2 (dt_hour t) ++ pad 2 (dt_minute t) ++ pad 2 (dt_second t).

(** [isoformat()]; the microseconds are printed when they are not zero. *)
Definition isoformat (t : datetime) : string :=
  pad 4 (dt_year t) ++ "-" ++ pad 2 (dt_month t) ++ "-" ++ pad 2 (dt_day t)
  ++ "T" ++ pad 2 (dt_hour t) ++ ":" ++ pad 2 (dt_minute t) ++ ":"
  ++ pad 2 (dt_second t)
  ++ (if Nat.eqb (dt_micro t) 0 then "" else "." ++ pad 6 (dt_micro t)).

(* ===================================================================== *)
(** * Files, the world and the processor *)
(* ===================================================================== *)

(** The JSON object [_save_state] writes.  A field is [None] when the key
    is absent from the object, which [_load_state] covers with the
    defaults of [state.get]. *)
Record snapshot : Type := mkSnapshot {
  snap_stats : option (gmap string (gmap string value));
  snap_processed_files : option (list string);
  snap_excluded_components : option (list string);
  snap_last_updated : option string;
  snap_data : option (gmap string (list record));
  (** the keys of the [data] object in the order the file has them *)
  snap_data_order : list string
}.

(** The JSON object [_save_json_records] writes. *)
Record export : Type := mkExport {
  meta_processed_at : string;
  meta_file_statistics : gmap string (gmap string value);
  meta_processed_files : list string;
  meta_excluded_components : list string;
  meta_column_mappings : dict string;
  export_data : gmap string (list record);
  (** the keys of the [data] object in the order the file has them *)
  export_data_order : list string
}.

(** What a file holds.  [Unreadable] is any content [json.load] rejects,
    in particular the prefix a [json.dump] leaves behind when it raises
    part-way. *)
Inductive file_content : Type :=
| Unreadable
| SnapshotFile (s : snapshot)
| ExportFile (e : export).

(** The surroundings of a run: what [_clean_csv_data] yields for a path
    ([None] when it raises), the JSON files, and the successive readings
    of [datetime.now()].  Writes to the file system always go through. *)
Record World : Type := mkWorld {
  csv_source : string -> option (list record);
  fs : gmap string file_content;
  clock : nat -> datetime;
  ticks : nat
}.

(** The attributes of a [DataProcessor].  [data_order] is not an
    attribute of its own: it lists the keys of [self.data] in the order
    the dictionary holds them, the order of their first assignment. *)
Record DataProcessor : Type := mkDataProcessor {
  backup_file_path : string;
  data : gmap string (list record);
  excluded_components : gset string;
  column_mappings : dict string;
  stats : gmap string (gmap string value);
  processed_files : gset string;
  data_order : list string
}.

(** The keys of the dictionary [d] in the order [order] lists them; a key
    [order] does not list comes after those it lists, as a key that is
    assigned for the first time does.  (The methods never leave more than
    one key unlisted, the one they assign.) *)
Definition ordered_keys (order : list string) (d : gmap string (list record))
  : list string :=
  (List.filter (fun k => bool_decide (k ∈ dom d)) (remove_dups order)
   ++ List.filter (fun k => bool_decide (k ∉ order)) (elements (dom d)))%list.

(** [self.data.items()] *)
Definition data_items (self : DataProcessor) : list (string * list record) :=
  omap (fun k => pair k <$> data self !! k)
       (ordered_keys (data_order self) (data self)).

Definition path_join (dir name : string) : string := dir ++ "/" ++ name.

Definition state_file (self : DataProcessor) : string :=
  path_join (backup_file_path self) "application_state.json".

(** Library functions of the Python runtime the methods call. *)
Class Runtime : Type := {
  (** [str(Path(p))] *)
  path_str : string -> string;
  (** [Path(p).stem.upper()] *)
  path_stem_upper : string -> string;
  (** [pd.to_datetime] on a string; [None] when it does not parse *)
  parse_datetime : string -> option datetime;
  (** [pd.to_datetime] on an integer (nanoseconds since the epoch) *)
  datetime_of_ns : Z -> option datetime;
  (** [int(s)]; [None] when it raises [ValueError] *)
  python_int : string -> option Z
}.

(** ** Exceptions *)

Inductive exn : Type :=
| KeyError (key : string)
| TypeError (what : string)
| ValueError (what : string)
(** [ValueError(f"Missing required datasets: {missing}")] *)
| MissingRequiredDatasets (missing : gset string)
(** [Exception(f"{prefix}: {str(e)}")] *)
| Wrapped (prefix : string) (e : exn).

Inductive outcome (A : Type) : Type :=
| Return (a : A)
| Raise (e : exn).
Arguments Return {A} a.
Arguments Raise {A} e.

(** ** The monad of methods: state and exceptions

    An exception does not roll the state back. *)

Definition Sys : Type := World * DataProcessor.

Definition M (A : Type) : Type := Sys -> outcome A * Sys.

Definition ret {A} (a : A) : M A := fun s => (Return a, s).

Definition bind {A B} (m : M A) (k : A -> M B) : M B :=
  fun s =>
    match m s with
    | (Return a, s') => k a s'
    | (Raise e, s') => (Raise e, s')
    end.

Definition raise {A} (e : exn) : M A := fun s => (Raise e, s).

(** [try: m except Exception as e: h e] *)
Definition try_except {A} (m : M A) (h : exn -> M A) : M A :=
  fun s =>
    match m s with
    | (Return a, s') => (Return a, s')
    | (Raise e, s') => h e s'
    end.

Global Instance M_ret : MRet M := @ret.
Global Instance M_bind : MBind M := fun A B k m => bind m k.

Definition get_self : M DataProcessor := fun s => (Return (snd s), s).
Definition get_world : M World := fun s => (Return (fst s), s).
Definition put_self (self : DataProcessor) : M unit :=
  fun s => (Return tt, (fst s, self)).
Definition put_world (w : World) : M unit :=
  fun s => (Return tt, (w, snd s)).

(** [datetime.now()] *)
Definition now : M datetime :=
  w ← get_world;
  put_world (mkWorld (csv_source w) (fs w) (clock w) (S (ticks w)));;
  mret (clock w (ticks w)).

(** [for x in xs: body x] *)
Fixpoint for_each {A} (xs : list A) (body : A -> M unit) : M unit :=
  match xs with
  | [] => mret tt
  | x :: xs' => body x;; for_each xs' body
  end.

(** Attribute assignments.  [set_data] is an update of the dictionary
    in place or its replacement by an empty one: the keys that stay keep
    their order and a new key goes last.  [load_data] is the assignment
    of a dictionary read from a file, in the order of the file. *)
Definition set_data (d : gmap string (list record)) (self : DataProcessor) :=
  mkDataProcessor (backup_file_path self) d (excluded_components self)
    (column_mappings self) (stats self) (processed_files self)
    (ordered_keys (data_order self) d).
Definition load_data (d : gmap string (list record)) (order : list string)
    (self : DataProcessor) :=
  mkDataProcessor (backup_file_path self) d (excluded_components self)
    (column_mappings self) (stats self) (processed_files self)
    (ordered_keys order d).
Definition set_stats (st : gmap string (gmap string value)) (self : DataProcessor) :=
  mkDataProcessor (backup_file_path self) (data self)
    (excluded_components self) (column_mappings self) st
    (processed_files self) (data_order self).
Definition set_processed_files (p : gset string) (self : DataProcessor) :=
  mkDataProcessor (backup_file_path self) (data self)
    (excluded_components self) (column_mappings self) (stats self) p
    (data_order self).
Definition set_excluded_components (x : gset string) (self : DataProcessor) :=
  mkDataProcessor (backup_file_path self) (data self) x
    (column_mappings self) (stats self) (processed_files self)
    (data_order self).

Definition modify_self (f : DataProcessor -> DataProcessor) : M unit :=
  self ← get_self; put_self (f self).

(* ===================================================================== *)
(** * The methods of [DataProcessor] *)
(* ===================================================================== *)

(** Whether [json.dump] gets through an object. *)
Definition record_encodable (r : record) : bool :=
  forallb (fun kv => json_encodable (snd kv)) r.
Definition stats_encodable (st : gmap string (gmap string value)) : bool :=
  forallb (fun e => forallb (fun kv => json_encodable (snd kv))
                            (map_to_list (snd e)))
          (map_to_list st).
Definition data_encodable (d : gmap string (list record)) : bool :=
  forallb (fun e => forallb record_encodable (snd e)) (map_to_list d).

Definition write_file (path : string) (c : file_content) : M unit :=
  w ← get_world;
  put_world (mkWorld (csv_source w) (<[path := c]> (fs w)) (clock w) (ticks w)).

(** [with path.open('w', encoding='utf-8') as f: json.dump(obj, f, indent=4)]:
    opening truncates the file; when the encoder meets a value it cannot
    encode it raises [TypeError] and what was written so far stays. *)
Definition json_dump (path : string) (encodable : bool) (obj : file_content)
  : M unit :=
  if encodable then write_file path obj
  else write_file path Unreadable;; raise (TypeError "not JSON serializable").

(** The dictionary [json.load] returns, as [_load_state] reads it: an
    export artifact is an object with the keys [metadata] and [data]. *)
Definition json_load (c : file_content) : option snapshot :=
  match c with
  | Unreadable => None
  | SnapshotFile s => Some s
  | ExportFile e =>
      Some (mkSnapshot None None None None (Some (export_data e))
                       (export_data_order e))
  end.

(** What [self.stats.get('last_updated', 'Never')] returns: the statistics
    entry stored under that name, or the string. *)
Inductive last_updated_field : Type :=
| Never
| StatsEntry (entry : gmap string value).

(** The dictionary [get_state_summary] returns. *)
Record state_summary : Type := mkSummary {
  sum_processed_files : nat;
  sum_total_records : nat;
  sum_datasets : list string;
  sum_last_updated : last_updated_field
}.

(** [a - b] on Python integers ([bool] is a subclass of [int]). *)
Definition as_int (v : value) : option Z :=
  match v with
  | VInt z => Some z
  | VBool b => Some (Z.b2z b)
  | _ => None
  end.

Definition py_sub (a b : value) : M value :=
  match as_int a, as_int b with
  | Some x, Some y => mret (VInt (x - y))
  | _, _ => raise (TypeError "unsupported operand type(s) for -")
  end.

(** [record.get('Component') not in self.excluded_components] *)
Definition not_excluded (excluded : gset string) (r : record) : bool :=
  match PyDict.get "Component" r with
  | Some (VStr c) => bool_decide (c ∉ excluded)
  | _ => true
  end.

Section Methods.
Context `{Runtime}.

(** The directories of the file system are not modelled. *)
Definition _ensure_backup_path : M unit := mret tt.

Definition _save_state : M unit :=
  try_except
    (self ← get_self;
     last_updated ← now;
     let state :=
       mkSnapshot (Some (stats self))
                  (Some (elements (processed_files self)))
                  (Some (elements (excluded_components self)))
                  (Some (isoformat last_updated))
                  (Some (data self)) (map fst (data_items self)) in
     json_dump (state_file self)
               (stats_encodable (stats self) && data_encodable (data self))
               (SnapshotFile state))
    (fun _ => mret tt).

Definition _initialize_new_state : M unit :=
  modify_self (set_data ∅);;
  modify_self (set_stats ∅);;
  modify_self (set_processed_files ∅);;
  _save_state.

Definition _load_state : M unit :=
  try_except
    (self ← get_self;
     w ← get_world;
     match fs w !! state_file self with
     | None => mret tt
     | Some content =>
         match json_load content with
         | None => raise (ValueError "JSONDecodeError")
         | Some state =>
             modify_self (load_data (default ∅ (snap_data state))
                                    (snap_data_order state));;
             modify_self (set_stats (default ∅ (snap_stats state)));;
             modify_self (set_processed_files
               (list_to_set (default [] (snap_processed_files state))));;
             modify_self (set_excluded_components
               (list_to_set (default ["System"; "Folder"]
                               (snap_excluded_components state))))
         end
     end)
    (fun _ => _initialize_new_state).

(** [DataProcessor(backup_file_path)] *)
Definition __init__ (backup_file_path : string) (w : World)
  : outcome unit * Sys :=
  (_ensure_backup_path;; _load_state)
    (w, mkDataProcessor backup_file_path ∅
          {[ "System"; "Folder" ]}
          [("User Full Name *Anonymized", "User_ID")] ∅ ∅ []).

(** [_clean_csv_data(path)]: the pandas pipeline, as the world gives it. *)
Definition _clean_csv_data (path : string) : M (list record) :=
  w ← get_world;
  match csv_source w path with
  | Some records => mret records
  | None => raise (Wrapped "Error cleaning CSV data" (ValueError path))
  end.

Definition _save_json_records : M unit :=
  self ← get_self;
  if decide (data self = ∅) then mret tt
  else
    t ← now;
    let timestamp := strftime_compact t in
    let json_file_path :=
      path_join (backup_file_path self)
                ("processed_data_" ++ timestamp ++ ".json") in
    let output_data :=
      mkExport timestamp (stats self) (elements (processed_files self))
               (elements (excluded_components self))
               (column_mappings self) (data self)
               (map fst (data_items self)) in
    try_except
      (json_dump json_file_path
         (stats_encodable (stats self) && data_encodable (data self))
         (ExportFile output_data))
      (fun e => raise (Wrapped "Error saving JSON records" e)).

(** The body of the loop of [process_csv_files] for one path; the result
    is [true] when the path was ingested. *)
Definition process_one (file_path : string) : M bool :=
  let path := path_str file_path in
  self ← get_self;
  if decide (path ∈ processed_files self) then mret false
  else
    let dataset_name := path_stem_upper file_path in
    records ← _clean_csv_data path;
    let total_rows := Z.of_nat (length records) in
    processed_at ← now;
    modify_self (fun self => set_stats
      (<[dataset_name :=
           {[ "total_rows" := VInt total_rows;
              "original_rows" := VInt total_rows;
              "processed_at" := VStr (isoformat processed_at) ]}]>
         (stats self)) self);;
    modify_self (fun self => set_data
      (<[dataset_name := records]> (data self)) self);;
    modify_self (fun self => set_processed_files
      ({[ path ]} ∪ processed_files self) self);;
    mret true.

Fixpoint process_loop (file_paths : list string) (newly_processed : bool)
  : M bool :=
  match file_paths with
  | [] => mret newly_processed
  | file_path :: rest =>
      processed ← try_except (process_one file_path) (fun _ => mret false);
      process_loop rest (newly_processed || processed)
  end.

Definition process_csv_files (file_paths : list string) : M unit :=
  newly_processed ← process_loop file_paths false;
  if newly_processed : bool then _save_json_records;; _save_state
  else mret tt.

(** The body of the loop of [remove_excluded_components]. *)
Definition filter_dataset (item : string * list record) : M unit :=
  let '(dataset_name, records) := item in
  self ← get_self;
  match stats self !! dataset_name with
  | None => raise (KeyError dataset_name)
  | Some entry =>
      let original_rows :=
        default (default (VInt 0) (entry !! "total_rows"))
                (entry !! "original_rows") in
      let filtered_records :=
        List.filter (not_excluded (excluded_components self)) records in
      let filtered_rows := VInt (Z.of_nat (length filtered_records)) in
      removed_rows ← py_sub original_rows filtered_rows;
      filtered_at ← now;
      modify_self (fun self => set_stats
        (<[dataset_name :=
             <["filtered_at" := VStr (isoformat filtered_at)]>
               (<["removed_rows" := removed_rows]>
                  (<["filtered_rows" := filtered_rows]> entry))]>
           (stats self)) self);;
      modify_self (fun self => set_data
        (<[dataset_name := filtered_records]> (data self)) self)
  end.

Definition remove_excluded_components : M unit :=
  try_except
    (self ← get_self;
     for_each (data_items self) filter_dataset;;
     _save_state)
    (fun e => raise (Wrapped "Error removing excluded components" e)).

Definition get_state_summary : M state_summary :=
  self ← get_self;
  mret (mkSummary
          (size (processed_files self))
          (list_sum (map (fun item : string * list record =>
                            length (snd item))
                         (data_items self)))
          (map fst (data_items self))
          (match stats self !! "last_updated" with
           | Some entry => StatsEntry entry
           | None => Never
           end)).

Definition clear_state : M unit := _initialize_new_state.

End Methods.

(* ===================================================================== *)
(** * pandas tables *)
(* ===================================================================== *)

(** A [pd.DataFrame] with a default [RangeIndex]: the column labels, which
    may repeat, and the rows, each with one cell per column.  Labels are
    strings. *)
Record DataFrame : Type := mkDataFrame {
  columns : list string;
  rows : list (list value)
}.

Global Instance outcome_ret : MRet outcome := @Return.
Global Instance outcome_bind : MBind outcome := fun A B k m =>
  match m with
  | Return a => k a
  | Raise e => Raise e
  end.

Definition lift {A} (o : outcome A) : M A := fun s => (o, s).

Module Pandas.

(** The labels of the records in the order they are first seen. *)
Definition union_keys (acc : list string) (r : record) : list string :=
  fold_left (fun a k => if bool_decide (k ∈ a) then a else (a ++ [k])%list)
            (PyDict.keys r) acc.

(** [pd.DataFrame(records)]: a key a record lacks gives a missing cell. *)
Definition from_records (records : list record) : DataFrame :=
  let cols := fold_left union_keys records [] in
  mkDataFrame cols
    (map (fun r => map (fun c => default VNone (PyDict.get c r)) cols) records).

(** The positions at which a label occurs. *)
Fixpoint positions_from (i : nat) (label : string) (cols : list string)
  : list nat :=
  match cols with
  | [] => []
  | c :: cols' =>
      if String.eqb c label then i :: positions_from (S i) label cols'
      else positions_from (S i) label cols'
  end.
Definition positions : string -> list string -> list nat := positions_from 0.

(** Selecting a column that has to be a single [Series]. *)
Definition unique_position (label : string) (cols : list string)
  : outcome nat :=
  match positions label cols with
  | [] => Raise (KeyError label)
  | [i] => Return i
  | _ :: _ :: _ => Raise (ValueError ("label is not unique: " ++ label))
  end.

Definition cell (i : nat) (row : list value) : value :=
  default VNone (row !! i).

Definition remove_at {A} (i : nat) (l : list A) : list A :=
  (take i l ++ drop (S i) l)%list.

(** [df.reset_index()]: the old index becomes the first column, named
    [index], or [level_0] when [index] is taken. *)
Definition reset_index (df : DataFrame) : outcome DataFrame :=
  let label :=
    if bool_decide ("index" ∈ columns df) then "level_0" else "index" in
  if bool_decide (label ∈ columns df)
  then Raise (ValueError ("cannot insert, already exists: " ++ label))
  else Return (mkDataFrame (label :: columns df)
                 (imap (fun i row => VInt (Z.of_nat i) :: row) (rows df))).

(** Rows [0 .. n-1] of a table, a row of missing cells past its end. *)
Definition row_or_missing (df : DataFrame) (i : nat) : list value :=
  default (replicate (length (columns df)) VNone) (rows df !! i).

(** [pd.concat([a, b], axis=1)] of two tables indexed [0 .. n-1] and
    [0 .. m-1]: rows are paired by position, over the union of the two
    indexes. *)
Definition concat_columns (a b : DataFrame) : DataFrame :=
  let n := Nat.max (length (rows a)) (length (rows b)) in
  mkDataFrame (columns a ++ columns b)%list
    (map (fun i => (row_or_missing a i ++ row_or_missing b i)%list)
         (seq 0 n)).

(** [labels.duplicated()]: whether the label occurs earlier in the list. *)
Fixpoint duplicated_from (seen : list string) (labels : list string)
  : list bool :=
  match labels with
  | [] => []
  | l :: labels' => bool_decide (l ∈ seen) :: duplicated_from (l :: seen) labels'
  end.
Definition duplicated : list string -> list bool := duplicated_from [].

(** Suffixing a side of a merge must not make two labels equal that were
    not equal before. *)
Definition suffix_clash (before after : list string) : bool :=
  existsb (fun p => fst p && negb (snd p))
          (zip (duplicated after) (duplicated before)).

(** The array pandas holds a column in: timestamps, numbers (integers,
    some of them missing perhaps), booleans, or Python objects. *)
Inductive column_kind : Type := KDatetime | KNumber | KBool | KObject.

Definition kind_of (cells : list value) : column_kind :=
  if existsb is_time cells
     && forallb (fun v => is_time v || is_missing v) cells
  then KDatetime
  else if existsb is_int cells
          && forallb (fun v => is_int v || is_missing v) cells
  then KNumber
  else if existsb is_bool cells && forallb is_bool cells then KBool
  else KObject.

(** The key columns pandas refuses to merge on: timestamps against any
    other kind, and numbers against objects among which there are
    strings and no integer. *)
Definition incompatible_keys (lk rk : list value) : bool :=
  let text_like (cells : list value) : bool :=
    existsb is_str cells && negb (existsb is_int cells) in
  match kind_of lk, kind_of rk with
  | KDatetime, KDatetime => false
  | KDatetime, _ | _, KDatetime => true
  | KNumber, KObject => text_like rk
  | KObject, KNumber => text_like lk
  | _, _ => false
  end.

(** [left.merge(right, on=key, how='left')]: every row of [left], in
    order, once per row of [right] with an equal key (missing keys are
    equal to each other), or once with missing cells when there is
    none.  The key column is kept once; other labels the two sides share
    get the suffixes [_x] and [_y].  The cells stay as they are: where
    pandas turns the integers of a column that gets missing cells into
    floating-point numbers of the same value, the model keeps the
    integers. *)
Definition merge_left (left right : DataFrame) (key : string)
  : outcome DataFrame :=
  kl ← unique_position key (columns left);
  kr ← unique_position key (columns right);
  if incompatible_keys (map (cell kl) (rows left)) (map (cell kr) (rows right))
  then Raise (ValueError "You are trying to merge on columns of two kinds")
  else
  let right_labels := remove_at kr (columns right) in
  let shared (l : string) : bool :=
    bool_decide (l ∈ columns left) && bool_decide (l ∈ right_labels) in
  let rename (suffix : string) (l : string) : string :=
    if shared l then l ++ suffix else l in
  let llabels := map (rename "_x") (columns left) in
  let rlabels := map (rename "_y") right_labels in
  if suffix_clash (columns left) llabels || suffix_clash right_labels rlabels
  then Raise (ValueError "suffixes cause duplicate columns")
  else
    Return (mkDataFrame (llabels ++ rlabels)%list
      (flat_map (fun lrow =>
         match List.filter (fun rrow => value_eqb (cell kr rrow) (cell kl lrow))
                           (rows right) with
         | [] => [(lrow ++ replicate (length right_labels) VNone)%list]
         | matches => map (fun rrow => (lrow ++ remove_at kr rrow)%list) matches
         end) (rows left))).

(** [df.iloc[:, k:]] *)
Definition iloc_columns_from (k : nat) (df : DataFrame) : DataFrame :=
  mkDataFrame (drop k (columns df)) (map (drop k) (rows df)).

(** [df[label] = cells]: every column of that label is replaced, or a new
    last column is added. *)
Definition set_column (label : string) (cells : list value) (df : DataFrame)
  : DataFrame :=
  if bool_decide (label ∈ columns df)
  then mkDataFrame (columns df)
         (zip_with (fun row c =>
            zip_with (fun l old => if String.eqb l label then c else old)
                     (columns df) row) (rows df) cells)
  else mkDataFrame (columns df ++ [label])%list
         (zip_with (fun row c => (row ++ [c])%list) (rows df) cells).

(** [for x in xs: f x], stopping at the first exception. *)
Fixpoint traverse {A B} (f : A -> outcome B) (xs : list A)
  : outcome (list B) :=
  match xs with
  | [] => Return []
  | x :: xs' => y ← f x; ys ← traverse f xs'; Return (y :: ys)
  end.

End Pandas.

(* ===================================================================== *)
(** * Merging and reshaping *)
(* ===================================================================== *)

(** The order of the rows of the pivot: [User_ID], then [Month]. *)
Definition key_leb (a b : Z * string) : bool :=
  (fst a <? fst b) || ((fst a =? fst b) && String.leb (snd a) (snd b)).
Definition key_le (a b : Z * string) : Prop := key_leb a b = true.
Definition str_le (a b : string) : Prop := String.leb a b = true.

Global Instance key_le_dec (a b : Z * string) : Decision (key_le a b).
Proof. unfold key_le. apply _. Defined.
Global Instance str_le_dec (a b : string) : Decision (str_le a b).
Proof. unfold str_le. apply _. Defined.

(** The key of a row of the pivot, read off its first two cells. *)
Definition row_key (row : list value) : Z * string :=
  match row with
  | VInt u :: VStr m :: _ => (u, m)
  | _ => (0, "")
  end.
Definition row_le (r1 r2 : list value) : Prop :=
  key_le (row_key r1) (row_key r2).
Global Instance row_le_dec (r1 r2 : list value) : Decision (row_le r1 r2).
Proof. unfold row_le. apply _. Defined.

(** One row of the merged table, as the pivot reads it. *)
Record interaction : Type := mkInteraction {
  i_user : Z;
  i_month : value;
  i_component : value;
  i_action : value
}.

(** Rows whose [Month] or [Component] is missing take no part in the
    pivot ([dropna=True], the default of [pd.pivot_table]); any other
    label has to be a string. *)
Definition pivot_key (x : interaction) : outcome (option (Z * string * string)) :=
  match i_month x, i_component x with
  | VNone, _ | _, VNone => Return None
  | VStr m, VStr c => Return (Some (i_user x, m, c))
  | _, _ => Raise (TypeError "label is not a string")
  end.

(** [aggfunc='count']: the rows of the group whose [Action] is not
    missing. *)
Definition counts_for (u : Z) (m c : string) (x : interaction) : bool :=
  (i_user x =? u) && value_eqb (i_month x) (VStr m)
  && value_eqb (i_component x) (VStr c)
  && negb (value_eqb (i_action x) VNone).

Definition count_actions (xs : list interaction) (u : Z) (m c : string) : Z :=
  Z.of_nat (length (List.filter (counts_for u m c) xs)).

Definition sum_cells (cells : list value) : Z :=
  fold_right (fun v acc => default 0 (as_int v) + acc) 0 cells.

Section Tables.
Context `{Runtime}.

(** [pd.to_datetime] on one cell; a missing cell stays missing. *)
Definition to_datetime (v : value) : outcome (option datetime) :=
  match v with
  | VTime t => Return (Some t)
  | VNone => Return None
  | VStr s =>
      match parse_datetime s with
      | Some t => Return (Some t)
      | None => Raise (ValueError "unable to parse the date")
      end
  | VInt z =>
      match datetime_of_ns z with
      | Some t => Return (Some t)
      | None => Raise (ValueError "out of bounds nanosecond timestamp")
      end
  | VBool _ => Raise (TypeError "bool is not convertible to datetime")
  end.

(** [.dt.strftime('%Y-%m')] on one cell. *)
Definition month_of (d : option datetime) : value :=
  match d with
  | Some t => VStr (strftime_Y_m t)
  | None => VNone
  end.

Definition merge_datasets : M DataFrame :=
  try_except
    (self ← get_self;
     let required_datasets : gset string := {[ "ACTIVITY_LOG"; "USER_LOG" ]} in
     let available_datasets : gset string := dom (data self) in
     if decide (required_datasets ⊆ available_datasets) then
       let frame (name : string) : M DataFrame :=
         match data self !! name with
         | Some records => mret (Pandas.from_records records)
         | None => raise (KeyError name)
         end in
       activity_df ← frame "ACTIVITY_LOG";
       user_df ← frame "USER_LOG";
       component_df ← frame "COMPONENT_CODES";
       lift (a ← Pandas.reset_index activity_df;
             u ← Pandas.reset_index user_df;
             let merged_df := Pandas.concat_columns a u in
             merged_df ← Pandas.merge_left merged_df component_df "Component";
             (* Remove the first column (duplicate index) *)
             let merged_df := Pandas.iloc_columns_from 2 merged_df in
             date ← Pandas.unique_position "Date" (columns merged_df);
             dates ← Pandas.traverse
                       (fun row => to_datetime (Pandas.cell date row))
                       (rows merged_df);
             Return (Pandas.set_column "Month" (map month_of dates) merged_df))
     else
       raise (MissingRequiredDatasets (required_datasets ∖ available_datasets)))
    (fun e => raise (Wrapped "Merge operation failed" e)).

(** [int(x)] as [astype(int)] applies it to a cell, into a signed 64-bit
    integer. *)
Definition astype_int (v : value) : outcome Z :=
  z ← match v with
      | VInt z => Return z
      | VBool b => Return (Z.b2z b)
      | VStr s =>
          match python_int s with
          | Some z => Return z
          | None => Raise (ValueError "invalid literal for int()")
          end
      | VNone => Raise (ValueError "cannot convert missing value to integer")
      | VTime _ => Raise (TypeError "int() argument must be a number")
      end;
  if (- 2 ^ 63 <=? z) && (z <? 2 ^ 63) then Return z
  else Raise (ValueError "Python int too large to convert").

(** A column that pandas holds as an array of unsigned 64-bit integers:
    all its cells are integers from [0] to [2^64 - 1]. *)
Definition unsigned_column (cells : list value) : bool :=
  forallb (fun v => match v with
                    | VInt z => (0 <=? z) && (z <? 2 ^ 64)
                    | _ => false
                    end) cells.

(** The cast of an unsigned 64-bit integer to a signed one. *)
Definition wrap_int64 (z : Z) : Z := if z <? 2 ^ 63 then z else z - 2 ^ 64.

(** [column.astype(int)]: the cast of an unsigned column wraps around
    and does not raise; any other column is converted cell by cell. *)
Definition astype_int_column (cells : list value) : outcome (list Z) :=
  if unsigned_column cells
  then Return (map (fun v => wrap_int64 (default 0 (as_int v))) cells)
  else Pandas.traverse astype_int cells.

(** The four columns of the merged table the pivot reads, [User_ID]
    already converted. *)
Definition interactions (df : DataFrame) : outcome (list interaction) :=
  user ← Pandas.unique_position "User_ID" (columns df);
  users ← astype_int_column (map (Pandas.cell user) (rows df));
  month ← Pandas.unique_position "Month" (columns df);
  component ← Pandas.unique_position "Component" (columns df);
  action ← Pandas.unique_position "Action" (columns df);
  Return (zip_with (fun u row =>
            mkInteraction u (Pandas.cell month row)
                          (Pandas.cell component row)
                          (Pandas.cell action row))
          users (rows df)).

(** [pd.pivot_table(df, index=['User_ID', 'Month'], columns=['Component'],
    values='Action', aggfunc='count', fill_value=0).reset_index()] *)
Definition pivot_table (xs : list interaction) : outcome DataFrame :=
  keys ← Pandas.traverse pivot_key xs;
  let groups := omap id keys in
  let index := merge_sort key_le (remove_dups (map fst groups)) in
  let components := merge_sort str_le (remove_dups (map snd groups)) in
  if bool_decide ("User_ID" ∈ components) || bool_decide ("Month" ∈ components)
  then Raise (ValueError "cannot insert, already exists")
  else
    Return (mkDataFrame ("User_ID" :: "Month" :: components)
      (map (fun k =>
              VInt (fst k) :: VStr (snd k)
              :: map (fun c => VInt (count_actions xs (fst k) (snd k) c))
                     components)
           index)).

Definition reshape_data (df : DataFrame) : M DataFrame :=
  try_except
    (lift (xs ← interactions df;
           pivot_df ← pivot_table xs;
           let activity_cols :=
             List.filter (fun col => negb (bool_decide (col ∈ ["User_ID"; "Month"])))
                         (columns pivot_df) in
           let totals :=
             map (fun row =>
                    VInt (sum_cells
                      (map snd (List.filter
                         (fun lc => bool_decide (fst lc ∈ activity_cols))
                         (zip (columns pivot_df) row)))))
                 (rows pivot_df) in
           let pivot_df := Pandas.set_column "Total_Interactions" totals pivot_df in
           Return (mkDataFrame (columns pivot_df)
                     (merge_sort row_le (rows pivot_df)))))
    (fun e => raise (Wrapped "Reshape operation failed" e)).

End Tables.

(* ===================================================================== *)
(** * Renaming, counting and the accessors *)
(* ===================================================================== *)

(** [if old_key in record: record[new_key] = record.pop(old_key)] *)
Definition rename_key (old_key new_key : string) (r : record) : record :=
  match PyDict.get old_key r with
  | Some v => PyDict.set new_key v (PyDict.remove old_key r)
  | None => r
  end.

(** ** Group keys

    [groupby] hashes and compares the cells of a key column as Python
    does, so [True] and [1] are one key, and [False] and [0]. *)

Global Instance datetime_eq_dec : EqDecision datetime.
Proof. solve_decision. Defined.
Global Instance value_eq_dec : EqDecision value.
Proof. solve_decision. Defined.

(** The value a cell is compared by as a key. *)
Definition py_norm (v : value) : value :=
  match v with
  | VBool b => VInt (Z.b2z b)
  | _ => v
  end.

(** Sorting the keys of a column compares a timestamp with a number when
    the column holds both, and [<] raises [TypeError] on the two. *)
Definition unorderable (cells : list value) : bool :=
  existsb is_time cells && existsb is_number cells.

(** The fields of a timestamp, most significant first. *)
Definition datetime_fields (t : datetime) : list nat :=
  [dt_year t; dt_month t; dt_day t; dt_hour t; dt_minute t; dt_second t;
   dt_micro t].

Fixpoint fields_leb (a b : list nat) : bool :=
  match a, b with
  | [], _ => true
  | _ :: _, [] => false
  | x :: a', y :: b' => (x <? y)%nat || ((x =? y)%nat && fields_leb a' b')
  end.

(** The order the sorted keys of one column are in: numbers by value and
    timestamps by date, then the strings, by code point. *)
Definition cell_leb (a b : value) : bool :=
  match a, b with
  | VStr x, VStr y => String.leb x y
  | VStr _, _ => false
  | _, VStr _ => true
  | VTime x, VTime y => fields_leb (datetime_fields x) (datetime_fields y)
  | _, _ =>
      match as_int a, as_int b with
      | Some x, Some y => x <=? y
      | _, _ => true
      end
  end.

(** The order of the rows of [count_interactions]: [User_ID], then
    [Component], then [Month]. *)
Definition triple_leb (a b : value * value * value) : bool :=
  let before (x y : value) : bool := negb (cell_leb y x) in
  let same (x y : value) : bool := bool_decide (x = y) in
  before (fst (fst a)) (fst (fst b))
  || (same (fst (fst a)) (fst (fst b))
      && (before (snd (fst a)) (snd (fst b))
          || (same (snd (fst a)) (snd (fst b))
              && cell_leb (snd a) (snd b)))).
Definition triple_le (a b : value * value * value) : Prop :=
  triple_leb a b = true.
Global Instance triple_le_dec (a b : value * value * value)
  : Decision (triple_le a b).
Proof. unfold triple_le. apply _. Defined.

(** The key of a row in [groupby(['User_ID', 'Component', 'Month'])]: a
    row in which one of the three is missing belongs to no group
    ([dropna=True], the default). *)
Definition count_key (user component month : nat) (row : list value)
  : option (value * value * value) :=
  match Pandas.cell user row, Pandas.cell component row,
        Pandas.cell month row with
  | VNone, _, _ | _, VNone, _ | _, _, VNone => None
  | u, c, m => Some (py_norm u, py_norm c, py_norm m)
  end.

(** The cell a group shows for a key: the first cell of the column that
    is equal to it. *)
Definition first_seen (cells : list value) (key : value) : value :=
  default key (head (List.filter (fun c => bool_decide (py_norm c = key))
                                 cells)).

(** [.size()]: the number of rows of the group. *)
Definition group_size {K} `{EqDecision K} (groups : list K) (k : K) : nat :=
  length (List.filter (fun g => bool_decide (g = k)) groups).

Section MoreMethods.
Context `{Runtime}.

Definition rename_user_column : M unit :=
  try_except
    (let old_key := "User Full Name *Anonymized" in
     let new_key := "User_ID" in
     modify_self (fun self => set_data
       (fmap (M := gmap string) (map (rename_key old_key new_key)) (data self))
       self);;
     (* Save updated state *)
     _save_json_records;;
     _save_state)
    (fun e => raise (Wrapped "Error renaming user column" e)).

(** [{self.column_mappings.get(key, key): value for key, value in
    row.items()}] *)
Definition _rename_columns (row : record) : M record :=
  try_except
    (self ← get_self;
     mret (fold_left
             (fun acc kv =>
                PyDict.set (default (fst kv)
                              (PyDict.get (fst kv) (column_mappings self)))
                           (snd kv) acc)
             row []))
    (fun e => raise (Wrapped "Error renaming columns" e)).

Definition count_interactions (df : DataFrame) : M DataFrame :=
  try_except
    (lift (user ← Pandas.unique_position "User_ID" (columns df);
           component ← Pandas.unique_position "Component" (columns df);
           month ← Pandas.unique_position "Month" (columns df);
           let column (k : nat) : list value :=
             map (Pandas.cell k) (rows df) in
           if unorderable (column user) || unorderable (column component)
              || unorderable (column month)
           then Raise (TypeError "'<' not supported between instances")
           else
             let groups := omap (count_key user component month) (rows df) in
             Return (mkDataFrame
                       ["User_ID"; "Component"; "Month"; "Interaction_Count"]
                       (map (fun k =>
                               [first_seen (column user) (fst (fst k));
                                first_seen (column component) (snd (fst k));
                                first_seen (column month) (snd k);
                                VInt (Z.of_nat (group_size groups k))])
                            (merge_sort triple_le (remove_dups groups))))))
    (fun e => raise (Wrapped "Counting interactions failed" e)).

(** [get_data(dataset_name)]; [None] is the call without an argument.
    The dictionary it returns is given by its items, in order. *)
Definition get_data (dataset_name : option string)
  : M (list (string * list record)) :=
  self ← get_self;
  match dataset_name with
  | Some name =>
      if String.eqb name ""
      then mret (data_items self)
      else mret [(name, default [] (data self !! name))]
  | None => mret (data_items self)
  end.

End MoreMethods.

(* ===================================================================== *)
(** * A concrete runtime and concrete runs *)
(* ===================================================================== *)

Module Examples.

(** ASCII upper-casing, the file name after the last [/], and the name
    before its last dot. *)
Definition upper_char (c : ascii) : ascii :=
  let n := nat_of_ascii c in
  if (97 <=? n)%nat && (n <=? 122)%nat then ascii_of_nat (n - 32) else c.

Fixpoint upper (s : string) : string :=
  match s with
  | EmptyString => EmptyString
  | String c s' => String (upper_char c) (upper s')
  end.

Fixpoint basename_from (acc s : string) : string :=
  match s with
  | EmptyString => acc
  | String c s' =>
      if Ascii.eqb c "/" then basename_from EmptyString s'
      else basename_from (acc ++ String c EmptyString) s'
  end.

Fixpoint before_last_dot (s : string) : option string :=
  match s with
  | EmptyString => None
  | String c s' =>
      match before_last_dot s' with
      | Some r => Some (String c r)
      | None => if Ascii.eqb c "." then Some EmptyString else None
      end
  end.

Definition stem (p : string) : string :=
  let name := basename_from EmptyString p in
  default name (before_last_dot name).

(** Decimal numerals. *)
Fixpoint digits_from (acc : nat) (s : string) : option nat :=
  match s with
  | EmptyString => Some acc
  | String c s' =>
      let n := nat_of_ascii c in
      if (48 <=? n)%nat && (n <=? 57)%nat
      then digits_from (10 * acc + (n - 48)) s'
      else None
  end.

Definition numeral (s : string) : option nat :=
  match s with
  | EmptyString => None
  | _ => digits_from 0 s
  end.

Definition int_literal (s : string) : option Z :=
  match s with
  | String "-" s' => (fun n => - Z.of_nat n) <$> numeral s'
  | _ => Z.of_nat <$> numeral s
  end.

(** Dates written [YYYY-MM-DD]. *)
Definition iso_date (s : string) : option datetime :=
  if bool_decide (String.length s = 10%nat)
  then
    y ← numeral (substring 0 4 s);
    m ← numeral (substring 5 2 s);
    d ← numeral (substring 8 2 s);
    if String.eqb (substring 4 1 s) "-" && String.eqb (substring 7 1 s) "-"
       && (1 <=? m)%nat && (m <=? 12)%nat && (1 <=? d)%nat && (d <=? 31)%nat
    then Some (mkDatetime y m d 0 0 0 0) else None
  else None.

Global Instance runtime : Runtime := {|
  path_str := fun p => p;
  path_stem_upper := fun p => upper (stem p);
  parse_datetime := iso_date;
  datetime_of_ns := fun _ => None;
  python_int := int_literal
|}.

Definition wall_clock (n : nat) : datetime := mkDatetime 2024 3 1 9 0 n 0.

Definition day (y m d : nat) : value := VTime (mkDatetime y m d 0 0 0 0).

(** The cleaned content of three CSV files.  [activity_log.csv] has a
    [Date] column, which [_clean_csv_data] turns into timestamps. *)
Definition activity_records : list record :=
  [ [("Date", day 2024 1 10); ("User Full Name *Anonymized", VInt 7);
     ("Component", VStr "Quiz"); ("Action", VStr "Viewed")];
    [("Date", day 2024 1 11); ("User Full Name *Anonymized", VInt 7);
     ("Component", VStr "System"); ("Action", VStr "Logged in")];
    [("Date", day 2024 2 2); ("User Full Name *Anonymized", VInt 9);
     ("Component", VStr "Forum"); ("Action", VStr "Posted")] ].

Definition component_records : list record :=
  [ [("Component", VStr "Quiz"); ("Code", VStr "Quiz_1")];
    [("Component", VStr "Forum"); ("Code", VStr "Forum_1")];
    [("Component", VStr "System"); ("Code", VStr "System_1")];
    [("Code", VStr "Orphan")] ].

Definition csv_files (path : string) : option (list record) :=
  if String.eqb path "logs/activity_log.csv" then Some activity_records
  else if String.eqb path "logs/component_codes.csv" then Some component_records
  else None.

Definition fresh_world : World := mkWorld csv_files ∅ wall_clock 0.

(** A processor just constructed on an empty backup directory. *)
Definition started : Sys := snd (__init__ "files" fresh_world).

(** ... after ingesting the component codes, *)
Definition with_codes : Sys :=
  snd (process_csv_files ["logs/component_codes.csv"] started).

(** ... after ingesting the activity log instead. *)
Definition with_activity : Sys :=
  snd (process_csv_files ["logs/activity_log.csv"] started).

Definition user_records : list record :=
  [ [("User Full Name *Anonymized", VInt 7); ("Date", day 2024 1 10)];
    [("User Full Name *Anonymized", VInt 7); ("Date", day 2024 1 11)];
    [("User Full Name *Anonymized", VInt 9); ("Date", day 2024 2 2)] ].

Definition activity_rows : list record :=
  [ [("Time", VStr "10:00"); ("Component", VStr "Quiz");
     ("Action", VStr "Viewed")];
    [("Time", VStr "10:05"); ("Component", VStr "Quiz");
     ("Action", VStr "Submitted")];
    [("Time", VStr "11:30"); ("Component", VStr "Forum");
     ("Action", VStr "Posted")] ].

Definition processor_with (datasets : gmap string (list record))
  : DataProcessor :=
  mkDataProcessor "files" datasets {[ "System"; "Folder" ]}
    [("User Full Name *Anonymized", "User_ID")] ∅ ∅
    (ordered_keys [] datasets).

(** The three datasets of a merge, three rows in each log. *)
Definition merge_ready : Sys :=
  (fresh_world,
   processor_with {[ "ACTIVITY_LOG" := activity_rows;
                     "USER_LOG" := user_records;
                     "COMPONENT_CODES" := component_records ]}).

(** The same logs with three component codes, two of them for [Quiz]. *)
Definition repeated_codes : Sys :=
  (fresh_world,
   processor_with {[ "ACTIVITY_LOG" := activity_rows;
                     "USER_LOG" := user_records;
                     "COMPONENT_CODES" :=
                       [ [("Component", VStr "Quiz"); ("Code", VStr "Quiz_1")];
                         [("Component", VStr "Quiz"); ("Code", VStr "Quiz_2")];
                         [("Component", VStr "Forum"); ("Code", VStr "Forum_1")] ]
                   ]}).

(** Logs after [rename_user_column], the activity log one row short. *)
Definition uneven_logs : Sys :=
  (fresh_world,
   processor_with
     {[ "ACTIVITY_LOG" :=
          [ [("Time", VStr "10:00"); ("Component", VStr "Quiz");
             ("Action", VStr "Viewed")];
            [("Time", VStr "10:05"); ("Component", VStr "Forum");
             ("Action", VStr "Posted")] ];
        "USER_LOG" :=
          [ [("User_ID", VInt 7); ("Date", day 2024 1 10)];
            [("User_ID", VInt 7); ("Date", day 2024 1 11)];
            [("User_ID", VInt 9); ("Date", day 2024 2 2)] ];
        "COMPONENT_CODES" := component_records ]}).

(** A merged table: user 7 with two [Quiz] actions and one [Forum]
    action in January 2024. *)
Definition merged_table : DataFrame :=
  mkDataFrame ["User_ID"; "Component"; "Action"; "Month"]
    [ [VStr "7"; VStr "Quiz"; VStr "Viewed"; VStr "2024-01"];
      [VStr "7"; VStr "Quiz"; VStr "Submitted"; VStr "2024-01"];
      [VInt 7; VStr "Forum"; VStr "Posted"; VStr "2024-01"];
      [VInt 3; VStr "Quiz"; VNone; VStr "2024-02"] ].

(** A processor whose exclusion set was configured to [{Quiz}]. *)
Definition configured : Sys :=
  (fst with_codes, set_excluded_components {[ "Quiz" ]} (snd with_codes)).

End Examples.

(* ===================================================================== *)
(** * Specification-level definitions *)
(* ===================================================================== *)

(** The world [_save_state] leaves: one reading of the clock is used and
    the snapshot file is rewritten. *)
Definition saved_world (s : Sys) : World :=
  let '(w, self) := s in
  mkWorld (csv_source w)
    (<[state_file self :=
         if stats_encodable (stats self) && data_encodable (data self)
         then SnapshotFile
                (mkSnapshot (Some (stats self))
                   (Some (elements (processed_files self)))
                   (Some (elements (excluded_components self)))
                   (Some (isoformat (clock w (ticks w))))
                   (Some (data self)) (map fst (data_items self)))
         else Unreadable]> (fs w))
    (clock w) (S (ticks w)).


(** One reading of the clock. *)
Definition tick (w : World) : World :=
  mkWorld (csv_source w) (fs w) (clock w) (S (ticks w)).

(** The processor after one path is ingested at time [t]. *)
Definition ingested `{Runtime} (file_path : string) (records : list record)
    (t : datetime) (self : DataProcessor) : DataProcessor :=
  let total_rows := VInt (Z.of_nat (length records)) in
  mkDataProcessor (backup_file_path self)
    (<[path_stem_upper file_path := records]> (data self))
    (excluded_components self) (column_mappings self)
    (<[path_stem_upper file_path :=
         {[ "total_rows" := total_rows; "original_rows" := total_rows;
            "processed_at" := VStr (isoformat t) ]}]> (stats self))
    ({[ path_str file_path ]} ∪ processed_files self)
    (ordered_keys (data_order self)
       (<[path_stem_upper file_path := records]> (data self))).

(** The path of the export artifact written at time [t]. *)
Definition export_file (self : DataProcessor) (t : datetime) : string :=
  path_join (backup_file_path self)
            ("processed_data_" ++ strftime_compact t ++ ".json").

Definition encodable (self : DataProcessor) : bool :=
  stats_encodable (stats self) && data_encodable (data self).

(** The row count [remove_excluded_components] measures against: the
    [original_rows] statistic, or [total_rows], or [0]. *)
Definition original_rows_of (entry : gmap string value) : value :=
  default (default (VInt 0) (entry !! "total_rows")) (entry !! "original_rows").

(** The statistics entry after filtering left [kept] rows at time [t]. *)
Definition filtered_entry (entry : gmap string value) (original kept : Z)
    (t : datetime) : gmap string value :=
  <["filtered_at" := VStr (isoformat t)]>
    (<["removed_rows" := VInt (original - kept)]>
       (<["filtered_rows" := VInt kept]> entry)).

(** The processor after one dataset is filtered. *)
Definition filtered (name : string) (records : list record)
    (entry : gmap string value) (original : Z) (t : datetime)
    (self : DataProcessor) : DataProcessor :=
  let kept := List.filter (not_excluded (excluded_components self)) records in
  mkDataProcessor (backup_file_path self)
    (<[name := kept]> (data self))
    (excluded_components self) (column_mappings self)
    (<[name := filtered_entry entry original (Z.of_nat (length kept)) t]>
       (stats self))
    (processed_files self)
    (ordered_keys (data_order self) (<[name := kept]> (data self))).

(** [self.stats[name][key]], when both keys are there. *)
Definition stat (self : DataProcessor) (name key : string) : option value :=
  entry ← stats self !! name; entry !! key.

(** The [Component] of a record as the join compares it. *)
Definition component_of (r : record) : value :=
  default VNone (PyDict.get "Component" r).

(** No two records have the same [Component]. *)
Definition distinct_components (records : list record) : Prop :=
  forall i j ri rj,
    records !! i = Some ri -> records !! j = Some rj ->
    component_of ri = component_of rj -> i = j.

(** Row [i] of the two logs side by side, each after its position. *)
Definition combined_row (i : nat) (arow urow : list value) : list value :=
  (VInt (Z.of_nat i) :: arow ++ VInt (Z.of_nat i) :: urow)%list.

(** The cells the left join appends for a key: those of the first row of
    [right] with that key, its key cell left out, or missing cells. *)
Definition joined_cells (right : DataFrame) (kr : nat) (key : value)
  : list value :=
  match List.filter (fun rrow => value_eqb (Pandas.cell kr rrow) key)
                    (rows right) with
  | rrow :: _ => Pandas.remove_at kr rrow
  | [] => replicate (length (Pandas.remove_at kr (columns right))) VNone
  end.

(** Every row has one cell per column. *)
Definition rectangular (df : DataFrame) : Prop :=
  Forall (fun row => length row = length (columns df)) (rows df).

(** The counts of one row of the pivot, and the row itself. *)
Definition pivot_counts (xs : list interaction) (components : list string)
    (k : Z * string) : list Z :=
  map (count_actions xs (fst k) (snd k)) components.

Definition pivot_row (xs : list interaction) (components : list string)
    (k : Z * string) : list value :=
  (VInt (fst k) :: VStr (snd k)
   :: map VInt (pivot_counts xs components k)
   ++ [VInt (fold_right Z.add 0 (pivot_counts xs components k))])%list.

(** The row of [xs] counts towards the pivot cell [(u, m)], [c]. *)
Definition in_group (x : interaction) (u : Z) (m c : string) : Prop :=
  i_user x = u /\ i_month x = VStr m /\ i_component x = VStr c.

(** The rows and the columns of the pivot, from the keys of the rows of
    the merged table ([None] for a row that takes no part). *)
Definition pivot_index (keys : list (option (Z * string * string)))
  : list (Z * string) :=
  merge_sort key_le (remove_dups (map fst (omap id keys))).

Definition pivot_components (keys : list (option (Z * string * string)))
  : list string :=
  merge_sort str_le (remove_dups (map snd (omap id keys))).

(** A row of the merged table that a cell of the pivot counts: its
    [Month] and its [Component] are strings and its [Action] is present. *)
Definition counted (x : interaction) : bool :=
  match i_month x, i_component x with
  | VStr _, VStr _ => negb (value_eqb (i_action x) VNone)
  | _, _ => false
  end.

(** The [Total_Interactions] cell of a row of the reshaped table, its
    last one. *)
Definition total_interactions (row : list value) : Z :=
  default 0 (last row ≫= as_int).

(** The rows of [df] whose [User_ID], [Component] and [Month] cells, at
    the positions [user], [component] and [month], are equal to those of
    [k] as keys. *)
Definition rows_of_group (user component month : nat) (df : DataFrame)
    (k : value * value * value) : list (list value) :=
  List.filter
    (fun row =>
       bool_decide (py_norm (Pandas.cell user row) = py_norm (fst (fst k)))
       && bool_decide (py_norm (Pandas.cell component row)
                       = py_norm (snd (fst k)))
       && bool_decide (py_norm (Pandas.cell month row) = py_norm (snd k)))
    (rows df).

(** The key cells of a row of [count_interactions], as they are
    compared. *)
Definition count_row_key (row : list value) : list value :=
  map py_norm (take 3 row).

(** The name a column gets from [column_mappings]: its own when it has
    no mapping. *)
Definition mapped_key (mappings : dict string) (key : string) : string :=
  default key (PyDict.get key mappings).

(** What renaming the user column does to one record: the old key is
    gone, its value is under the new key, and the other keys hold what
    they held. *)
Definition user_column_renamed (old_key new_key : string) (r r' : record)
  : Prop :=
  PyDict.get old_key r' = None
  /\ PyDict.get new_key r'
     = match PyDict.get old_key r with
       | Some v => Some v
       | None => PyDict.get new_key r
       end
  /\ forall k, k <> old_key -> k <> new_key ->
       PyDict.get k r' = PyDict.get k r.

(** The order kept beside [self.data] lists the keys of the dictionary,
    each once. *)
Definition keys_listed (self : DataProcessor) : Prop :=
  data_order self = ordered_keys (data_order self) (data self).

(** A cell that holds a string or is missing. *)
Definition text_or_missing (v : value) : Prop :=
  v = VNone \/ exists s, v = VStr s.

(** Every dataset has a statistics entry whose [original_rows] and
    [total_rows] are the same integer, and holds no more records than
    that. *)
Definition stats_cover_data (self : DataProcessor) : Prop :=
  forall name records,
    data self !! name = Some records ->
    exists entry original,
      stats self !! name = Some entry
      /\ entry !! "original_rows" = Some (VInt original)
      /\ entry !! "total_rows" = Some (VInt original)
      /\ Z.of_nat (length records) <= original.

(** The states of a processor that was first started without a state
    file and then driven through its methods, the world changing freely
    between two calls; a restart reads the file the last save wrote. *)
Inductive reachable `{Runtime} : Sys -> Prop :=
| reach_start (backup : string) (w : World) :
    fs w !! path_join backup "application_state.json" = None ->
    reachable (snd (__init__ backup w))
| reach_world (w w' : World) (self : DataProcessor) :
    reachable (w, self) -> reachable (w', self)
| reach_ingest (file_paths : list string) (s : Sys) :
    reachable s -> reachable (snd (process_csv_files file_paths s))
| reach_filter (s : Sys) :
    reachable s -> reachable (snd (remove_excluded_components s))
| reach_rename (s : Sys) :
    reachable s -> reachable (snd (rename_user_column s))
| reach_clear (s : Sys) :
    reachable s -> reachable (snd (clear_state s))
| reach_restart (s : Sys) :
    reachable s ->
    reachable (snd (__init__ (backup_file_path (snd s))
                             (fst (snd (_save_state s))))).
(* ===================================================================== *)
(** * Persistence: [_save_state], [_load_state], [clear_state] *)
(* ===================================================================== *)

(** Closed goals about concrete runs are settled by evaluation. *)
Ltac evaluate :=
  cbv zeta;
  repeat match goal with |- _ /\ _ => split end;
  try (vm_compute; reflexivity).

Ltac run_monad :=
  unfold mbind, M_bind, bind, mret, M_ret, ret, raise, try_except,
    modify_self, get_self, get_world, put_self, put_world, lift; simpl.

(** ** The order of the datasets *)

Lemma ordered_keys_dom (order : list string) (d : gmap string (list record))
    (k : string) :
  k ∈ ordered_keys order d <-> k ∈ dom d.
Proof.
  unfold ordered_keys. rewrite elem_of_app, !list_elem_of_In, !filter_In.
  rewrite <- !list_elem_of_In, elem_of_remove_dups, elem_of_elements.
  rewrite !bool_decide_eq_true. split.
  - intros [[_ Hk] | [Hk _]]; exact Hk.
  - intros Hk. destruct (decide (k ∈ order)); auto.
Qed.

Lemma NoDup_list_filter {A} (f : A -> bool) (l : list A) :
  NoDup l -> NoDup (List.filter f l).
Proof.
  induction 1 as [| x l Hx _ IH]; simpl; [constructor |].
  destruct (f x); [| exact IH]. constructor; [| exact IH].
  intros Hin. apply Hx. apply list_elem_of_In, filter_In in Hin as [Hin _].
  apply list_elem_of_In. exact Hin.
Qed.

Lemma ordered_keys_NoDup (order : list string) (d : gmap string (list record)) :
  NoDup (ordered_keys order d).
Proof.
  unfold ordered_keys. apply NoDup_app. split; [| split].
  - apply NoDup_list_filter, NoDup_remove_dups.
  - intros k Hin Hin'. apply list_elem_of_In, filter_In in Hin as [Hin _].
    apply list_elem_of_In, filter_In in Hin' as [_ Hout].
    apply bool_decide_eq_true in Hout. apply Hout.
    apply list_elem_of_In in Hin. rewrite elem_of_remove_dups in Hin.
    exact Hin.
  - apply NoDup_list_filter, NoDup_elements.
Qed.

Lemma filter_all_in {A} (f : A -> bool) (l : list A) :
  (forall x, x ∈ l -> f x = true) -> List.filter f l = l.
Proof.
  induction l as [| x l IH]; intros Hall; simpl; [reflexivity |].
  rewrite Hall by left. rewrite IH; [reflexivity |].
  intros y Hy. apply Hall. right. exact Hy.
Qed.

Lemma filter_none_in {A} (f : A -> bool) (l : list A) :
  (forall x, x ∈ l -> f x = false) -> List.filter f l = [].
Proof.
  induction l as [| x l IH]; intros Hall; simpl; [reflexivity |].
  rewrite Hall by left. apply IH. intros y Hy. apply Hall. right. exact Hy.
Qed.

Lemma remove_dups_NoDup {A} `{EqDecision A} (l : list A) :
  NoDup l -> remove_dups l = l.
Proof.
  induction 1 as [| x l Hx _ IH]; simpl; [reflexivity |].
  destruct (decide_rel elem_of x l) as [Hin | _]; [contradiction |].
  rewrite IH. reflexivity.
Qed.

(** An order that lists the keys of the dictionary, each once, is the
    order of the dictionary. *)
Lemma ordered_keys_listed (order : list string)
    (d : gmap string (list record)) :
  NoDup order -> (forall k, k ∈ order <-> k ∈ dom d) ->
  ordered_keys order d = order.
Proof.
  intros Hnodup Hdom. unfold ordered_keys.
  rewrite remove_dups_NoDup by exact Hnodup.
  rewrite filter_all_in, filter_none_in.
  - apply app_nil_r.
  - intros k Hk. apply bool_decide_eq_false. intros Hout. apply Hout.
    apply Hdom, elem_of_elements. exact Hk.
  - intros k Hk. apply bool_decide_eq_true, Hdom. exact Hk.
Qed.

Lemma ordered_keys_again (order : list string)
    (d d' : gmap string (list record)) :
  dom d' = dom d ->
  ordered_keys (ordered_keys order d) d' = ordered_keys order d.
Proof.
  intros Hdom. apply ordered_keys_listed; [apply ordered_keys_NoDup |].
  intros k. rewrite ordered_keys_dom, Hdom. reflexivity.
Qed.

Lemma ordered_keys_empty (order : list string) : ordered_keys order ∅ = [].
Proof.
  destruct (ordered_keys order ∅) as [| k l] eqn:Hkeys; [reflexivity |].
  assert (Hin : k ∈ ordered_keys order ∅) by (rewrite Hkeys; left).
  apply ordered_keys_dom in Hin. rewrite dom_empty_L in Hin. set_solver.
Qed.

Lemma items_keys (d : gmap string (list record)) (keys : list string) :
  (forall k, k ∈ keys -> k ∈ dom d) ->
  map fst (omap (fun k => pair k <$> d !! k) keys) = keys.
Proof.
  induction keys as [| k keys IH]; intros Hdom; [reflexivity |].
  assert (Hk : k ∈ dom d) by (apply Hdom; left).
  apply elem_of_dom in Hk as [records Hk].
  change (omap ?f (k :: keys)) with (match f k with
                                     | Some y => y :: omap f keys
                                     | None => omap f keys
                                     end).
  cbv beta. rewrite Hk. cbn [fmap option_fmap option_map map fst].
  rewrite IH; [reflexivity |].
  intros k' Hk'. apply Hdom. right. exact Hk'.
Qed.

(** The keys of [self.data.items()] are in the order of the dictionary. *)
Lemma data_items_keys (self : DataProcessor) :
  map fst (data_items self) = ordered_keys (data_order self) (data self).
Proof.
  unfold data_items. apply items_keys. intros k. apply ordered_keys_dom.
Qed.

Lemma data_items_NoDup (self : DataProcessor) :
  NoDup (map fst (data_items self)).
Proof. rewrite data_items_keys. apply ordered_keys_NoDup. Qed.

(** [self.data.items()] holds every dataset with its records. *)
Lemma elem_of_data_items (self : DataProcessor) (name : string)
    (records : list record) :
  (name, records) ∈ data_items self <-> data self !! name = Some records.
Proof.
  unfold data_items. rewrite list_elem_of_omap. split.
  - intros (k & _ & Hk). apply fmap_Some in Hk as (r & Hr & Heq).
    injection Heq as -> ->. exact Hr.
  - intros Hdata. exists name. split.
    + apply ordered_keys_dom, elem_of_dom. eauto.
    + rewrite Hdata. reflexivity.
Qed.

Lemma data_items_empty (self : DataProcessor) :
  data self = ∅ -> data_items self = [].
Proof.
  intros Hempty. destruct (data_items self) as [| [k r] l] eqn:Hitems;
    [reflexivity |].
  assert (Hin : (k, r) ∈ data_items self) by (rewrite Hitems; left).
  apply elem_of_data_items in Hin. rewrite Hempty, lookup_empty in Hin.
  discriminate.
Qed.

Section Persistence.
Context `{Runtime}.

Lemma _save_state_eq (s : Sys) :
  _save_state s = (Return tt, (saved_world s, snd s)).
Proof.
  destruct s as [w self]. unfold _save_state, now, json_dump, write_file.
  run_monad.
  destruct (stats_encodable (stats self) && data_encodable (data self));
    reflexivity.
Qed.

(** A state whose values [json.dump] can encode comes back from the
    snapshot file as it was. *)
Lemma save_then_load (w : World) (self : DataProcessor) :
  stats_encodable (stats self) && data_encodable (data self) = true ->
  _load_state (saved_world (w, self), self)
  = (Return tt, (saved_world (w, self), set_data (data self) self)).
Proof.
  intros Henc. unfold _load_state, saved_world. run_monad.
  rewrite lookup_insert_eq, Henc. simpl.
  rewrite !list_to_set_elements_L. unfold load_data, set_data. simpl.
  rewrite data_items_keys, ordered_keys_again by reflexivity.
  destruct self; reflexivity.
Qed.

Lemma _initialize_new_state_eq (w : World) (self : DataProcessor) :
  let cleared :=
    mkDataProcessor (backup_file_path self) ∅ (excluded_components self)
                    (column_mappings self) ∅ ∅ [] in
  _initialize_new_state (w, self)
  = (Return tt, (saved_world (w, cleared), cleared)).
Proof.
  simpl. unfold _initialize_new_state. run_monad.
  unfold set_data. simpl. rewrite ordered_keys_empty.
  rewrite _save_state_eq. reflexivity.
Qed.

(** Saving changes no attribute of the processor. *)
Lemma _save_state_self (s : Sys) : snd (snd (_save_state s)) = snd s.
Proof. rewrite _save_state_eq. reflexivity. Qed.

(** [get_state_summary] reads the processor only, so a save does not
    change what it returns. *)
Lemma summary_unchanged_by_save (s : Sys) :
  fst (get_state_summary (snd (_save_state s))) = fst (get_state_summary s).
Proof. rewrite _save_state_eq. destruct s; reflexivity. Qed.

(** C9 (amended): [clear_state] empties the dataset map, the statistics
    and the processed-file registry, leaves the exclusion set as it was,
    and at once writes the snapshot of that state, exclusion set
    included, to the state file. *)
Theorem clear_state_resets (w : World) (self : DataProcessor) :
  exists w' self',
    clear_state (w, self) = (Return tt, (w', self'))
    /\ data self' = ∅ /\ stats self' = ∅ /\ processed_files self' = ∅
    /\ excluded_components self' = excluded_components self
    /\ fs w' !! state_file self'
       = Some (SnapshotFile
                 (mkSnapshot (Some ∅) (Some [])
                    (Some (elements (excluded_components self)))
                    (Some (isoformat (clock w (ticks w))))
                    (Some ∅) [])).
Proof.
  unfold clear_state. rewrite _initialize_new_state_eq.
  eexists _, _. split; [reflexivity |]. simpl.
  repeat split; try reflexivity.
  rewrite lookup_insert_eq. unfold stats_encodable, data_encodable.
  rewrite !map_to_list_empty, elements_empty. reflexivity.
Qed.

End Persistence.

(** C9, as stated, fails: a processor whose exclusion set is [{Quiz}]
    still has that exclusion set after [clear_state], neither emptied nor
    put back to the default, while the three other parts of the state
    are empty. *)
Lemma clear_state_keeps_exclusion_set :
  let self := snd Examples.configured in
  let self' := snd (snd (clear_state Examples.configured)) in
  excluded_components self = {[ "Quiz" ]}
  /\ data self' = ∅ /\ stats self' = ∅ /\ processed_files self' = ∅
  /\ excluded_components self' = {[ "Quiz" ]}
  /\ excluded_components self' <> ∅
  /\ excluded_components self' <> {[ "System"; "Folder" ]}.
Proof.
  assert (Hset : excluded_components (snd (snd (clear_state Examples.configured)))
                 = {[ "Quiz" ]}) by (vm_compute; reflexivity).
  evaluate; rewrite Hset; intros Heq.
  - assert (Hin : "Quiz" ∈ (∅ : gset string)) by (rewrite <- Heq; set_solver).
    set_solver.
  - assert (Hin : "Quiz" ∈ ({[ "System"; "Folder" ]} : gset string))
      by (rewrite <- Heq; set_solver).
    set_solver.
Qed.

(** C8: the code returns ["Never"] after a save.  The processor that
    ingested [component_codes.csv] has written a snapshot carrying a
    [last_updated] time, and writes another one here, yet
    [get_state_summary] reports [Never]: it looks the time up in the
    per-dataset statistics, where no method stores it. *)
Theorem summary_reports_never_after_save :
  let s := snd (_save_state Examples.with_codes) in
  (exists snap,
      fs (fst s) !! "files/application_state.json" = Some (SnapshotFile snap)
      /\ snap_last_updated snap = Some "2024-03-01T09:00:03")
  /\ fst (get_state_summary s)
     = Return (mkSummary 1 4 ["COMPONENT_CODES"] Never).
Proof.
  cbv zeta. split.
  - eexists. split; vm_compute; reflexivity.
  - vm_compute. reflexivity.
Qed.

(** C3: the round trip loses a state that holds a timestamp.  After
    [activity_log.csv] is ingested the dataset has [Date] cells that are
    timestamps; [json.dump] raises on them, [_save_state] swallows the
    error and leaves an unreadable file, and [_load_state] falls back to
    an empty state. *)
Theorem save_load_loses_timestamped_state :
  let s := Examples.with_activity in
  let s' := snd (_load_state (snd (_save_state s))) in
  data (snd s) !! "ACTIVITY_LOG" = Some Examples.activity_records
  /\ processed_files (snd s) = {[ "logs/activity_log.csv" ]}
  /\ fs (fst (snd (_save_state s))) !! "files/application_state.json"
     = Some Unreadable
  /\ fs (fst s') !! "files/application_state.json"
     = Some (SnapshotFile
               (mkSnapshot (Some ∅) (Some []) (Some ["System"; "Folder"])
                           (Some "2024-03-01T09:00:03") (Some ∅) []))
  /\ data (snd s') = ∅ /\ stats (snd s') = ∅
  /\ processed_files (snd s') = ∅.
Proof. evaluate. Qed.

(* ===================================================================== *)
(** * Ingestion: [process_csv_files] *)
(* ===================================================================== *)

Section Ingestion.
Context `{Runtime}.

Lemma process_one_eq (file_path : string) (w : World) (self : DataProcessor) :
  process_one file_path (w, self)
  = if decide (path_str file_path ∈ processed_files self)
    then (Return false, (w, self))
    else match csv_source w (path_str file_path) with
         | Some records =>
             (Return true,
              (tick w, ingested file_path records (clock w (ticks w)) self))
         | None =>
             (Raise (Wrapped "Error cleaning CSV data"
                       (ValueError (path_str file_path))), (w, self))
         end.
Proof.
  unfold process_one, _clean_csv_data, now. run_monad.
  destruct (decide _); [reflexivity |]. simpl.
  destruct (csv_source w (path_str file_path)); reflexivity.
Qed.

(** A registered path is skipped: nothing changes, no clock is read. *)
Lemma process_one_registered (file_path : string) (s : Sys) :
  path_str file_path ∈ processed_files (snd s) ->
  process_one file_path s = (Return false, s).
Proof.
  destruct s as [w self]. intros Hin. rewrite process_one_eq.
  destruct (decide _); [reflexivity | contradiction].
Qed.

(** The registry only grows. *)
Lemma process_one_registry (file_path : string) (s : Sys) (p : string) :
  p ∈ processed_files (snd s) ->
  p ∈ processed_files (snd (snd (process_one file_path s))).
Proof.
  destruct s as [w self]. intros Hin. rewrite process_one_eq.
  destruct (decide _); [exact Hin |].
  destruct (csv_source w (path_str file_path)); simpl; [set_solver | exact Hin].
Qed.

Lemma process_loop_cons (file_path : string) (rest : list string)
    (flag : bool) (s : Sys) :
  process_loop (file_path :: rest) flag s
  = match process_one file_path s with
    | (Return processed, s') => process_loop rest (flag || processed) s'
    | (Raise _, s') => process_loop rest (flag || false) s'
    end.
Proof.
  simpl. run_monad. destruct (process_one file_path s) as [[b | e] s'];
    reflexivity.
Qed.

(** Skipping: a registered path can be struck out of the arguments
    without changing the outcome, the processor or the world. *)
Lemma process_loop_skips_registered (before after : list string)
    (file_path : string) (flag : bool) (s : Sys) :
  path_str file_path ∈ processed_files (snd s) ->
  process_loop (before ++ file_path :: after) flag s
  = process_loop (before ++ after) flag s.
Proof.
  revert flag s. induction before as [| q before IH]; intros flag s Hin.
  - simpl app. rewrite process_loop_cons, process_one_registered by exact Hin.
    rewrite orb_false_r. reflexivity.
  - simpl app. rewrite !process_loop_cons.
    pose proof (process_one_registry q s _ Hin) as Hin'.
    destruct (process_one q s) as [[b | e] s']; apply IH; exact Hin'.
Qed.

Lemma process_loop_all_registered (file_paths : list string) (flag : bool)
    (s : Sys) :
  Forall (fun p => path_str p ∈ processed_files (snd s)) file_paths ->
  process_loop file_paths flag s = (Return flag, s).
Proof.
  induction 1 as [| p ps Hp _ IH].
  - reflexivity.
  - rewrite process_loop_cons, process_one_registered by exact Hp.
    rewrite orb_false_r. exact IH.
Qed.

(** Re-ingesting registered paths is a no-op: the datasets, the
    statistics, the registry and the files are those before the call, and
    no clock reading is used. *)
Lemma process_csv_files_registered (file_paths : list string) (s : Sys) :
  Forall (fun p => path_str p ∈ processed_files (snd s)) file_paths ->
  process_csv_files file_paths s = (Return tt, s).
Proof.
  intros Hall. unfold process_csv_files. run_monad.
  rewrite process_loop_all_registered by exact Hall. reflexivity.
Qed.

(** A registered path anywhere in a batch is skipped: the call does what
    it does on the batch without that path. *)
Lemma process_csv_files_skips_registered (before after : list string)
    (file_path : string) (s : Sys) :
  path_str file_path ∈ processed_files (snd s) ->
  process_csv_files (before ++ file_path :: after) s
  = process_csv_files (before ++ after) s.
Proof.
  intros Hin. unfold process_csv_files. run_monad.
  rewrite process_loop_skips_registered by exact Hin. reflexivity.
Qed.

Lemma process_one_source (file_path : string) (s : Sys) :
  csv_source (fst (snd (process_one file_path s))) = csv_source (fst s).
Proof.
  destruct s as [w self]. rewrite process_one_eq.
  destruct (decide _); [reflexivity |].
  destruct (csv_source w (path_str file_path)); reflexivity.
Qed.

(** The loop never raises and never resets its flag. *)
Lemma process_loop_returns (file_paths : list string) (flag : bool) (s : Sys) :
  exists flag' s',
    process_loop file_paths flag s = (Return flag', s')
    /\ (flag = true -> flag' = true).
Proof.
  revert flag s. induction file_paths as [| p ps IH]; intros flag s.
  - exists flag, s. auto.
  - rewrite process_loop_cons.
    destruct (process_one p s) as [[b | e] s'].
    + destruct (IH (flag || b) s') as (flag' & s'' & Heq & Hmono).
      exists flag', s''. split; [exact Heq |].
      intros ->. apply Hmono. reflexivity.
    + destruct (IH (flag || false) s') as (flag' & s'' & Heq & Hmono).
      exists flag', s''. split; [exact Heq |].
      intros ->. apply Hmono. reflexivity.
Qed.

(** Once a path was ingested the dataset map is not empty. *)
Lemma process_loop_data (file_paths : list string) (flag : bool) (s s' : Sys) :
  process_loop file_paths flag s = (Return true, s') ->
  (flag = true -> data (snd s) <> ∅) ->
  data (snd s') <> ∅.
Proof.
  revert flag s. induction file_paths as [| p ps IH]; intros flag s Heq Hinv.
  - simpl in Heq. injection Heq as -> ->. auto.
  - rewrite process_loop_cons in Heq. destruct s as [w self].
    rewrite process_one_eq in Heq.
    destruct (decide _) as [Hreg | Hreg].
    + rewrite orb_false_r in Heq. eapply IH; eauto.
    + destruct (csv_source w (path_str p)) as [records |].
      * eapply IH; [exact Heq |]. intros _. simpl. apply insert_non_empty.
      * rewrite orb_false_r in Heq. eapply IH; eauto.
Qed.

(** A call given a path that is not registered and that
    [_clean_csv_data] accepts ingests at least one file. *)
Lemma process_loop_ingests (file_paths : list string) (flag : bool) (s : Sys)
    (p : string) :
  p ∈ file_paths ->
  path_str p ∉ processed_files (snd s) ->
  is_Some (csv_source (fst s) (path_str p)) ->
  fst (process_loop file_paths flag s) = Return true.
Proof.
  assert (Hstay : forall qs s0, fst (process_loop qs true s0) = Return true).
  { intros qs s0. destruct (process_loop_returns qs true s0) as (f & s' & Heq & Hmono).
    rewrite Heq. simpl. rewrite Hmono; reflexivity. }
  revert flag s. induction file_paths as [| q qs IH]; intros flag s Hin Hreg Hsrc.
  - inversion Hin.
  - rewrite process_loop_cons.
    pose proof (process_one_source q s) as Hsame.
    destruct s as [w self]. rewrite process_one_eq in *.
    destruct (decide (path_str q ∈ processed_files self)) as [Hq | Hq].
    + rewrite orb_false_r. apply IH; try assumption.
      apply elem_of_cons in Hin as [-> | Hin]; [contradiction | exact Hin].
    + destruct (csv_source w (path_str q)) as [records |] eqn:Hcsv.
      * rewrite orb_true_r. apply Hstay.
      * rewrite orb_false_r. apply IH; try assumption.
        apply elem_of_cons in Hin as [-> | Hin]; [| exact Hin].
        simpl in Hsrc. rewrite Hcsv in Hsrc. destruct Hsrc as [? ?]; discriminate.
Qed.

Lemma append_cancel (a b c : string) : a ++ b = a ++ c -> b = c.
Proof.
  induction a as [| x a IH]; simpl; [auto |].
  intros Heq. injection Heq as Heq. auto.
Qed.

Lemma export_file_not_state_file (self : DataProcessor) (t : datetime) :
  export_file self t <> state_file self.
Proof.
  unfold export_file, state_file, path_join. intros Heq.
  apply append_cancel in Heq. simpl in Heq. discriminate.
Qed.

(** When the loop ingested a file and [json.dump] can encode the state it
    left, the call writes the export artifact and then the snapshot. *)
Lemma process_csv_files_writes_both (file_paths : list string) (s : Sys)
    (w1 : World) (self1 : DataProcessor) :
  process_loop file_paths false s = (Return true, (w1, self1)) ->
  encodable self1 = true ->
  exists w2,
    process_csv_files file_paths s = (Return tt, (w2, self1))
    /\ fs w2 !! export_file self1 (clock w1 (ticks w1))
       = Some (ExportFile
                 (mkExport (strftime_compact (clock w1 (ticks w1)))
                    (stats self1) (elements (processed_files self1))
                    (elements (excluded_components self1))
                    (column_mappings self1) (data self1)
                    (map fst (data_items self1))))
    /\ fs w2 !! state_file self1
       = Some (SnapshotFile
                 (mkSnapshot (Some (stats self1))
                    (Some (elements (processed_files self1)))
                    (Some (elements (excluded_components self1)))
                    (Some (isoformat (clock w1 (S (ticks w1)))))
                    (Some (data self1)) (map fst (data_items self1)))).
Proof.
  intros Hloop Henc.
  pose proof (process_loop_data _ _ _ _ Hloop) as Hdata.
  unfold process_csv_files. run_monad. rewrite Hloop.
  unfold _save_json_records, now, json_dump, write_file. run_monad.
  destruct (decide (data self1 = ∅)) as [Hempty | _].
  { exfalso. apply Hdata; [discriminate | exact Hempty]. }
  unfold encodable in Henc. rewrite Henc. simpl.
  rewrite _save_state_eq. unfold saved_world. simpl. rewrite Henc.
  eexists. split; [reflexivity |]. simpl. split.
  - rewrite lookup_insert_ne by (apply not_eq_sym, export_file_not_state_file).
    apply lookup_insert_eq.
  - apply lookup_insert_eq.
Qed.

End Ingestion.

(** C1: the code does not write the snapshot when the ingested file has a
    date column.  On a fresh processor, [process_csv_files] ingests
    [activity_log.csv] in memory; [json.dump] then raises on the
    timestamps while writing the export artifact, the exception leaves the
    method, and [_save_state] is not reached: the export file is
    unreadable and there is no snapshot file. *)
Theorem process_csv_files_fails_to_persist_timestamps :
  let r := process_csv_files ["logs/activity_log.csv"] Examples.started in
  fs (fst Examples.started) = ∅
  /\ fst r = Raise (Wrapped "Error saving JSON records"
                      (TypeError "not JSON serializable"))
  /\ data (snd (snd r)) !! "ACTIVITY_LOG" = Some Examples.activity_records
  /\ processed_files (snd (snd r)) = {[ "logs/activity_log.csv" ]}
  /\ fs (fst (snd r)) !! "files/processed_data_20240301_090001.json"
     = Some Unreadable
  /\ fs (fst (snd r)) !! "files/application_state.json" = None.
Proof. evaluate. Qed.

(* ===================================================================== *)
(** * Filtering: [remove_excluded_components] *)
(* ===================================================================== *)

Section Filtering.
Context `{Runtime}.

Lemma filter_dataset_eq (name : string) (records : list record) (w : World)
    (self : DataProcessor) :
  filter_dataset (name, records) (w, self)
  = match stats self !! name with
    | None => (Raise (KeyError name), (w, self))
    | Some entry =>
        match as_int (original_rows_of entry) with
        | Some original =>
            (Return tt,
             (tick w,
              filtered name records entry original (clock w (ticks w)) self))
        | None =>
            (Raise (TypeError "unsupported operand type(s) for -"), (w, self))
        end
    end.
Proof.
  unfold filter_dataset, py_sub, now. run_monad.
  destruct (stats self !! name) as [entry |]; [| reflexivity].
  fold (original_rows_of entry).
  destruct (as_int (original_rows_of entry)); reflexivity.
Qed.

Lemma stats_filtered (name : string) (records : list record)
    (entry : gmap string value) (original : Z) (t : datetime)
    (self : DataProcessor) :
  stats (filtered name records entry original t self)
  = <[name := filtered_entry entry original
        (Z.of_nat (length (List.filter
           (not_excluded (excluded_components self)) records))) t]>
      (stats self).
Proof. reflexivity. Qed.

Lemma data_filtered (name : string) (records : list record)
    (entry : gmap string value) (original : Z) (t : datetime)
    (self : DataProcessor) :
  data (filtered name records entry original t self)
  = <[name := List.filter (not_excluded (excluded_components self)) records]>
      (data self).
Proof. reflexivity. Qed.

Lemma excluded_filtered (name : string) (records : list record)
    (entry : gmap string value) (original : Z) (t : datetime)
    (self : DataProcessor) :
  excluded_components (filtered name records entry original t self)
  = excluded_components self.
Proof. reflexivity. Qed.

(** What a completed pass of the loop over [items] has done. *)
Lemma filter_loop_spec (items : list (string * list record)) (w w' : World)
    (self self' : DataProcessor) :
  NoDup items.*1 ->
  for_each items filter_dataset (w, self) = (Return tt, (w', self')) ->
  excluded_components self' = excluded_components self
  /\ (forall name, name ∉ items.*1 ->
       stats self' !! name = stats self !! name
       /\ data self' !! name = data self !! name)
  /\ (forall name records, (name, records) ∈ items ->
       exists entry original t,
         stats self !! name = Some entry
         /\ as_int (original_rows_of entry) = Some original
         /\ data self' !! name
            = Some (List.filter (not_excluded (excluded_components self)) records)
         /\ stats self' !! name
            = Some (filtered_entry entry original
                      (Z.of_nat (length (List.filter
                         (not_excluded (excluded_components self)) records)))
                      t)).
Proof.
  revert w self. induction items as [| [n0 r0] items IH]; intros w self Hnd Hrun.
  - simpl in Hrun. injection Hrun as <- <-.
    split; [reflexivity |]. split; [auto |].
    intros name records Hin. inversion Hin.
  - rewrite fmap_cons in Hnd. apply NoDup_cons in Hnd as [Hfresh Hnd].
    cbn [for_each] in Hrun. unfold mbind, M_bind, bind in Hrun.
    rewrite filter_dataset_eq in Hrun.
    destruct (stats self !! n0) as [entry0 |] eqn:Hentry0; [| discriminate].
    destruct (as_int (original_rows_of entry0)) as [o0 |] eqn:Ho0;
      [| discriminate].
    apply IH in Hrun as (Hexcl & Hother & Hitems); [| exact Hnd].
    rewrite excluded_filtered in Hexcl, Hitems.
    split; [exact Hexcl |]. split.
    + intros name Hname. rewrite fmap_cons in Hname.
      apply not_elem_of_cons in Hname as [Hne Hname].
      destruct (Hother name Hname) as [Hs Hd].
      rewrite stats_filtered, lookup_insert_ne in Hs by (intros Heq; apply Hne; symmetry; exact Heq).
      rewrite data_filtered, lookup_insert_ne in Hd by (intros Heq; apply Hne; symmetry; exact Heq).
      auto.
    + intros name records Hin. apply elem_of_cons in Hin as [Heq | Hin].
      * injection Heq as -> ->.
        destruct (Hother n0 Hfresh) as [Hs Hd].
        rewrite stats_filtered, lookup_insert_eq in Hs.
        rewrite data_filtered, lookup_insert_eq in Hd.
        exists entry0, o0, (clock w (ticks w)). auto.
      * assert (Hne : n0 <> name).
        { intros ->. apply Hfresh. apply list_elem_of_fmap.
          exists (name, records). auto. }
        destruct (Hitems name records Hin) as (entry & o & t & Hs & Ho & Hd & Hs').
        rewrite stats_filtered, lookup_insert_ne in Hs by exact Hne.
        exists entry, o, t. auto.
Qed.

(** A completed run of [remove_excluded_components]: every dataset is
    replaced by its records that are not excluded, and its statistics
    entry is updated from the row count it held. *)
Lemma remove_excluded_components_spec (w w' : World)
    (self self' : DataProcessor) :
  remove_excluded_components (w, self) = (Return tt, (w', self')) ->
  excluded_components self' = excluded_components self
  /\ (forall name, data self !! name = None ->
       data self' !! name = None /\ stats self' !! name = stats self !! name)
  /\ (forall name records, data self !! name = Some records ->
       exists entry original t,
         stats self !! name = Some entry
         /\ as_int (original_rows_of entry) = Some original
         /\ data self' !! name
            = Some (List.filter (not_excluded (excluded_components self)) records)
         /\ stats self' !! name
            = Some (filtered_entry entry original
                      (Z.of_nat (length (List.filter
                         (not_excluded (excluded_components self)) records)))
                      t)).
Proof.
  unfold remove_excluded_components. run_monad.
  destruct (for_each (data_items self) filter_dataset (w, self))
    as [[[] | e] [w1 self1]] eqn:Hloop; [| discriminate].
  rewrite _save_state_eq. simpl. intros Heq. injection Heq as _ <-.
  apply filter_loop_spec in Hloop as (Hexcl & Hother & Hitems);
    [| apply data_items_NoDup].
  split; [exact Hexcl |]. split.
  - intros name Hnone.
    destruct (Hother name) as [Hs Hd].
    + intros Hin. apply list_elem_of_fmap in Hin as ([n r] & -> & Hin).
      apply elem_of_data_items in Hin. simpl in Hnone. congruence.
    + rewrite Hd. auto.
  - intros name records Hsome. apply Hitems.
    apply elem_of_data_items. exact Hsome.
Qed.

Lemma filtered_entry_lookups (entry : gmap string value) (original kept : Z)
    (t : datetime) :
  filtered_entry entry original kept t !! "filtered_rows" = Some (VInt kept)
  /\ filtered_entry entry original kept t !! "removed_rows"
     = Some (VInt (original - kept))
  /\ filtered_entry entry original kept t !! "original_rows"
     = entry !! "original_rows"
  /\ filtered_entry entry original kept t !! "total_rows"
     = entry !! "total_rows".
Proof.
  unfold filtered_entry. repeat split.
  - rewrite lookup_insert_ne by discriminate.
    rewrite lookup_insert_ne by discriminate. apply lookup_insert_eq.
  - rewrite lookup_insert_ne by discriminate. apply lookup_insert_eq.
  - rewrite !lookup_insert_ne by discriminate. reflexivity.
  - rewrite !lookup_insert_ne by discriminate. reflexivity.
Qed.

Lemma original_rows_of_recorded (entry : gmap string value) (v : value) :
  entry !! "original_rows" = Some v -> original_rows_of entry = v.
Proof. unfold original_rows_of. intros ->. reflexivity. Qed.

(** Filtering leaves the row count it measures against as it was. *)
Lemma original_rows_of_kept (entry : gmap string value) (original : Z)
    (kept : Z) (t : datetime) :
  original_rows_of (filtered_entry entry original kept t)
  = original_rows_of entry.
Proof.
  unfold original_rows_of.
  destruct (filtered_entry_lookups entry original kept t) as (_ & _ & -> & ->).
  reflexivity.
Qed.

(** The run completes whenever every dataset has a statistics entry whose
    row count is an integer, as ingestion leaves them. *)
Lemma filter_loop_returns (items : list (string * list record)) (w : World)
    (self : DataProcessor) :
  (forall name, name ∈ items.*1 ->
     exists entry original,
       stats self !! name = Some entry
       /\ as_int (original_rows_of entry) = Some original) ->
  exists s', for_each items filter_dataset (w, self) = (Return tt, s').
Proof.
  revert w self. induction items as [| [n0 r0] items IH]; intros w self Hok.
  - eexists. reflexivity.
  - cbn [for_each]. unfold mbind, M_bind, bind. rewrite filter_dataset_eq.
    destruct (Hok n0) as (entry0 & o0 & Hentry0 & Ho0);
      [rewrite fmap_cons; left |].
    rewrite Hentry0, Ho0.
    apply IH. intros name Hin. rewrite stats_filtered.
    destruct (decide (n0 = name)) as [<- | Hne].
    + rewrite lookup_insert_eq. eexists _, o0. split; [reflexivity |].
      rewrite original_rows_of_kept. exact Ho0.
    + rewrite lookup_insert_ne by exact Hne. apply Hok.
      rewrite fmap_cons. right. exact Hin.
Qed.

Lemma filter_filter {A} (f : A -> bool) (l : list A) :
  List.filter f (List.filter f l) = List.filter f l.
Proof.
  induction l as [| x l IH]; simpl; [reflexivity |].
  destruct (f x) eqn:Hfx; simpl; [rewrite Hfx, IH |]; auto.
Qed.

(** C2: after a run of [remove_excluded_components], every dataset of the
    dataset map has [filtered_rows + removed_rows = original_rows], for
    the [original_rows] its statistics recorded before the run, and the
    run leaves [original_rows] as it was; [filtered_rows] is the number of
    records the dataset now holds. *)
Theorem filtering_row_accounting (w w' : World) (self self' : DataProcessor)
    (name : string) (entry : gmap string value) (original : Z) :
  remove_excluded_components (w, self) = (Return tt, (w', self')) ->
  is_Some (data self' !! name) ->
  stats self !! name = Some entry ->
  entry !! "original_rows" = Some (VInt original) ->
  exists entry' records' removed,
    stats self' !! name = Some entry'
    /\ data self' !! name = Some records'
    /\ entry' !! "filtered_rows" = Some (VInt (Z.of_nat (length records')))
    /\ entry' !! "removed_rows" = Some (VInt removed)
    /\ Z.of_nat (length records') + removed = original
    /\ entry' !! "original_rows" = Some (VInt original).
Proof.
  intros Hrun Hin Hentry Horig.
  apply remove_excluded_components_spec in Hrun as (_ & Hout & Hdone).
  destruct (data self !! name) as [records |] eqn:Hdata.
  - destruct (Hdone name records Hdata) as (e & o & t & He & Ho & Hd & Hs).
    rewrite Hentry in He. injection He as <-.
    rewrite (original_rows_of_recorded _ _ Horig) in Ho. injection Ho as <-.
    destruct (filtered_entry_lookups entry original
                (Z.of_nat (length (List.filter
                   (not_excluded (excluded_components self)) records))) t)
      as (Hf & Hr & Ho & _).
    eexists _, _, _. repeat split; eauto.
    + lia.
    + rewrite Ho. exact Horig.
  - destruct (Hout name Hdata) as [Hnone _]. rewrite Hnone in Hin.
    destruct Hin as [? ?]. discriminate.
Qed.

(** C10: filtering keeps every record that has no [Component] field; the
    records it drops are exactly those whose [Component] is a string of
    the exclusion set. *)
Theorem records_without_component_kept (w w' : World)
    (self self' : DataProcessor) (name : string) (records : list record) :
  remove_excluded_components (w, self) = (Return tt, (w', self')) ->
  data self !! name = Some records ->
  exists records',
    data self' !! name = Some records'
    /\ (forall r, r ∈ records -> PyDict.get "Component" r = None ->
        r ∈ records')
    /\ (forall r, r ∈ records' <->
          r ∈ records
          /\ ~ exists c, PyDict.get "Component" r = Some (VStr c)
                        /\ c ∈ excluded_components self).
Proof.
  intros Hrun Hdata.
  apply remove_excluded_components_spec in Hrun as (_ & _ & Hdone).
  destruct (Hdone name records Hdata) as (e & o & t & _ & _ & Hd & _).
  eexists. split; [exact Hd |].
  assert (Hkeep : forall r,
            not_excluded (excluded_components self) r = true
            <-> ~ exists c, PyDict.get "Component" r = Some (VStr c)
                          /\ c ∈ excluded_components self).
  { intros r. unfold not_excluded.
    destruct (PyDict.get "Component" r) as [[| b | z | c | d] |];
      try (split; [intros _ (c' & Hc & _); discriminate | reflexivity]).
    rewrite bool_decide_eq_true. split.
    - intros Hnot (c' & Hc & Hin). injection Hc as <-. contradiction.
    - intros Hnot Hin. apply Hnot. eauto. }
  split.
  - intros r Hr Hnone. apply list_elem_of_In, filter_In.
    split; [apply list_elem_of_In, Hr |].
    apply Hkeep. intros (c & Hc & _). congruence.
  - intros r. rewrite list_elem_of_In, filter_In, <- list_elem_of_In, Hkeep.
    reflexivity.
Qed.

(** C7 (amended): a second run of [remove_excluded_components] measures
    [removed_rows] against the [original_rows] recorded at ingestion, as
    the first run did: after it, [removed_rows] is [original_rows] minus
    the new [filtered_rows], the dataset is the one the first run left
    and [original_rows] is unchanged. *)
Theorem refiltering_counts_from_original (w w1 w1' w2 : World)
    (self self1 self2 : DataProcessor) (name : string)
    (entry : gmap string value) (original : Z) :
  remove_excluded_components (w, self) = (Return tt, (w1, self1)) ->
  remove_excluded_components (w1', self1) = (Return tt, (w2, self2)) ->
  is_Some (data self !! name) ->
  stats self !! name = Some entry ->
  entry !! "original_rows" = Some (VInt original) ->
  exists records2,
    data self2 !! name = Some records2
    /\ data self1 !! name = Some records2
    /\ stat self2 name "filtered_rows"
       = Some (VInt (Z.of_nat (length records2)))
    /\ stat self2 name "removed_rows"
       = Some (VInt (original - Z.of_nat (length records2)))
    /\ stat self2 name "original_rows" = Some (VInt original).
Proof.
  intros Hrun1 Hrun2 [records Hdata] Hentry Horig.
  apply remove_excluded_components_spec in Hrun1 as (Hexcl & _ & Hdone1).
  apply remove_excluded_components_spec in Hrun2 as (_ & _ & Hdone2).
  destruct (Hdone1 name records Hdata) as (e & o & t & He & Ho & Hd1 & Hs1).
  rewrite Hentry in He. injection He as <-.
  rewrite (original_rows_of_recorded _ _ Horig) in Ho. injection Ho as <-.
  destruct (Hdone2 name _ Hd1) as (e2 & o2 & t2 & He2 & Ho2 & Hd2 & Hs2).
  rewrite Hs1 in He2. injection He2 as <-.
  rewrite original_rows_of_kept, (original_rows_of_recorded _ _ Horig) in Ho2.
  injection Ho2 as <-.
  rewrite Hexcl, filter_filter in Hd2, Hs2.
  eexists. split; [exact Hd2 |]. split; [exact Hd1 |].
  unfold stat. rewrite Hs2. simpl.
  match goal with |- context [filtered_entry ?a ?b ?c ?d] =>
    destruct (filtered_entry_lookups a b c d) as (Hf & Hr & Ho & _)
  end.
  rewrite Hf, Hr, Ho.
  match goal with |- context [filtered_entry ?a ?b ?c ?d] =>
    destruct (filtered_entry_lookups a b c d) as (_ & _ & Ho' & _)
  end.
  rewrite Ho', Horig. auto.
Qed.

End Filtering.

Lemma filtering_row_accounting_witness :
  let r := remove_excluded_components Examples.with_codes in
  exists entry' records' removed,
    stats (snd (snd r)) !! "COMPONENT_CODES" = Some entry'
    /\ data (snd (snd r)) !! "COMPONENT_CODES" = Some records'
    /\ entry' !! "filtered_rows" = Some (VInt (Z.of_nat (length records')))
    /\ entry' !! "removed_rows" = Some (VInt removed)
    /\ Z.of_nat (length records') + removed = 4
    /\ entry' !! "original_rows" = Some (VInt 4).
Proof.
  cbv zeta.
  eapply (filtering_row_accounting (fst Examples.with_codes)
            (fst (snd (remove_excluded_components Examples.with_codes)))
            (snd Examples.with_codes)
            (snd (snd (remove_excluded_components Examples.with_codes)))
            "COMPONENT_CODES").
  - vm_compute. reflexivity.
  - vm_compute. eexists. reflexivity.
  - vm_compute. reflexivity.
  - vm_compute. reflexivity.
Defined.

Lemma records_without_component_kept_witness :
  let r := remove_excluded_components Examples.with_codes in
  exists records',
    data (snd (snd r)) !! "COMPONENT_CODES" = Some records'
    /\ (forall r, r ∈ Examples.component_records ->
        PyDict.get "Component" r = None -> r ∈ records')
    /\ (forall r, r ∈ records' <->
          r ∈ Examples.component_records
          /\ ~ exists c, PyDict.get "Component" r = Some (VStr c)
                        /\ c ∈ excluded_components (snd Examples.with_codes)).
Proof.
  cbv zeta.
  eapply (records_without_component_kept (fst Examples.with_codes)
            (fst (snd (remove_excluded_components Examples.with_codes)))
            (snd Examples.with_codes)
            (snd (snd (remove_excluded_components Examples.with_codes)))
            "COMPONENT_CODES" Examples.component_records).
  - vm_compute. reflexivity.
  - vm_compute. reflexivity.
Defined.

Lemma refiltering_counts_from_original_witness :
  let r1 := remove_excluded_components Examples.with_codes in
  let r2 := remove_excluded_components (snd r1) in
  exists records2,
    data (snd (snd r2)) !! "COMPONENT_CODES" = Some records2
    /\ data (snd (snd r1)) !! "COMPONENT_CODES" = Some records2
    /\ stat (snd (snd r2)) "COMPONENT_CODES" "filtered_rows"
       = Some (VInt (Z.of_nat (length records2)))
    /\ stat (snd (snd r2)) "COMPONENT_CODES" "removed_rows"
       = Some (VInt (4 - Z.of_nat (length records2)))
    /\ stat (snd (snd r2)) "COMPONENT_CODES" "original_rows" = Some (VInt 4).
Proof.
  cbv zeta.
  pose (s1 := snd (remove_excluded_components Examples.with_codes)).
  pose (s2 := snd (remove_excluded_components s1)).
  eapply (refiltering_counts_from_original (fst Examples.with_codes)
            (fst s1) (fst s1) (fst s2)
            (snd Examples.with_codes) (snd s1) (snd s2) "COMPONENT_CODES").
  - vm_compute. reflexivity.
  - vm_compute. reflexivity.
  - vm_compute. eexists. reflexivity.
  - vm_compute. reflexivity.
  - vm_compute. reflexivity.
Defined.

(** C7, as stated, fails: the first run over the component codes drops
    one record of four ([filtered_rows = 3], [removed_rows = 1]); the
    second run drops none, and records [removed_rows = 1], the count
    against the four original rows, not [3 - 3 = 0]. *)
Lemma refiltering_does_not_rebase :
  let s1 := snd (remove_excluded_components Examples.with_codes) in
  let s2 := snd (remove_excluded_components s1) in
  stat (snd s1) "COMPONENT_CODES" "filtered_rows" = Some (VInt 3)
  /\ stat (snd s2) "COMPONENT_CODES" "filtered_rows" = Some (VInt 3)
  /\ stat (snd s2) "COMPONENT_CODES" "removed_rows" = Some (VInt 1)
  /\ ~ (exists previous new removed,
          stat (snd s1) "COMPONENT_CODES" "filtered_rows" = Some (VInt previous)
          /\ stat (snd s2) "COMPONENT_CODES" "filtered_rows" = Some (VInt new)
          /\ stat (snd s2) "COMPONENT_CODES" "removed_rows" = Some (VInt removed)
          /\ removed = previous - new).
Proof.
  cbv zeta.
  assert (H1 : stat (snd (snd (remove_excluded_components Examples.with_codes)))
                 "COMPONENT_CODES" "filtered_rows" = Some (VInt 3))
    by (vm_compute; reflexivity).
  assert (H2 : stat (snd (snd (remove_excluded_components
                 (snd (remove_excluded_components Examples.with_codes)))))
                 "COMPONENT_CODES" "filtered_rows" = Some (VInt 3))
    by (vm_compute; reflexivity).
  assert (H3 : stat (snd (snd (remove_excluded_components
                 (snd (remove_excluded_components Examples.with_codes)))))
                 "COMPONENT_CODES" "removed_rows" = Some (VInt 1))
    by (vm_compute; reflexivity).
  repeat (split; [assumption |]).
  intros (p & n & r & Hp & Hn & Hr & Heq).
  rewrite H1 in Hp. rewrite H2 in Hn. rewrite H3 in Hr.
  injection Hp as <-. injection Hn as <-. injection Hr as <-. discriminate.
Qed.
(* ===================================================================== *)
(** * Merging: [merge_datasets] *)
(* ===================================================================== *)

Section Merging.
Context `{Runtime}.

(** C5: when [ACTIVITY_LOG] or [USER_LOG] is absent from the dataset map,
    [merge_datasets] raises the missing-datasets error, which names
    exactly the required datasets that are absent, and the processor and
    the world are what they were. *)
Theorem merge_requires_both_logs (w : World) (self : DataProcessor) :
  data self !! "ACTIVITY_LOG" = None \/ data self !! "USER_LOG" = None ->
  exists missing,
    merge_datasets (w, self)
    = (Raise (Wrapped "Merge operation failed"
                (MissingRequiredDatasets missing)), (w, self))
    /\ (forall name, name ∈ missing <->
          (name = "ACTIVITY_LOG" \/ name = "USER_LOG")
          /\ data self !! name = None).
Proof.
  intros Habsent.
  exists ({[ "ACTIVITY_LOG"; "USER_LOG" ]} ∖ dom (data self)). split.
  - unfold merge_datasets. run_monad.
    destruct (decide _) as [Hsub | Hsub]; [| reflexivity].
    exfalso. destruct Habsent as [Hnone | Hnone];
      apply not_elem_of_dom in Hnone; apply Hnone, Hsub; set_solver.
  - intros name. rewrite elem_of_difference, not_elem_of_dom. set_solver.
Qed.

End Merging.

Lemma merge_requires_both_logs_witness :
  exists missing,
    merge_datasets (fst Examples.with_codes, snd Examples.with_codes)
    = (Raise (Wrapped "Merge operation failed"
                (MissingRequiredDatasets missing)),
       (fst Examples.with_codes, snd Examples.with_codes))
    /\ (forall name, name ∈ missing <->
          (name = "ACTIVITY_LOG" \/ name = "USER_LOG")
          /\ data (snd Examples.with_codes) !! name = None).
Proof.
  apply merge_requires_both_logs. left. vm_compute. reflexivity.
Defined.

(** ** Positional pairing and the left join *)

Lemma value_eqb_eq (a b : value) : value_eqb a b = true <-> a = b.
Proof.
  split.
  - destruct a as [| x | x | x | x], b as [| y | y | y | y]; simpl;
      try discriminate; try reflexivity.
    + intros Heq. apply Bool.eqb_prop in Heq. congruence.
    + intros Heq. apply Z.eqb_eq in Heq. congruence.
    + intros Heq. apply String.eqb_eq in Heq. congruence.
    + rewrite !andb_true_iff, !Nat.eqb_eq. destruct x, y; simpl.
      intros [[[[[[-> ->] ->] ->] ->] ->] ->]. reflexivity.
  - intros <-. destruct a as [| x | x | x | x]; simpl; auto.
    + apply eqb_reflx.
    + apply Z.eqb_refl.
    + apply String.eqb_refl.
    + rewrite !Nat.eqb_refl. reflexivity.
Qed.

(** A predicate that holds at one position at most selects one element at
    most. *)
Lemma filter_at_most_one {A} (f : A -> bool) (l : list A) :
  (forall i j x y, l !! i = Some x -> l !! j = Some y ->
                   f x = true -> f y = true -> i = j) ->
  List.filter f l = [] \/ exists x, List.filter f l = [x].
Proof.
  induction l as [| x l IH]; intros Huniq; [left; reflexivity |].
  simpl. destruct (f x) eqn:Hfx.
  - right. exists x. f_equal.
    destruct (List.filter f l) as [| y rest] eqn:Hfilter; [reflexivity |].
    assert (Hy : In y (List.filter f l)) by (rewrite Hfilter; left; reflexivity).
    apply filter_In in Hy as [Hy Hfy].
    apply list_elem_of_In, list_elem_of_lookup in Hy as [j Hj].
    specialize (Huniq 0%nat (S j) x y eq_refl Hj Hfx Hfy). discriminate.
  - apply IH. intros i j a b Hi Hj Ha Hb.
    specialize (Huniq (S i) (S j) a b Hi Hj Ha Hb). congruence.
Qed.

(** ** Facts about the table operations *)

Lemma positions_from_spec (label : string) (cols : list string) (i k : nat) :
  k ∈ Pandas.positions_from i label cols
  <-> exists j, k = (i + j)%nat /\ cols !! j = Some label.
Proof.
  revert i. induction cols as [| c cols IH]; intros i; simpl.
  - split; [intros Hin; inversion Hin | intros (j & _ & Hj); discriminate].
  - destruct (String.eqb_spec c label) as [-> | Hne].
    + rewrite elem_of_cons, IH. split.
      * intros [-> | (j & -> & Hj)]; [exists 0%nat | exists (S j)];
          (split; [lia | auto]).
      * intros ([| j] & -> & Hj); [left; lia | right].
        exists j. split; [lia | auto].
    + rewrite IH. split.
      * intros (j & -> & Hj). exists (S j). split; [lia | auto].
      * intros ([| j] & -> & Hj); [simpl in Hj; congruence |].
        exists j. split; [lia | auto].
Qed.

(** The position [unique_position] returns holds the label, and no other
    position does. *)
Lemma unique_position_spec (label : string) (cols : list string) (k : nat) :
  Pandas.unique_position label cols = Return k ->
  cols !! k = Some label /\ forall j, cols !! j = Some label -> j = k.
Proof.
  unfold Pandas.unique_position, Pandas.positions.
  destruct (Pandas.positions_from 0 label cols) as [| k' [| k'' rest]] eqn:Hpos;
    try discriminate.
  intros Heq. injection Heq as ->.
  assert (Hspec : forall j, j ∈ [k] <-> cols !! j = Some label).
  { intros j. rewrite <- Hpos, positions_from_spec. split.
    - intros (j' & -> & Hj). exact Hj.
    - intros Hj. exists j. auto. }
  split.
  - apply Hspec. left.
  - intros j Hj. apply Hspec in Hj. apply list_elem_of_singleton in Hj. exact Hj.
Qed.

Lemma reset_index_returns (df a : DataFrame) :
  Pandas.reset_index df = Return a ->
  exists label,
    columns a = label :: columns df
    /\ rows a = imap (fun i row => VInt (Z.of_nat i) :: row) (rows df).
Proof.
  unfold Pandas.reset_index.
  destruct (bool_decide _); [discriminate |].
  intros Heq. injection Heq as <-. eexists. split; reflexivity.
Qed.

Lemma from_records_rows (records : list record) :
  rows (Pandas.from_records records)
  = map (fun r => map (fun c => default VNone (PyDict.get c r))
                      (columns (Pandas.from_records records)))
        records.
Proof. reflexivity. Qed.

Lemma cell_map {A} (f : A -> value) (l : list A) (k : nat) (x : A) :
  l !! k = Some x -> Pandas.cell k (map f l) = f x.
Proof.
  intros Hk. unfold Pandas.cell.
  change (map f l) with (f <$> l). rewrite list_lookup_fmap, Hk. reflexivity.
Qed.

(** Two tables of [n] rows side by side: row [i] is row [i] of the one
    followed by row [i] of the other. *)
Lemma concat_columns_rows (a u : DataFrame) :
  length (rows a) = length (rows u) ->
  length (rows (Pandas.concat_columns a u)) = length (rows a)
  /\ forall i arow urow,
       rows a !! i = Some arow -> rows u !! i = Some urow ->
       rows (Pandas.concat_columns a u) !! i = Some (arow ++ urow)%list.
Proof.
  intros Hlen. unfold Pandas.concat_columns. simpl.
  rewrite <- Hlen, Nat.max_id. split.
  - rewrite length_map, length_seq. reflexivity.
  - intros i arow urow Ha Hu.
    change (map ?f ?l) with (f <$> l). rewrite list_lookup_fmap.
    rewrite lookup_seq_lt by (apply lookup_lt_Some in Ha; exact Ha).
    simpl. unfold Pandas.row_or_missing. rewrite Ha, Hu. reflexivity.
Qed.

Lemma flat_map_singleton {A B} (g : A -> B) (l : list A) :
  flat_map (fun x => [g x]) l = map g l.
Proof. induction l as [| x l IH]; simpl; [| rewrite IH]; reflexivity. Qed.

(** A left join against a table whose keys are pairwise different keeps
    the rows of the left table, each followed by the cells joined to it. *)
Lemma merge_left_rows (left right joined : DataFrame) (key : string) :
  Pandas.merge_left left right key = Return joined ->
  (forall i j ri rj kr,
     columns right !! kr = Some key ->
     rows right !! i = Some ri -> rows right !! j = Some rj ->
     Pandas.cell kr ri = Pandas.cell kr rj -> i = j) ->
  exists kl kr,
    Pandas.unique_position key (columns left) = Return kl
    /\ Pandas.unique_position key (columns right) = Return kr
    /\ rows joined
       = map (fun lrow => (lrow ++ joined_cells right kr (Pandas.cell kl lrow))%list)
             (rows left).
Proof.
  unfold Pandas.merge_left, mbind, outcome_bind. intros Hjoin Huniq.
  destruct (Pandas.unique_position key (columns left)) as [kl | e] eqn:Hkl;
    [| discriminate].
  destruct (Pandas.unique_position key (columns right)) as [kr | e] eqn:Hkr;
    [| discriminate].
  destruct (Pandas.incompatible_keys _ _); [discriminate |].
  destruct (_ || _); [discriminate |].
  injection Hjoin as <-. exists kl, kr. repeat split. simpl.
  rewrite <- flat_map_singleton. apply flat_map_ext. intros lrow.
  unfold joined_cells.
  destruct (filter_at_most_one
              (fun rrow => value_eqb (Pandas.cell kr rrow) (Pandas.cell kl lrow))
              (rows right)) as [-> | [x ->]]; [| reflexivity | reflexivity].
  intros i j ri rj Hi Hj Hri Hrj. apply value_eqb_eq in Hri, Hrj.
  apply (Huniq i j ri rj kr); auto; [| congruence].
  apply unique_position_spec in Hkr as [Hkr _]. exact Hkr.
Qed.

Lemma traverse_returns {A B} (f : A -> outcome B) (xs : list A) (ys : list B) :
  Pandas.traverse f xs = Return ys ->
  length ys = length xs
  /\ forall i x, xs !! i = Some x ->
       exists y, ys !! i = Some y /\ f x = Return y.
Proof.
  revert ys. induction xs as [| x xs IH]; intros ys; simpl.
  - intros Heq. injection Heq as <-. split; [reflexivity |].
    intros i x Hi. discriminate.
  - unfold mbind, outcome_bind.
    destruct (f x) as [y | e] eqn:Hfx; [| discriminate].
    destruct (Pandas.traverse f xs) as [ys' | e]; [| discriminate].
    intros Heq. injection Heq as <-.
    destruct (IH ys' eq_refl) as [Hlen Hall]. split; [simpl; lia |].
    intros [| i] x' Hi; simpl in Hi.
    + injection Hi as <-. exists y. auto.
    + apply Hall. exact Hi.
Qed.

Lemma set_column_length (label : string) (cells : list value) (df : DataFrame) :
  length cells = length (rows df) ->
  length (rows (Pandas.set_column label cells df)) = length (rows df).
Proof.
  intros Hlen. unfold Pandas.set_column.
  destruct (bool_decide _); simpl; rewrite length_zip_with; lia.
Qed.

Section MergeRows.
Context `{Runtime}.

(** What a call of [merge_datasets] that returns has computed. *)
Lemma merge_datasets_returns (w : World) (self : DataProcessor)
    (df : DataFrame) (s' : Sys) :
  merge_datasets (w, self) = (Return df, s') ->
  s' = (w, self)
  /\ exists act usr codes a u joined date dates,
       data self !! "ACTIVITY_LOG" = Some act
       /\ data self !! "USER_LOG" = Some usr
       /\ data self !! "COMPONENT_CODES" = Some codes
       /\ Pandas.reset_index (Pandas.from_records act) = Return a
       /\ Pandas.reset_index (Pandas.from_records usr) = Return u
       /\ Pandas.merge_left (Pandas.concat_columns a u)
            (Pandas.from_records codes) "Component" = Return joined
       /\ Pandas.unique_position "Date"
            (columns (Pandas.iloc_columns_from 2 joined)) = Return date
       /\ Pandas.traverse (fun row => to_datetime (Pandas.cell date row))
            (rows (Pandas.iloc_columns_from 2 joined)) = Return dates
       /\ df = Pandas.set_column "Month" (map month_of dates)
                 (Pandas.iloc_columns_from 2 joined).
Proof.
  unfold merge_datasets. run_monad.
  destruct (decide _) as [Hsub | Hsub]; [| discriminate].
  destruct (data self !! "ACTIVITY_LOG") as [act |]; [| discriminate].
  destruct (data self !! "USER_LOG") as [usr |]; [| discriminate].
  destruct (data self !! "COMPONENT_CODES") as [codes |]; [| discriminate].
  simpl. unfold mbind, outcome_bind.
  destruct (Pandas.reset_index (Pandas.from_records act)) as [a | e] eqn:Ha;
    [| discriminate].
  destruct (Pandas.reset_index (Pandas.from_records usr)) as [u | e] eqn:Hu;
    [| discriminate].
  destruct (Pandas.merge_left _ _ _) as [joined | e] eqn:Hjoin; [| discriminate].
  destruct (Pandas.unique_position _ _) as [date | e] eqn:Hdate; [| discriminate].
  destruct (Pandas.traverse _ _) as [dates | e] eqn:Hdates; [| discriminate].
  intros Heq. injection Heq as <- <-. split; [reflexivity |].
  exists act, usr, codes, a, u, joined, date, dates. repeat split; auto.
Qed.

(** What the merge does for logs of one length and pairwise different
    component codes: row [i] of [ACTIVITY_LOG] is paired with row [i] of
    [USER_LOG] by position, without looking at any key, each after its
    position [i]; the pair is left-joined against [COMPONENT_CODES] on
    [Component]; the first two cells of the joined row are cut, which are
    the position and the first cell of the activity row; [Month] is the
    [YYYY-MM] of [Date].  The result has as many rows as a log and the
    processor is unchanged. *)
Theorem merge_pairs_rows_by_position (w : World) (self : DataProcessor)
    (df : DataFrame) (s' : Sys) (act usr codes : list record) :
  merge_datasets (w, self) = (Return df, s') ->
  data self !! "ACTIVITY_LOG" = Some act ->
  data self !! "USER_LOG" = Some usr ->
  data self !! "COMPONENT_CODES" = Some codes ->
  length act = length usr ->
  distinct_components codes ->
  s' = (w, self)
  /\ length (rows df) = length act
  /\ exists a u kl kr base date months,
       Pandas.reset_index (Pandas.from_records act) = Return a
       /\ Pandas.reset_index (Pandas.from_records usr) = Return u
       /\ Pandas.unique_position "Component" (columns a ++ columns u)%list
          = Return kl
       /\ Pandas.unique_position "Component"
            (columns (Pandas.from_records codes)) = Return kr
       /\ Pandas.unique_position "Date" (columns base) = Return date
       /\ df = Pandas.set_column "Month" months base
       /\ forall i arow urow,
            rows (Pandas.from_records act) !! i = Some arow ->
            rows (Pandas.from_records usr) !! i = Some urow ->
            let pair := combined_row i arow urow in
            let row :=
              drop 2 (pair ++ joined_cells (Pandas.from_records codes) kr
                                (Pandas.cell kl pair))%list in
            exists d,
              rows base !! i = Some row
              /\ to_datetime (Pandas.cell date row) = Return d
              /\ months !! i = Some (month_of d).
Proof.
  intros Hrun Hact Husr Hcodes Hlen Hdistinct.
  apply merge_datasets_returns in Hrun
    as (-> & act' & usr' & codes' & a & u & joined & date & dates
        & Hact' & Husr' & Hcodes' & Ha & Hu & Hjoin & Hdate & Hdates & ->).
  rewrite Hact in Hact'. injection Hact' as <-.
  rewrite Husr in Husr'. injection Husr' as <-.
  rewrite Hcodes in Hcodes'. injection Hcodes' as <-.
  destruct (reset_index_returns _ _ Ha) as (la & Hcols_a & Hrows_a).
  destruct (reset_index_returns _ _ Hu) as (lu & Hcols_u & Hrows_u).
  assert (Hlen_a : length (rows a) = length act).
  { rewrite Hrows_a, length_imap, from_records_rows, length_map. reflexivity. }
  assert (Hlen_u : length (rows u) = length usr).
  { rewrite Hrows_u, length_imap, from_records_rows, length_map. reflexivity. }
  destruct (concat_columns_rows a u) as [Hlen_c Hrows_c]; [congruence |].
  apply merge_left_rows in Hjoin as (kl & kr & Hkl & Hkr & Hrows_j).
  2:{ intros i j ri rj k Hk Hi Hj Hcell.
      rewrite from_records_rows in Hi, Hj.
      change (map ?f ?l) with (f <$> l) in Hi, Hj.
      rewrite list_lookup_fmap in Hi, Hj.
      apply fmap_Some in Hi as (ci & Hci & ->).
      apply fmap_Some in Hj as (cj & Hcj & ->).
      rewrite !(cell_map _ _ _ _ Hk) in Hcell.
      apply (Hdistinct i j ci cj Hci Hcj Hcell). }
  apply traverse_returns in Hdates as [Hlen_d Hall_d].
  assert (Hlen_b : length (rows (Pandas.iloc_columns_from 2 joined))
                   = length act).
  { simpl. rewrite length_map, Hrows_j, length_map. congruence. }
  split; [reflexivity |]. split.
  { rewrite set_column_length; [exact Hlen_b |].
    rewrite length_map. exact Hlen_d. }
  exists a, u, kl, kr, (Pandas.iloc_columns_from 2 joined), date,
    (map month_of dates).
  repeat (split; [assumption || reflexivity |]).
  intros i arow urow Harow Hurow pair row.
  assert (Hpair : rows (Pandas.concat_columns a u) !! i = Some pair).
  { apply (Hrows_c i (VInt (Z.of_nat i) :: arow) (VInt (Z.of_nat i) :: urow)).
    - rewrite Hrows_a, list_lookup_imap, Harow. reflexivity.
    - rewrite Hrows_u, list_lookup_imap, Hurow. reflexivity. }
  assert (Hrow : rows (Pandas.iloc_columns_from 2 joined) !! i = Some row).
  { simpl. change (map ?f ?l) with (f <$> l).
    rewrite list_lookup_fmap, Hrows_j.
    change (map ?f ?l) with (f <$> l).
    rewrite list_lookup_fmap, Hpair. reflexivity. }
  destruct (Hall_d i row Hrow) as (d & Hd & Hto).
  exists d. split; [exact Hrow |]. split; [exact Hto |].
  change (map ?f ?l) with (f <$> l). rewrite list_lookup_fmap, Hd. reflexivity.
Qed.

End MergeRows.

Lemma distinct_component_records :
  distinct_components Examples.component_records.
Proof.
  intros [| [| [| [| i]]]] [| [| [| [| j]]]] ri rj Hi Hj;
    simpl in Hi, Hj; try discriminate;
    injection Hi as <-; injection Hj as <-;
    (reflexivity || (intros Heq; vm_compute in Heq; discriminate)).
Qed.

Lemma merge_pairs_rows_by_position_witness :
  let r := merge_datasets (fst Examples.merge_ready, snd Examples.merge_ready) in
  let df := match fst r with
            | Return df => df
            | Raise _ => mkDataFrame [] []
            end in
  snd r = (fst Examples.merge_ready, snd Examples.merge_ready)
  /\ length (rows df) = length Examples.activity_rows
  /\ exists a u kl kr base date months,
       Pandas.reset_index (Pandas.from_records Examples.activity_rows)
       = Return a
       /\ Pandas.reset_index (Pandas.from_records Examples.user_records)
          = Return u
       /\ Pandas.unique_position "Component" (columns a ++ columns u)%list
          = Return kl
       /\ Pandas.unique_position "Component"
            (columns (Pandas.from_records Examples.component_records))
          = Return kr
       /\ Pandas.unique_position "Date" (columns base) = Return date
       /\ df = Pandas.set_column "Month" months base
       /\ forall i arow urow,
            rows (Pandas.from_records Examples.activity_rows) !! i = Some arow ->
            rows (Pandas.from_records Examples.user_records) !! i = Some urow ->
            let pair := combined_row i arow urow in
            let row :=
              drop 2 (pair ++ joined_cells
                                (Pandas.from_records Examples.component_records)
                                kr (Pandas.cell kl pair))%list in
            exists d,
              rows base !! i = Some row
              /\ to_datetime (Pandas.cell date row) = Return d
              /\ months !! i = Some (month_of d).
Proof.
  cbv zeta.
  apply (merge_pairs_rows_by_position
           (fst Examples.merge_ready) (snd Examples.merge_ready)).
  - vm_compute. reflexivity.
  - vm_compute. reflexivity.
  - vm_compute. reflexivity.
  - vm_compute. reflexivity.
  - reflexivity.
  - exact distinct_component_records.
Defined.

(** The left join repeats a row once per matching code: with three rows
    in each log and three component codes, two of them for [Quiz], the two
    [Quiz] rows are repeated and the result has five rows. *)
Lemma merge_repeats_rows_for_repeated_codes :
  let self := snd Examples.repeated_codes in
  (length <$> data self !! "ACTIVITY_LOG") = Some 3%nat
  /\ (length <$> data self !! "USER_LOG") = Some 3%nat
  /\ (length <$> data self !! "COMPONENT_CODES") = Some 3%nat
  /\ exists df,
       fst (merge_datasets Examples.repeated_codes) = Return df
       /\ length (rows df) = 5%nat.
Proof.
  cbv zeta. repeat (split; [vm_compute; reflexivity |]).
  eexists. split; vm_compute; reflexivity.
Qed.

(** C4: the code cuts a column of the activity log out of the merged
    table.  With three rows in each log and pairwise different component
    codes, [merge_datasets] pairs the rows by position, joins the codes
    and adds [Month], but the table it returns has no [Time] column, the
    first column of [ACTIVITY_LOG], and it has the column [index] that
    [reset_index] put before the columns of [USER_LOG]: line 284 cuts two
    columns, [iloc[:, 2:]], where the comment above it speaks of removing
    the one duplicate index column. *)
Theorem merge_drops_first_activity_column :
  let r := merge_datasets Examples.merge_ready in
  data (snd Examples.merge_ready) !! "ACTIVITY_LOG"
  = Some [ [("Time", VStr "10:00"); ("Component", VStr "Quiz");
            ("Action", VStr "Viewed")];
           [("Time", VStr "10:05"); ("Component", VStr "Quiz");
            ("Action", VStr "Submitted")];
           [("Time", VStr "11:30"); ("Component", VStr "Forum");
            ("Action", VStr "Posted")] ]
  /\ data (snd Examples.merge_ready) !! "USER_LOG"
     = Some [ [("User Full Name *Anonymized", VInt 7);
               ("Date", Examples.day 2024 1 10)];
              [("User Full Name *Anonymized", VInt 7);
               ("Date", Examples.day 2024 1 11)];
              [("User Full Name *Anonymized", VInt 9);
               ("Date", Examples.day 2024 2 2)] ]
  /\ data (snd Examples.merge_ready) !! "COMPONENT_CODES"
     = Some [ [("Component", VStr "Quiz"); ("Code", VStr "Quiz_1")];
              [("Component", VStr "Forum"); ("Code", VStr "Forum_1")];
              [("Component", VStr "System"); ("Code", VStr "System_1")];
              [("Code", VStr "Orphan")] ]
  /\ snd r = Examples.merge_ready
  /\ fst r
     = Return
         (mkDataFrame
            ["Component"; "Action"; "index"; "User Full Name *Anonymized";
             "Date"; "Code"; "Month"]
            [ [VStr "Quiz"; VStr "Viewed"; VInt 0; VInt 7;
               Examples.day 2024 1 10; VStr "Quiz_1"; VStr "2024-01"];
              [VStr "Quiz"; VStr "Submitted"; VInt 1; VInt 7;
               Examples.day 2024 1 11; VStr "Quiz_1"; VStr "2024-01"];
              [VStr "Forum"; VStr "Posted"; VInt 2; VInt 9;
               Examples.day 2024 2 2; VStr "Forum_1"; VStr "2024-02"] ]).
Proof. evaluate. Qed.
(* ===================================================================== *)
(** * Reshaping: [reshape_data] *)
(* ===================================================================== *)

(** ** The orders the pivot sorts by *)

Lemma ascii_compare_lt_trans (a b c : ascii) :
  Ascii.compare a b = Lt -> Ascii.compare b c = Lt -> Ascii.compare a c = Lt.
Proof.
  unfold Ascii.compare. rewrite !N.compare_lt_iff. apply N.lt_trans.
Qed.

Lemma string_compare_eq (a b : string) : String.compare a b = Eq -> a = b.
Proof. apply String.compare_eq_iff. Qed.

Lemma string_compare_refl (a : string) : String.compare a a = Eq.
Proof.
  induction a as [| x a IH]; simpl; [reflexivity |].
  unfold Ascii.compare. rewrite N.compare_refl. exact IH.
Qed.

Lemma string_compare_lt_trans (a b c : string) :
  String.compare a b = Lt -> String.compare b c = Lt -> String.compare a c = Lt.
Proof.
  revert b c. induction a as [| x a IH]; intros [| y b] [| z c]; simpl;
    try discriminate; try reflexivity.
  destruct (Ascii.compare x y) eqn:Hxy; try discriminate.
  - apply Ascii.compare_eq_iff in Hxy as ->.
    destruct (Ascii.compare y z); try discriminate; [apply IH | reflexivity].
  - intros _. destruct (Ascii.compare y z) eqn:Hyz; try discriminate.
    + apply Ascii.compare_eq_iff in Hyz as <-. rewrite Hxy. reflexivity.
    + rewrite (ascii_compare_lt_trans x y z Hxy Hyz). reflexivity.
Qed.

Lemma string_leb_cases (a b : string) :
  String.leb a b = true <-> String.compare a b = Lt \/ a = b.
Proof.
  unfold String.leb. destruct (String.compare a b) eqn:Hab.
  - apply string_compare_eq in Hab. tauto.
  - tauto.
  - split; [discriminate |]. intros [Hlt | ->]; [discriminate |].
    rewrite string_compare_refl in Hab. discriminate.
Qed.

Global Instance str_le_trans : Transitive str_le.
Proof.
  intros a b c. unfold str_le. rewrite !string_leb_cases.
  intros [Hab | ->] [Hbc | ->]; auto.
  left. eapply string_compare_lt_trans; eauto.
Qed.

Global Instance str_le_total : Total str_le.
Proof. intros a b. apply String.leb_total. Qed.

Lemma key_le_cases (a b : Z * string) :
  key_le a b <-> (fst a < fst b)%Z \/ (fst a = fst b /\ str_le (snd a) (snd b)).
Proof.
  unfold key_le, key_leb, str_le.
  rewrite orb_true_iff, andb_true_iff, Z.ltb_lt, Z.eqb_eq. reflexivity.
Qed.

Global Instance key_le_trans : Transitive key_le.
Proof.
  intros a b c. rewrite !key_le_cases.
  intros [Hab | [Hab Hab']] [Hbc | [Hbc Hbc']]; try (left; lia).
  right. split; [lia |]. etransitivity; eauto.
Qed.

Global Instance key_le_total : Total key_le.
Proof.
  intros a b. rewrite !key_le_cases.
  destruct (Z.lt_trichotomy (fst a) (fst b)) as [Hlt | [Heq | Hgt]]; auto.
  destruct (str_le_total (snd a) (snd b)); auto.
Qed.

Global Instance row_le_trans : Transitive row_le.
Proof. intros a b c. unfold row_le. apply key_le_trans. Qed.

Global Instance row_le_total : Total row_le.
Proof. intros a b. unfold row_le. apply key_le_total. Qed.

(** Ascending keys that do not repeat are strictly ascending: first by
    [User_ID], then by [Month]. *)
Lemma key_le_antisym (a b : Z * string) : key_le a b -> key_le b a -> a = b.
Proof.
  rewrite !key_le_cases. unfold str_le.
  intros [Hab | [Hab Hab']] [Hba | [Hba Hba']]; try lia.
  destruct a, b; simpl in *. subst. f_equal.
  apply String.leb_antisym; auto.
Qed.

(** ** The pivot *)

Lemma traverse_total {A B} (f : A -> outcome B) (xs : list A) :
  Forall (fun x => exists y, f x = Return y) xs ->
  exists ys, Pandas.traverse f xs = Return ys.
Proof.
  induction 1 as [| x xs [y Hy] _ [ys IH]]; simpl.
  - eexists. reflexivity.
  - unfold mbind, outcome_bind. rewrite Hy, IH. eexists. reflexivity.
Qed.

Lemma pivot_key_group (x : interaction) (u : Z) (m c : string) :
  pivot_key x = Return (Some (u, m, c)) <-> in_group x u m c.
Proof.
  unfold pivot_key, in_group. destruct x as [xu xm xc xa]. simpl.
  destruct xm as [| b | z | m' | t], xc as [| b' | z' | c' | t'];
    split; try discriminate; try (intros (_ & Hm & Hc); discriminate).
  - intros Heq. injection Heq as <- <- <-. auto.
  - intros (-> & Hm & Hc). injection Hm as <-. injection Hc as <-. reflexivity.
Qed.

Lemma pivot_key_total (x : interaction) :
  text_or_missing (i_month x) -> text_or_missing (i_component x) ->
  exists k, pivot_key x = Return k.
Proof.
  unfold pivot_key. destruct x as [xu xm xc xa]. simpl.
  intros [-> | [m ->]] [-> | [c ->]]; eexists; reflexivity.
Qed.

(** The keys [traverse] collects are those of the rows. *)
Lemma pivot_keys_groups (xs : list interaction)
    (keys : list (option (Z * string * string))) (u : Z) (m c : string) :
  Pandas.traverse pivot_key xs = Return keys ->
  (u, m, c) ∈ omap id keys <-> exists x, x ∈ xs /\ in_group x u m c.
Proof.
  intros Hkeys. rewrite list_elem_of_omap.
  revert keys Hkeys. induction xs as [| x xs IH]; intros keys; simpl.
  - intros Heq. injection Heq as <-. split.
    + intros (k & Hin & _). inversion Hin.
    + intros (x & Hin & _). inversion Hin.
  - unfold mbind, outcome_bind.
    destruct (pivot_key x) as [k |] eqn:Hk; [| discriminate].
    destruct (Pandas.traverse pivot_key xs) as [keys' |]; [| discriminate].
    intros Heq. injection Heq as <-. specialize (IH keys' eq_refl). split.
    + intros (k' & Hin & Hid). apply elem_of_cons in Hin as [-> | Hin].
      * simpl in Hid. subst k. exists x. split; [left |].
        apply pivot_key_group. exact Hk.
      * destruct IH as [IH _]. destruct IH as (x' & Hx' & Hg); [eauto |].
        exists x'. split; [right; exact Hx' | exact Hg].
    + intros (x' & Hin & Hg). apply elem_of_cons in Hin as [-> | Hin].
      * exists k. split; [left |]. apply pivot_key_group in Hg.
        simpl. congruence.
      * destruct IH as [_ IH]. destruct IH as (k' & Hk' & Hid); [eauto |].
        exists k'. split; [right; exact Hk' | exact Hid].
Qed.

Lemma filter_all {A} (f : A -> bool) (l : list A) :
  Forall (fun x => f x = true) l -> List.filter f l = l.
Proof.
  induction 1 as [| x l Hx _ IH]; simpl; [reflexivity |].
  rewrite Hx, IH. reflexivity.
Qed.

Lemma zip_with_map_self {A B C} (f : A -> B -> C) (g : A -> B) (l : list A) :
  zip_with f l (map g l) = map (fun x => f x (g x)) l.
Proof. induction l as [| x l IH]; simpl; [| rewrite IH]; reflexivity. Qed.

Lemma sum_cells_ints (zs : list Z) :
  sum_cells (map VInt zs) = fold_right Z.add 0 zs.
Proof. induction zs as [| z zs IH]; simpl; [| rewrite IH]; reflexivity. Qed.

(** The cells of a row of the pivot under the component labels are its
    counts. *)
Lemma activity_cells (components : list string) (u : Z) (m : string)
    (counts : list Z) :
  "User_ID" ∉ components -> "Month" ∉ components ->
  length counts = length components ->
  map snd (List.filter
             (fun lc : string * value => bool_decide (fst lc ∈ components))
             (zip ("User_ID" :: "Month" :: components)
                  (VInt u :: VStr m :: map VInt counts)))
  = map VInt counts.
Proof.
  intros Hu Hm Hlen. simpl.
  rewrite (bool_decide_eq_false_2 _ Hu), (bool_decide_eq_false_2 _ Hm).
  rewrite filter_all.
  - change (map snd ?l) with (l.*2). apply snd_zip.
    rewrite length_map. lia.
  - apply List.Forall_forall. intros [l v] Hin. simpl.
    apply bool_decide_eq_true.
    apply (elem_of_zip_l l v components (map VInt counts)).
    apply list_elem_of_In. exact Hin.
Qed.

Section Reshaping.
Context `{Runtime}.

(** The table [reshape_data] returns, when no component is named like
    one of the three columns the pivot adds. *)
Lemma reshape_data_eq (df : DataFrame) (s : Sys) (xs : list interaction)
    (keys : list (option (Z * string * string))) :
  interactions df = Return xs ->
  Pandas.traverse pivot_key xs = Return keys ->
  "User_ID" ∉ pivot_components keys ->
  "Month" ∉ pivot_components keys ->
  "Total_Interactions" ∉ pivot_components keys ->
  reshape_data df s
  = (Return (mkDataFrame
               ("User_ID" :: "Month" :: pivot_components keys
                ++ ["Total_Interactions"])%list
               (merge_sort row_le
                  (map (pivot_row xs (pivot_components keys))
                       (pivot_index keys)))), s).
Proof.
  intros Hxs Hkeys Hu Hm Ht.
  unfold reshape_data. run_monad. unfold mbind, outcome_bind.
  rewrite Hxs. unfold pivot_table, mbind, outcome_bind. rewrite Hkeys.
  fold (pivot_components keys). fold (pivot_index keys).
  rewrite (bool_decide_eq_false_2 _ Hu), (bool_decide_eq_false_2 _ Hm).
  cbn [orb columns rows].
  set (components := pivot_components keys) in *.
  assert (Hcols : List.filter
                    (fun col : string =>
                       negb (bool_decide (col ∈ ["User_ID"; "Month"])))
                    ("User_ID" :: "Month" :: components) = components).
  { cbn [List.filter].
    rewrite !bool_decide_eq_true_2 by set_solver. cbn [negb].
    apply filter_all, List.Forall_forall. intros c Hc.
    apply negb_true_iff, bool_decide_eq_false. apply list_elem_of_In in Hc.
    intros Hin. apply elem_of_cons in Hin as [-> | Hin]; [contradiction |].
    apply list_elem_of_singleton in Hin as ->. contradiction. }
  rewrite Hcols. unfold Pandas.set_column. cbn [columns rows].
  rewrite bool_decide_eq_false_2.
  2:{ intros Hin. apply elem_of_cons in Hin as [Heq | Hin]; [discriminate |].
      apply elem_of_cons in Hin as [Heq | Hin]; [discriminate | contradiction]. }
  cbn [columns rows]. rewrite zip_with_map_self, map_map.
  rewrite (map_ext _ (pivot_row xs components)); [reflexivity |].
  intros [u m]. unfold pivot_row, pivot_counts.
  cbn [fst snd]. rewrite <- (map_map (count_actions xs u m) VInt).
  rewrite activity_cells, sum_cells_ints; auto.
  rewrite length_map. reflexivity.
Qed.

Lemma row_key_pivot_row (xs : list interaction) (components : list string)
    (k : Z * string) :
  row_key (pivot_row xs components k) = k.
Proof. destruct k. reflexivity. Qed.

Lemma row_keys_pivot_rows (xs : list interaction) (components : list string)
    (index : list (Z * string)) :
  map row_key (map (pivot_row xs components) index) = index.
Proof.
  induction index as [| k index IH]; [reflexivity |].
  cbn [map]. rewrite row_key_pivot_row, IH. reflexivity.
Qed.

(** C6 (amended): for a merged table whose [User_ID] values all convert
    to integers, whose [Month] and [Component] cells are strings or
    missing, and where no component is named [User_ID], [Month] or
    [Total_Interactions], [reshape_data] returns one row for every
    [(User_ID, Month)] pair that occurs in a row with both its [Month]
    and its [Component] present, and no other row; one column for every
    [Component] of such rows, holding the number of those rows of the
    pair and the component whose [Action] is present; and
    [Total_Interactions], the sum of these counts.  The rows ascend by
    [User_ID], then by [Month]; the component columns ascend by name. *)
Theorem reshape_counts_per_user_month (df : DataFrame) (s : Sys)
    (xs : list interaction) :
  interactions df = Return xs ->
  Forall (fun x => text_or_missing (i_month x)
                   /\ text_or_missing (i_component x)) xs ->
  (forall x u m c, x ∈ xs -> in_group x u m c ->
     c ∉ ["User_ID"; "Month"; "Total_Interactions"]) ->
  exists out components,
    reshape_data df s = (Return out, s)
    /\ columns out
       = ("User_ID" :: "Month" :: components ++ ["Total_Interactions"])%list
    /\ NoDup components
    /\ StronglySorted str_le components
    /\ (forall c, c ∈ components <->
          exists x u m, x ∈ xs /\ in_group x u m c)
    /\ NoDup (map row_key (rows out))
    /\ StronglySorted row_le (rows out)
    /\ (forall u m, (u, m) ∈ map row_key (rows out) <->
          exists x c, x ∈ xs /\ in_group x u m c)
    /\ (forall row, row ∈ rows out ->
          exists u m,
            row = (VInt u :: VStr m
                   :: map (fun c => VInt (count_actions xs u m c)) components
                   ++ [VInt (fold_right Z.add 0
                               (map (count_actions xs u m) components))])%list).
Proof.
  intros Hxs Htext Hreserved.
  destruct (traverse_total pivot_key xs) as [keys Hkeys].
  { eapply Forall_impl; [exact Htext |]. intros x [Hm Hc].
    apply pivot_key_total; assumption. }
  assert (Hcomp : forall c, c ∈ pivot_components keys <->
                    exists x u m, x ∈ xs /\ in_group x u m c).
  { intros c. unfold pivot_components.
    rewrite merge_sort_Permutation, elem_of_remove_dups.
    change (map snd ?l) with (snd <$> l). rewrite list_elem_of_fmap. split.
    - intros ([[u m] c'] & -> & Hin).
      apply (pivot_keys_groups xs keys u m c' Hkeys) in Hin as (x & Hx & Hg).
      exists x, u, m. auto.
    - intros (x & u & m & Hx & Hg). exists (u, m, c). split; [reflexivity |].
      apply (pivot_keys_groups xs keys u m c Hkeys). eauto. }
  assert (Hindex : forall u m, (u, m) ∈ pivot_index keys <->
                     exists x c, x ∈ xs /\ in_group x u m c).
  { intros u m. unfold pivot_index.
    rewrite merge_sort_Permutation, elem_of_remove_dups.
    change (map fst ?l) with (fst <$> l). rewrite list_elem_of_fmap. split.
    - intros ([[u' m'] c] & Heq & Hin). simpl in Heq. injection Heq as <- <-.
      apply (pivot_keys_groups xs keys u m c Hkeys) in Hin as (x & Hx & Hg).
      exists x, c. auto.
    - intros (x & c & Hx & Hg). exists (u, m, c). split; [reflexivity |].
      apply (pivot_keys_groups xs keys u m c Hkeys). eauto. }
  assert (Hfree : forall l, l ∈ ["User_ID"; "Month"; "Total_Interactions"] ->
                    l ∉ pivot_components keys).
  { intros l Hl Hin. apply Hcomp in Hin as (x & u & m & Hx & Hg).
    exact (Hreserved x u m l Hx Hg Hl). }
  exists (mkDataFrame
            ("User_ID" :: "Month" :: pivot_components keys
             ++ ["Total_Interactions"])%list
            (merge_sort row_le
               (map (pivot_row xs (pivot_components keys)) (pivot_index keys)))),
    (pivot_components keys).
  assert (Hkeys_of : map row_key
                       (merge_sort row_le
                          (map (pivot_row xs (pivot_components keys))
                               (pivot_index keys)))
                     ≡ₚ pivot_index keys).
  { change (map row_key ?l) with (row_key <$> l).
    rewrite merge_sort_Permutation.
    change (row_key <$> ?l) with (map row_key l).
    rewrite row_keys_pivot_rows. reflexivity. }
  split.
  { apply reshape_data_eq; auto; apply Hfree, list_elem_of_In; simpl; tauto. }
  split; [reflexivity |].
  split.
  { unfold pivot_components. rewrite merge_sort_Permutation.
    apply NoDup_remove_dups. }
  split; [apply StronglySorted_merge_sort; apply _ |].
  split; [exact Hcomp |]. cbn [rows].
  split.
  { rewrite Hkeys_of. unfold pivot_index. rewrite merge_sort_Permutation.
    apply NoDup_remove_dups. }
  split; [apply StronglySorted_merge_sort; apply _ |].
  split.
  { intros u m. rewrite Hkeys_of. apply Hindex. }
  intros row Hrow. rewrite merge_sort_Permutation in Hrow.
  change (map ?f ?l) with (f <$> l) in Hrow.
  apply list_elem_of_fmap in Hrow as ([u m] & -> & _).
  exists u, m. unfold pivot_row, pivot_counts. cbn [fst snd].
  rewrite map_map. reflexivity.
Qed.

End Reshaping.

Lemma reshape_counts_per_user_month_witness :
  let xs := [ mkInteraction 7 (VStr "2024-01") (VStr "Quiz") (VStr "Viewed");
              mkInteraction 7 (VStr "2024-01") (VStr "Quiz") (VStr "Submitted");
              mkInteraction 7 (VStr "2024-01") (VStr "Forum") (VStr "Posted");
              mkInteraction 3 (VStr "2024-02") (VStr "Quiz") VNone ] in
  exists out components,
    reshape_data Examples.merged_table Examples.started
    = (Return out, Examples.started)
    /\ columns out
       = ("User_ID" :: "Month" :: components ++ ["Total_Interactions"])%list
    /\ NoDup components
    /\ StronglySorted str_le components
    /\ (forall c, c ∈ components <->
          exists x u m, x ∈ xs /\ in_group x u m c)
    /\ NoDup (map row_key (rows out))
    /\ StronglySorted row_le (rows out)
    /\ (forall u m, (u, m) ∈ map row_key (rows out) <->
          exists x c, x ∈ xs /\ in_group x u m c)
    /\ (forall row, row ∈ rows out ->
          exists u m,
            row = (VInt u :: VStr m
                   :: map (fun c => VInt (count_actions xs u m c)) components
                   ++ [VInt (fold_right Z.add 0
                               (map (count_actions xs u m) components))])%list).
Proof.
  cbv zeta. apply reshape_counts_per_user_month.
  - vm_compute. reflexivity.
  - repeat (constructor;
            [split; right; eexists; reflexivity |]). constructor.
  - intros x u m c Hx (_ & _ & Hc) Hin.
    apply list_elem_of_In in Hx. simpl in Hx.
    apply list_elem_of_In in Hin. simpl in Hin.
    destruct Hx as [<- | [<- | [<- | [<- | []]]]]; simpl in Hc;
      injection Hc as <-;
      destruct Hin as [Heq | [Heq | [Heq | []]]]; discriminate.
Defined.

(** C6, as stated, fails: merging a two-row activity log with a three-row
    user log gives a table whose third row has user 9 and month
    [2024-02] but no [Component]; every [User_ID] of the table is an
    integer, yet the pivot has a row for [(7, 2024-01)] only and none for
    the pair [(9, 2024-02)]. *)
Lemma reshape_drops_pair_without_component :
  exists merged xs out,
    fst (merge_datasets Examples.uneven_logs) = Return merged
    /\ interactions merged = Return xs
    /\ mkInteraction 9 (VStr "2024-02") VNone VNone ∈ xs
    /\ fst (reshape_data merged Examples.uneven_logs) = Return out
    /\ rows out = [[VInt 7; VStr "2024-01"; VInt 1; VInt 1; VInt 2]]
    /\ (9, "2024-02") ∉ map row_key (rows out).
Proof.
  eexists _, _, _.
  split; [vm_compute; reflexivity |].
  split; [vm_compute; reflexivity |].
  split; [apply list_elem_of_In; simpl; tauto |].
  split; [vm_compute; reflexivity |].
  split; [reflexivity |].
  intros Hin. apply list_elem_of_In in Hin. simpl in Hin.
  destruct Hin as [Heq | []]. discriminate.
Qed.
(* ===================================================================== *)
(** * More on persistence and ingestion *)
(* ===================================================================== *)

(** A decidable closed proposition, settled by evaluating its decision. *)
Ltac decide_by_evaluation :=
  match goal with
  | |- ?P => apply (bool_decide_eq_true_1 P); vm_compute; reflexivity
  end.

Lemma stats_encodable_empty : stats_encodable ∅ = true.
Proof. unfold stats_encodable. rewrite map_to_list_empty. reflexivity. Qed.

Lemma data_encodable_empty : data_encodable ∅ = true.
Proof. unfold data_encodable. rewrite map_to_list_empty. reflexivity. Qed.

Section Restart.
Context `{Runtime}.

Lemma restart_after_save (w : World) (self : DataProcessor) :
  encodable self = true ->
  exists w1 restarted,
    _save_state (w, self) = (Return tt, (w1, self))
    /\ __init__ (backup_file_path self) w1 = (Return tt, (w1, restarted))
    /\ data restarted = data self
    /\ stats restarted = stats self
    /\ processed_files restarted = processed_files self
    /\ excluded_components restarted = excluded_components self.
Proof.
  intros Henc. unfold encodable in Henc.
  exists (saved_world (w, self)). eexists. split; [apply _save_state_eq |].
  unfold __init__, _ensure_backup_path, _load_state, saved_world. run_monad.
  unfold state_file at 1. cbn [backup_file_path].
  fold (state_file self). rewrite lookup_insert_eq, Henc. cbn.
  split; [reflexivity |]. cbn.
  rewrite !list_to_set_elements_L. auto.
Qed.

Lemma start_without_state_file (backup : string) (w : World) :
  fs w !! path_join backup "application_state.json" = None ->
  __init__ backup w
  = (Return tt,
     (w, mkDataProcessor backup ∅ {[ "System"; "Folder" ]}
           [("User Full Name *Anonymized", "User_ID")] ∅ ∅ [])).
Proof.
  intros Hnone. unfold __init__, _ensure_backup_path, _load_state. run_monad.
  unfold state_file. cbn [backup_file_path]. rewrite Hnone. reflexivity.
Qed.

Lemma load_unreadable_state_file (w : World) (self : DataProcessor) :
  fs w !! state_file self = Some Unreadable ->
  exists w' self',
    _load_state (w, self) = (Return tt, (w', self'))
    /\ data self' = ∅ /\ stats self' = ∅ /\ processed_files self' = ∅
    /\ excluded_components self' = excluded_components self
    /\ fs w' !! state_file self'
       = Some (SnapshotFile
                 (mkSnapshot (Some ∅) (Some [])
                    (Some (elements (excluded_components self)))
                    (Some (isoformat (clock w (ticks w))))
                    (Some ∅) [])).
Proof.
  intros Hfile. unfold _load_state. run_monad. rewrite Hfile. cbn.
  rewrite _initialize_new_state_eq. eexists _, _. split; [reflexivity |].
  cbn. repeat split.
  rewrite lookup_insert_eq, stats_encodable_empty, data_encodable_empty.
  rewrite elements_empty. reflexivity.
Qed.

(** Restart: a state [json.dump] can encode, once saved, is the state of
    a processor constructed afterwards on the same backup directory: same
    datasets, statistics, processed-file registry and exclusion set;
    constructing it writes nothing. *)
Theorem restart_restores_saved_state (w : World) (self : DataProcessor) :
  encodable self = true ->
  exists w1 restarted,
    _save_state (w, self) = (Return tt, (w1, self))
    /\ __init__ (backup_file_path self) w1 = (Return tt, (w1, restarted))
    /\ data restarted = data self
    /\ stats restarted = stats self
    /\ processed_files restarted = processed_files self
    /\ excluded_components restarted = excluded_components self.
Proof. apply restart_after_save. Qed.

(** First start: without a state file the processor starts with no
    dataset, no statistics, no processed file and the default exclusion
    set, and nothing is written. *)
Theorem first_start_is_empty (backup : string) (w : World) :
  fs w !! path_join backup "application_state.json" = None ->
  __init__ backup w
  = (Return tt,
     (w, mkDataProcessor backup ∅ {[ "System"; "Folder" ]}
           [("User Full Name *Anonymized", "User_ID")] ∅ ∅ [])).
Proof. apply start_without_state_file. Qed.

(** A state file that cannot be parsed is not an error: loading empties
    the datasets, the statistics and the registry, keeps the exclusion
    set, and replaces the file by the snapshot of that empty state. *)
Theorem load_recovers_from_unreadable_file (w : World) (self : DataProcessor) :
  fs w !! state_file self = Some Unreadable ->
  exists w' self',
    _load_state (w, self) = (Return tt, (w', self'))
    /\ data self' = ∅ /\ stats self' = ∅ /\ processed_files self' = ∅
    /\ excluded_components self' = excluded_components self
    /\ fs w' !! state_file self'
       = Some (SnapshotFile
                 (mkSnapshot (Some ∅) (Some [])
                    (Some (elements (excluded_components self)))
                    (Some (isoformat (clock w (ticks w))))
                    (Some ∅) [])).
Proof. apply load_unreadable_state_file. Qed.

End Restart.

Lemma restart_restores_saved_state_witness :
  exists w1 restarted,
    _save_state (fst Examples.with_codes, snd Examples.with_codes)
    = (Return tt, (w1, snd Examples.with_codes))
    /\ __init__ (backup_file_path (snd Examples.with_codes)) w1
       = (Return tt, (w1, restarted))
    /\ data restarted = data (snd Examples.with_codes)
    /\ stats restarted = stats (snd Examples.with_codes)
    /\ processed_files restarted = processed_files (snd Examples.with_codes)
    /\ excluded_components restarted
       = excluded_components (snd Examples.with_codes).
Proof.
  apply restart_restores_saved_state. vm_compute. reflexivity.
Defined.

Lemma first_start_is_empty_witness :
  __init__ "files" Examples.fresh_world
  = (Return tt,
     (Examples.fresh_world,
      mkDataProcessor "files" ∅ {[ "System"; "Folder" ]}
        [("User Full Name *Anonymized", "User_ID")] ∅ ∅ [])).
Proof. apply first_start_is_empty. vm_compute. reflexivity. Defined.

Lemma load_recovers_from_unreadable_file_witness :
  let s := snd (_save_state Examples.with_activity) in
  exists w' self',
    _load_state (fst s, snd s) = (Return tt, (w', self'))
    /\ data self' = ∅ /\ stats self' = ∅ /\ processed_files self' = ∅
    /\ excluded_components self' = excluded_components (snd s)
    /\ fs w' !! state_file self'
       = Some (SnapshotFile
                 (mkSnapshot (Some ∅) (Some [])
                    (Some (elements (excluded_components (snd s))))
                    (Some (isoformat (clock (fst s) (ticks (fst s)))))
                    (Some ∅) [])).
Proof.
  cbv zeta. apply load_recovers_from_unreadable_file. vm_compute. reflexivity.
Defined.

(** ** Batches of paths *)

Section Batches.
Context `{Runtime}.

(** A path whose file cannot be cleaned is passed over like a registered
    one: the batch goes on and the outcome is that of the batch without
    it. *)
Lemma process_loop_skips_unreadable (before after : list string)
    (file_path : string) (flag : bool) (s : Sys) :
  csv_source (fst s) (path_str file_path) = None ->
  process_loop (before ++ file_path :: after) flag s
  = process_loop (before ++ after) flag s.
Proof.
  revert flag s. induction before as [| q before IH]; intros flag s Hnone.
  - simpl app. rewrite process_loop_cons. destruct s as [w self].
    rewrite process_one_eq. simpl in Hnone. rewrite Hnone.
    destruct (decide _); rewrite orb_false_r; reflexivity.
  - simpl app. rewrite !process_loop_cons.
    pose proof (process_one_source q s) as Hsame.
    destruct (process_one q s) as [[b | e] s']; apply IH;
      simpl in Hsame; rewrite Hsame; exact Hnone.
Qed.

(** A path whose CSV file cannot be read or cleaned is not an error of
    the batch: the call does what it does on the batch without that
    path. *)
Theorem process_csv_files_ignores_unreadable (before after : list string)
    (file_path : string) (s : Sys) :
  csv_source (fst s) (path_str file_path) = None ->
  process_csv_files (before ++ file_path :: after) s
  = process_csv_files (before ++ after) s.
Proof.
  intros Hnone. unfold process_csv_files. run_monad.
  rewrite process_loop_skips_unreadable by exact Hnone. reflexivity.
Qed.

Lemma _save_json_records_self (s : Sys) :
  snd (snd (_save_json_records s)) = snd s.
Proof.
  destruct s as [w self]. unfold _save_json_records, now, json_dump, write_file.
  run_monad. destruct (decide _); [reflexivity |].
  destruct (stats_encodable (stats self) && data_encodable (data self));
    reflexivity.
Qed.

(** What a batch that ingests a file does afterwards: when [json.dump]
    can encode the resulting state, the export artifact and the snapshot
    are written; when it cannot, the call raises, the export file is left
    unreadable and the snapshot file is not touched.  Either way the
    ingested data stays in the processor. *)
Theorem ingesting_batch_outcome (file_paths : list string) (s : Sys)
    (p : string) :
  p ∈ file_paths ->
  path_str p ∉ processed_files (snd s) ->
  is_Some (csv_source (fst s) (path_str p)) ->
  exists w1 self1,
    process_loop file_paths false s = (Return true, (w1, self1))
    /\ data self1 <> ∅
    /\ snd (snd (process_csv_files file_paths s)) = self1
    /\ (encodable self1 = true ->
        fst (process_csv_files file_paths s) = Return tt
        /\ (exists e, fs (fst (snd (process_csv_files file_paths s)))
                      !! export_file self1 (clock w1 (ticks w1))
                      = Some (ExportFile e) /\ export_data e = data self1)
        /\ (exists snap, fs (fst (snd (process_csv_files file_paths s)))
                         !! state_file self1 = Some (SnapshotFile snap)
                         /\ snap_data snap = Some (data self1)))
    /\ (encodable self1 = false ->
        fst (process_csv_files file_paths s)
        = Raise (Wrapped "Error saving JSON records"
                   (TypeError "not JSON serializable"))
        /\ fs (fst (snd (process_csv_files file_paths s)))
           !! export_file self1 (clock w1 (ticks w1)) = Some Unreadable
        /\ fs (fst (snd (process_csv_files file_paths s))) !! state_file self1
           = fs w1 !! state_file self1).
Proof.
  intros Hin Hreg Hsrc.
  pose proof (process_loop_ingests file_paths false s p Hin Hreg Hsrc) as Hflag.
  destruct (process_loop_returns file_paths false s)
    as (flag & [w1 self1] & Hloop & _).
  rewrite Hloop in Hflag. simpl in Hflag. injection Hflag as ->.
  exists w1, self1. split; [exact Hloop |].
  pose proof (process_loop_data _ _ _ _ Hloop) as Hdata.
  assert (Hne : data self1 <> ∅) by (apply Hdata; discriminate).
  split; [exact Hne |].
  destruct (encodable self1) eqn:Henc.
  - destruct (process_csv_files_writes_both _ _ _ _ Hloop Henc)
      as (w2 & Heq & Hexport & Hstate).
    rewrite Heq. cbn [fst snd]. split; [reflexivity |].
    split; [| intros Hfalse; discriminate]. intros _.
    split; [reflexivity |]. split; eexists; (split; [eassumption | reflexivity]).
  - unfold process_csv_files. run_monad. rewrite Hloop.
    unfold _save_json_records, now, json_dump, write_file. run_monad.
    destruct (decide (data self1 = ∅)) as [Hempty | _]; [contradiction |].
    unfold encodable in Henc. rewrite Henc. cbn.
    split; [reflexivity |]. split; [intros Htrue; discriminate |].
    intros _. split; [reflexivity |]. split.
    + apply lookup_insert_eq.
    + apply lookup_insert_ne. apply export_file_not_state_file.
Qed.

End Batches.

Lemma process_csv_files_registered_witness :
  process_csv_files ["logs/component_codes.csv"; "logs/component_codes.csv"]
                    Examples.with_codes
  = (Return tt, Examples.with_codes).
Proof.
  apply process_csv_files_registered.
  repeat (constructor; [cbv beta; decide_by_evaluation |]).
  constructor.
Defined.

Lemma process_csv_files_skips_registered_witness :
  process_csv_files
    (["logs/activity_log.csv"] ++ "logs/component_codes.csv" :: [])
    Examples.with_codes
  = process_csv_files (["logs/activity_log.csv"] ++ []) Examples.with_codes.
Proof.
  apply process_csv_files_skips_registered.
  decide_by_evaluation.
Defined.

Lemma process_csv_files_ignores_unreadable_witness :
  process_csv_files
    (["logs/component_codes.csv"] ++ "logs/missing.csv" :: [])
    Examples.started
  = process_csv_files (["logs/component_codes.csv"] ++ []) Examples.started.
Proof.
  apply process_csv_files_ignores_unreadable. vm_compute. reflexivity.
Defined.

Lemma ingesting_batch_outcome_witness :
  let file_paths := ["logs/missing.csv"; "logs/component_codes.csv"] in
  let s := Examples.started in
  exists w1 self1,
    process_loop file_paths false s = (Return true, (w1, self1))
    /\ data self1 <> ∅
    /\ snd (snd (process_csv_files file_paths s)) = self1
    /\ (encodable self1 = true ->
        fst (process_csv_files file_paths s) = Return tt
        /\ (exists e, fs (fst (snd (process_csv_files file_paths s)))
                      !! export_file self1 (clock w1 (ticks w1))
                      = Some (ExportFile e) /\ export_data e = data self1)
        /\ (exists snap, fs (fst (snd (process_csv_files file_paths s)))
                         !! state_file self1 = Some (SnapshotFile snap)
                         /\ snap_data snap = Some (data self1)))
    /\ (encodable self1 = false ->
        fst (process_csv_files file_paths s)
        = Raise (Wrapped "Error saving JSON records"
                   (TypeError "not JSON serializable"))
        /\ fs (fst (snd (process_csv_files file_paths s)))
           !! export_file self1 (clock w1 (ticks w1)) = Some Unreadable
        /\ fs (fst (snd (process_csv_files file_paths s))) !! state_file self1
           = fs w1 !! state_file self1).
Proof.
  cbv zeta. apply (ingesting_batch_outcome _ _ "logs/component_codes.csv").
  - apply list_elem_of_In. simpl. tauto.
  - decide_by_evaluation.
  - vm_compute. eexists. reflexivity.
Defined.

(* ===================================================================== *)
(** * An invariant of the statistics *)
(* ===================================================================== *)

Section Invariant.
Context `{Runtime}.

Lemma process_one_covers (file_path : string) (s : Sys) :
  stats_cover_data (snd s) ->
  stats_cover_data (snd (snd (process_one file_path s))).
Proof.
  destruct s as [w self]. intros Hinv. rewrite process_one_eq.
  destruct (decide _); [exact Hinv |].
  destruct (csv_source w (path_str file_path)) as [records |]; [| exact Hinv].
  intros name recs. cbn.
  destruct (decide (path_stem_upper file_path = name)) as [<- | Hne].
  - rewrite !lookup_insert_eq. intros Heq. injection Heq as <-.
    eexists _, _. split; [reflexivity |].
    split; [reflexivity |]. split; [reflexivity |]. lia.
  - rewrite !lookup_insert_ne by exact Hne. apply Hinv.
Qed.

Lemma process_loop_covers (file_paths : list string) (flag : bool) (s : Sys) :
  stats_cover_data (snd s) ->
  stats_cover_data (snd (snd (process_loop file_paths flag s))).
Proof.
  revert flag s. induction file_paths as [| p ps IH]; intros flag s Hinv.
  - exact Hinv.
  - rewrite process_loop_cons.
    pose proof (process_one_covers p s Hinv) as Hnext.
    destruct (process_one p s) as [[b | e] s']; apply IH; exact Hnext.
Qed.

Lemma process_csv_files_covers (file_paths : list string) (s : Sys) :
  stats_cover_data (snd s) ->
  stats_cover_data (snd (snd (process_csv_files file_paths s))).
Proof.
  intros Hinv. unfold process_csv_files. run_monad.
  pose proof (process_loop_covers file_paths false s Hinv) as Hloop.
  destruct (process_loop file_paths false s) as [[[] | e] s1]; try exact Hloop.
  pose proof (_save_json_records_self s1) as Hexport.
  destruct (_save_json_records s1) as [[[] | e] s2]; simpl in Hexport.
  - rewrite _save_state_eq. simpl. rewrite Hexport. exact Hloop.
  - simpl. rewrite Hexport. exact Hloop.
Qed.

(** Under the invariant filtering completes, keeps the invariant, and
    records for every dataset a [removed_rows] that is not negative. *)
Lemma remove_excluded_components_covers (w : World) (self : DataProcessor) :
  stats_cover_data self ->
  exists w' self',
    remove_excluded_components (w, self) = (Return tt, (w', self'))
    /\ stats_cover_data self'
    /\ forall name records',
         data self' !! name = Some records' ->
         exists removed,
           stat self' name "removed_rows" = Some (VInt removed)
           /\ 0 <= removed.
Proof.
  intros Hinv.
  destruct (filter_loop_returns (data_items self) w self) as [[w1 self1] Hloop].
  { intros name Hin. apply list_elem_of_fmap in Hin as ([n records] & -> & Hin).
    apply elem_of_data_items in Hin.
    destruct (Hinv n records Hin) as (entry & o & Hs & Ho & _).
    exists entry, o. split; [exact Hs |].
    rewrite (original_rows_of_recorded _ _ Ho). reflexivity. }
  assert (Hrun : remove_excluded_components (w, self)
                 = (Return tt, (saved_world (w1, self1), self1))).
  { unfold remove_excluded_components. run_monad. rewrite Hloop.
    rewrite _save_state_eq. reflexivity. }
  exists (saved_world (w1, self1)), self1. split; [exact Hrun |].
  apply remove_excluded_components_spec in Hrun as (_ & Hout & Hdone).
  assert (Hshape : forall name records',
            data self1 !! name = Some records' ->
            exists records entry o t,
              data self !! name = Some records
              /\ stats self !! name = Some entry
              /\ entry !! "original_rows" = Some (VInt o)
              /\ entry !! "total_rows" = Some (VInt o)
              /\ Z.of_nat (length records) <= o
              /\ records' = List.filter
                              (not_excluded (excluded_components self)) records
              /\ stats self1 !! name
                 = Some (filtered_entry entry o
                           (Z.of_nat (length records')) t)).
  { intros name records' Hdata'.
    destruct (data self !! name) as [records |] eqn:Hdata.
    - destruct (Hdone name records Hdata) as (e & o & t & He & Ho & Hd & Hs).
      destruct (Hinv name records Hdata) as (e' & o' & He' & Ho' & Ht' & Hle).
      rewrite He in He'. injection He' as <-.
      rewrite (original_rows_of_recorded _ _ Ho') in Ho. injection Ho as <-.
      rewrite Hdata' in Hd. injection Hd as ->.
      exists records, e, o', t.
      split; [reflexivity |]. split; [exact He |]. split; [exact Ho' |].
      split; [exact Ht' |]. split; [exact Hle |]. split; [reflexivity |].
      exact Hs.
    - destruct (Hout name Hdata) as [Hnone _]. congruence. }
  split.
  - intros name records' Hdata'.
    destruct (Hshape name records' Hdata')
      as (records & entry & o & t & _ & _ & Ho & Ht & Hle & -> & Hs).
    eexists _, o. split; [exact Hs |].
    match goal with |- context [filtered_entry ?a ?b ?c ?d] =>
      destruct (filtered_entry_lookups a b c d) as (_ & _ & Ho' & Ht')
    end.
    rewrite Ho', Ht'. split; [exact Ho |]. split; [exact Ht |].
    pose proof (filter_length (not_excluded (excluded_components self)) records).
    lia.
  - intros name records' Hdata'.
    destruct (Hshape name records' Hdata')
      as (records & entry & o & t & _ & _ & Ho & Ht & Hle & -> & Hs).
    eexists. unfold stat. rewrite Hs. cbn.
    match goal with |- context [filtered_entry ?a ?b ?c ?d] =>
      destruct (filtered_entry_lookups a b c d) as (_ & Hr & _ & _)
    end.
    rewrite Hr. split; [reflexivity |].
    pose proof (filter_length (not_excluded (excluded_components self)) records).
    lia.
Qed.

Lemma rename_user_column_self (s : Sys) :
  snd (snd (rename_user_column s))
  = set_data (map (rename_key "User Full Name *Anonymized" "User_ID")
                <$> data (snd s)) (snd s).
Proof.
  destruct s as [w self]. unfold rename_user_column. run_monad.
  match goal with |- context [_save_json_records ?s1] =>
    pose proof (_save_json_records_self s1) as Hexport;
    destruct (_save_json_records s1) as [[[] | e] s2]
  end; simpl in Hexport.
  - rewrite _save_state_eq. simpl. exact Hexport.
  - simpl. exact Hexport.
Qed.

Lemma rename_user_column_covers (s : Sys) :
  stats_cover_data (snd s) -> stats_cover_data (snd (snd (rename_user_column s))).
Proof.
  intros Hinv. rewrite rename_user_column_self. intros name records'. cbn.
  rewrite lookup_fmap. intros Hdata.
  apply fmap_Some in Hdata as (records & Hdata & ->).
  destruct (Hinv name records Hdata) as (entry & o & Hs & Ho & Ht & Hle).
  exists entry, o. rewrite length_map. auto.
Qed.

Lemma empty_data_covers (self : DataProcessor) :
  data self = ∅ -> stats_cover_data self.
Proof. intros Hempty name records. rewrite Hempty, lookup_empty. discriminate. Qed.

Lemma restart_covers (s : Sys) :
  stats_cover_data (snd s) ->
  stats_cover_data
    (snd (snd (__init__ (backup_file_path (snd s)) (fst (snd (_save_state s)))))).
Proof.
  destruct s as [w self]. intros Hinv. cbn [snd].
  destruct (encodable self) eqn:Henc.
  - destruct (restart_after_save w self Henc)
      as (w1 & restarted & Hsave & Hinit & Hdata & Hstats & _).
    rewrite Hsave. cbn [fst snd]. rewrite Hinit. cbn [snd].
    intros name records. rewrite Hdata, Hstats. apply Hinv.
  - rewrite _save_state_eq. cbn [fst snd].
    unfold __init__, _ensure_backup_path. run_monad.
    match goal with |- context [_load_state ?s0] =>
      destruct (load_unreadable_state_file (fst s0) (snd s0))
        as (w' & self' & Hload & Hdata & _)
    end.
    { unfold saved_world, state_file. cbn.
      fold (state_file self). rewrite lookup_insert_eq.
      unfold encodable in Henc. rewrite Henc. reflexivity. }
    cbn [fst snd] in Hload. rewrite Hload. cbn [snd].
    apply empty_data_covers. exact Hdata.
Qed.

Lemma reachable_covers (s : Sys) : reachable s -> stats_cover_data (snd s).
Proof.
  induction 1 as [backup w Hnone | w w' self _ IH | paths s _ IH | s _ IH
                  | s _ IH | s _ IH | s _ IH].
  - rewrite (start_without_state_file backup w Hnone). apply empty_data_covers.
    reflexivity.
  - exact IH.
  - apply process_csv_files_covers. exact IH.
  - destruct s as [w self].
    destruct (remove_excluded_components_covers w self IH)
      as (w' & self' & -> & Hinv & _).
    exact Hinv.
  - apply rename_user_column_covers. exact IH.
  - destruct s as [w self]. unfold clear_state.
    rewrite _initialize_new_state_eq. apply empty_data_covers. reflexivity.
  - apply restart_covers. exact IH.
Qed.

(** In every state a session reaches, each dataset has a statistics entry
    whose [original_rows] and [total_rows] are the same integer, and the
    dataset holds no more records than that. *)
Theorem reachable_statistics_invariant (s : Sys) (name : string)
    (records : list record) :
  reachable s ->
  data (snd s) !! name = Some records ->
  exists entry original,
    stats (snd s) !! name = Some entry
    /\ entry !! "original_rows" = Some (VInt original)
    /\ entry !! "total_rows" = Some (VInt original)
    /\ Z.of_nat (length records) <= original.
Proof. intros Hreach. apply (reachable_covers s Hreach). Qed.

(** In every state a session reaches, [remove_excluded_components]
    completes without an exception, and the [removed_rows] it records
    for each dataset is not negative. *)
Theorem filtering_completes_when_reachable (s : Sys) :
  reachable s ->
  exists s',
    remove_excluded_components s = (Return tt, s')
    /\ forall name records',
         data (snd s') !! name = Some records' ->
         exists removed,
           stat (snd s') name "removed_rows" = Some (VInt removed)
           /\ 0 <= removed.
Proof.
  intros Hreach. destruct s as [w self].
  destruct (remove_excluded_components_covers w self (reachable_covers _ Hreach))
    as (w' & self' & Hrun & _ & Hremoved).
  exists (w', self'). auto.
Qed.

End Invariant.

Lemma reachable_with_codes : reachable Examples.with_codes.
Proof.
  unfold Examples.with_codes. apply reach_ingest.
  unfold Examples.started. apply reach_start. vm_compute. reflexivity.
Qed.

Lemma reachable_statistics_invariant_witness :
  exists entry original,
    stats (snd Examples.with_codes) !! "COMPONENT_CODES" = Some entry
    /\ entry !! "original_rows" = Some (VInt original)
    /\ entry !! "total_rows" = Some (VInt original)
    /\ Z.of_nat (length Examples.component_records) <= original.
Proof.
  apply (reachable_statistics_invariant Examples.with_codes "COMPONENT_CODES").
  - exact reachable_with_codes.
  - vm_compute. reflexivity.
Defined.

Lemma filtering_completes_when_reachable_witness :
  exists s',
    remove_excluded_components Examples.with_codes = (Return tt, s')
    /\ forall name records',
         data (snd s') !! name = Some records' ->
         exists removed,
           stat (snd s') name "removed_rows" = Some (VInt removed)
           /\ 0 <= removed.
Proof.
  apply filtering_completes_when_reachable. exact reachable_with_codes.
Defined.
(* ===================================================================== *)
(** * More on filtering, merging and reshaping *)
(* ===================================================================== *)

Section FilteringFrame.
Context `{Runtime}.

Lemma filter_dataset_frame (item : string * list record) (s : Sys) :
  let s' := snd (filter_dataset item s) in
  fs (fst s') = fs (fst s)
  /\ processed_files (snd s') = processed_files (snd s)
  /\ excluded_components (snd s') = excluded_components (snd s)
  /\ backup_file_path (snd s') = backup_file_path (snd s)
  /\ column_mappings (snd s') = column_mappings (snd s).
Proof.
  destruct item as [name records], s as [w self]. cbv zeta.
  rewrite filter_dataset_eq.
  destruct (stats self !! name) as [entry |]; [| auto].
  destruct (as_int (original_rows_of entry)); cbn; auto.
Qed.

Lemma filter_loop_frame (items : list (string * list record)) (s : Sys) :
  let s' := snd (for_each items filter_dataset s) in
  fs (fst s') = fs (fst s)
  /\ processed_files (snd s') = processed_files (snd s)
  /\ excluded_components (snd s') = excluded_components (snd s)
  /\ backup_file_path (snd s') = backup_file_path (snd s)
  /\ column_mappings (snd s') = column_mappings (snd s).
Proof.
  cbv zeta. revert s. induction items as [| item items IH]; intros s.
  - auto.
  - cbn [for_each]. unfold mbind, M_bind, bind.
    pose proof (filter_dataset_frame item s) as Hstep. cbv zeta in Hstep.
    destruct (filter_dataset item s) as [[[] | e] s1]; cbn [snd] in *.
    + destruct (IH s1) as (H1 & H2 & H3 & H4 & H5).
      destruct Hstep as (G1 & G2 & G3 & G4 & G5).
      repeat split; congruence.
    + exact Hstep.
Qed.

(** A dataset without a statistics entry makes the loop raise. *)
Lemma filter_loop_raises (items : list (string * list record)) (s : Sys)
    (name : string) :
  name ∈ items.*1 ->
  stats (snd s) !! name = None ->
  exists e s', for_each items filter_dataset s = (Raise e, s').
Proof.
  revert s. induction items as [| [n0 r0] items IH]; intros [w self] Hin Hnone.
  - inversion Hin.
  - cbn [for_each]. unfold mbind, M_bind, bind. rewrite filter_dataset_eq.
    cbn [snd] in Hnone.
    destruct (stats self !! n0) as [entry |] eqn:Hentry; [| eauto].
    destruct (as_int (original_rows_of entry)) as [o |]; [| eauto].
    apply IH.
    + rewrite fmap_cons in Hin. cbn [fst] in Hin.
      apply elem_of_cons in Hin as [-> | Hin]; [congruence | exact Hin].
    + cbn [snd]. rewrite stats_filtered, lookup_insert_ne; [exact Hnone |].
      intros ->. congruence.
Qed.

(** Filtering never removes a dataset, never touches the registry, the
    exclusion set or the column mappings, and leaves in each dataset a
    sublist of its records, in their order, none of which has an excluded
    [Component]. *)
Theorem filtering_keeps_order_and_frame (w w' : World)
    (self self' : DataProcessor) :
  remove_excluded_components (w, self) = (Return tt, (w', self')) ->
  dom (data self') = dom (data self)
  /\ processed_files self' = processed_files self
  /\ excluded_components self' = excluded_components self
  /\ column_mappings self' = column_mappings self
  /\ forall name records records',
       data self !! name = Some records ->
       data self' !! name = Some records' ->
       sublist records' records
       /\ forall r c, r ∈ records' ->
            PyDict.get "Component" r = Some (VStr c) ->
            c ∉ excluded_components self.
Proof.
  intros Hrun.
  assert (Hframe : processed_files self' = processed_files self
                   /\ column_mappings self' = column_mappings self).
  { revert Hrun. unfold remove_excluded_components. run_monad.
    pose proof (filter_loop_frame (data_items self) (w, self)) as Hf.
    cbv zeta in Hf.
    destruct (for_each _ _ _) as [[[] | e] [w1 self1]]; [| discriminate].
    rewrite _save_state_eq. cbn. intros Heq. injection Heq as _ <-.
    cbn in Hf. tauto. }
  apply remove_excluded_components_spec in Hrun as (Hexcl & Hout & Hdone).
  split.
  { apply set_eq. intros name. rewrite !elem_of_dom.
    destruct (data self !! name) as [records |] eqn:Hdata.
    - destruct (Hdone name records Hdata) as (_ & _ & _ & _ & _ & -> & _).
      split; eauto.
    - destruct (Hout name Hdata) as [-> _]. reflexivity. }
  split; [tauto |]. split; [exact Hexcl |]. split; [tauto |].
  intros name records records' Hdata Hdata'.
  destruct (Hdone name records Hdata) as (_ & _ & _ & _ & _ & Hd & _).
  rewrite Hdata' in Hd. injection Hd as ->. split.
  - clear. induction records as [| r records IH]; simpl; [constructor |].
    destruct (not_excluded _ r); [apply sublist_skip | apply sublist_cons];
      exact IH.
  - intros r c Hr Hc Hin. apply list_elem_of_In, filter_In in Hr as [_ Hkeep].
    unfold not_excluded in Hkeep. rewrite Hc in Hkeep.
    apply bool_decide_eq_true in Hkeep. contradiction.
Qed.

(** A dataset that has no statistics entry makes
    [remove_excluded_components] raise its wrapped error; no file is
    written. *)
Theorem filtering_fails_without_statistics (w : World) (self : DataProcessor)
    (name : string) (records : list record) :
  data self !! name = Some records ->
  stats self !! name = None ->
  exists e w' self',
    remove_excluded_components (w, self)
    = (Raise (Wrapped "Error removing excluded components" e), (w', self'))
    /\ fs w' = fs w.
Proof.
  intros Hdata Hnone.
  destruct (filter_loop_raises (data_items self) (w, self) name)
    as (e & [w1 self1] & Hloop).
  { apply list_elem_of_fmap. exists (name, records). split; [reflexivity |].
    apply elem_of_data_items. exact Hdata. }
  { exact Hnone. }
  pose proof (filter_loop_frame (data_items self) (w, self)) as Hf.
  cbv zeta in Hf. rewrite Hloop in Hf. cbn [fst snd] in Hf.
  exists e, w1, self1. split; [| tauto].
  unfold remove_excluded_components. run_monad. rewrite Hloop. reflexivity.
Qed.

End FilteringFrame.

Lemma filtering_keeps_order_and_frame_witness :
  let r := remove_excluded_components Examples.with_codes in
  let self := snd Examples.with_codes in
  let self' := snd (snd r) in
  dom (data self') = dom (data self)
  /\ processed_files self' = processed_files self
  /\ excluded_components self' = excluded_components self
  /\ column_mappings self' = column_mappings self
  /\ forall name records records',
       data self !! name = Some records ->
       data self' !! name = Some records' ->
       sublist records' records
       /\ forall r c, r ∈ records' ->
            PyDict.get "Component" r = Some (VStr c) ->
            c ∉ excluded_components self.
Proof.
  cbv zeta.
  apply (filtering_keeps_order_and_frame (fst Examples.with_codes)
           (fst (snd (remove_excluded_components Examples.with_codes)))).
  vm_compute. reflexivity.
Defined.

Lemma filtering_fails_without_statistics_witness :
  exists e w' self',
    remove_excluded_components
      (fst Examples.merge_ready, snd Examples.merge_ready)
    = (Raise (Wrapped "Error removing excluded components" e), (w', self'))
    /\ fs w' = fs (fst Examples.merge_ready).
Proof.
  apply (filtering_fails_without_statistics _ _ "USER_LOG" Examples.user_records).
  - vm_compute. reflexivity.
  - vm_compute. reflexivity.
Defined.

Section IngestThenFilter.
Context `{Runtime}.

Lemma process_csv_files_self (file_paths : list string) (s : Sys) :
  snd (snd (process_csv_files file_paths s))
  = snd (snd (process_loop file_paths false s)).
Proof.
  unfold process_csv_files. run_monad.
  destruct (process_loop file_paths false s) as [[[] | e] s1]; try reflexivity.
  pose proof (_save_json_records_self s1) as Hexport.
  destruct (_save_json_records s1) as [[[] | e] s2]; simpl in Hexport.
  - rewrite _save_state_eq. exact Hexport.
  - exact Hexport.
Qed.

Lemma filter_partition {A} (f : A -> bool) (l : list A) :
  (length (List.filter f l) + length (List.filter (fun x => negb (f x)) l))%nat
  = length l.
Proof.
  induction l as [| x l IH]; simpl; [reflexivity |].
  destruct (f x); simpl; lia.
Qed.

(** Ingesting a new file and then filtering: the dataset holds the
    records of the file that are not excluded, [original_rows] is the
    number of records of the file, [filtered_rows] the number kept and
    [removed_rows] the number of records whose [Component] is excluded. *)
Theorem ingest_then_filter_counts (s : Sys) (p : string)
    (records : list record) :
  stats_cover_data (snd s) ->
  path_str p ∉ processed_files (snd s) ->
  csv_source (fst s) (path_str p) = Some records ->
  let name := path_stem_upper p in
  let excluded := excluded_components (snd s) in
  exists s2,
    remove_excluded_components (snd (process_csv_files [p] s)) = (Return tt, s2)
    /\ data (snd s2) !! name
       = Some (List.filter (not_excluded excluded) records)
    /\ stat (snd s2) name "original_rows"
       = Some (VInt (Z.of_nat (length records)))
    /\ stat (snd s2) name "filtered_rows"
       = Some (VInt (Z.of_nat (length
                 (List.filter (not_excluded excluded) records))))
    /\ stat (snd s2) name "removed_rows"
       = Some (VInt (Z.of_nat (length
                 (List.filter (fun r => negb (not_excluded excluded r))
                              records)))).
Proof.
  intros Hinv Hreg Hsrc. cbv zeta.
  set (name := path_stem_upper p).
  pose proof (process_csv_files_covers [p] s Hinv) as Hinv1.
  destruct s as [w self]. cbn [fst snd] in *.
  assert (Hself : snd (snd (process_csv_files [p] (w, self)))
                  = ingested p records (clock w (ticks w)) self).
  { rewrite process_csv_files_self, process_loop_cons, process_one_eq.
    destruct (decide _) as [? | _]; [contradiction |].
    rewrite Hsrc. reflexivity. }
  destruct (process_csv_files [p] (w, self)) as [o1 [w1 self1]].
  cbn [snd] in *. subst self1.
  destruct (remove_excluded_components_covers w1 _ Hinv1)
    as (w2 & self2 & Hrun & _ & _).
  exists (w2, self2). split; [exact Hrun |].
  apply remove_excluded_components_spec in Hrun as (_ & _ & Hdone).
  change (excluded_components (ingested p records (clock w (ticks w)) self))
    with (excluded_components self) in Hdone.
  destruct (Hdone name records) as (entry & o & t & He & Ho & Hd & Hs).
  { cbn. apply lookup_insert_eq. }
  cbn in He. rewrite lookup_insert_eq in He. injection He as <-.
  assert (Horig : ({[ "total_rows" := VInt (Z.of_nat (length records));
                      "original_rows" := VInt (Z.of_nat (length records));
                      "processed_at" := VStr (isoformat (clock w (ticks w))) ]}
                    : gmap string value) !! "original_rows"
                  = Some (VInt (Z.of_nat (length records)))).
  { rewrite lookup_insert_ne by discriminate. apply lookup_insert_eq. }
  rewrite (original_rows_of_recorded _ _ Horig) in Ho. injection Ho as <-.
  cbn [snd]. split; [exact Hd |].
  unfold stat. rewrite Hs. cbn.
  match goal with |- context [filtered_entry ?a ?b ?c ?d] =>
    destruct (filtered_entry_lookups a b c d) as (Hf & Hr & Ho & _)
  end.
  rewrite Hf, Hr, Ho, Horig. split; [reflexivity |]. split; [reflexivity |].
  do 2 f_equal.
  pose proof (filter_partition (not_excluded (excluded_components self))
                records).
  lia.
Qed.

End IngestThenFilter.

Lemma ingest_then_filter_counts_witness :
  let s := Examples.started in
  let p := "logs/component_codes.csv" in
  let name := path_stem_upper p in
  let excluded := excluded_components (snd s) in
  exists s2,
    remove_excluded_components (snd (process_csv_files [p] s)) = (Return tt, s2)
    /\ data (snd s2) !! name
       = Some (List.filter (not_excluded excluded) Examples.component_records)
    /\ stat (snd s2) name "original_rows"
       = Some (VInt (Z.of_nat (length Examples.component_records)))
    /\ stat (snd s2) name "filtered_rows"
       = Some (VInt (Z.of_nat (length
                 (List.filter (not_excluded excluded)
                              Examples.component_records))))
    /\ stat (snd s2) name "removed_rows"
       = Some (VInt (Z.of_nat (length
                 (List.filter (fun r => negb (not_excluded excluded r))
                              Examples.component_records)))).
Proof.
  cbv zeta.
  apply (ingest_then_filter_counts Examples.started "logs/component_codes.csv"
           Examples.component_records).
  - apply empty_data_covers. vm_compute. reflexivity.
  - decide_by_evaluation.
  - vm_compute. reflexivity.
Defined.

Section MergeEdges.
Context `{Runtime}.

(** With both logs present but no [COMPONENT_CODES] dataset the merge
    fails on the lookup of that dataset, and changes nothing. *)
Theorem merge_requires_component_codes (w : World) (self : DataProcessor) :
  is_Some (data self !! "ACTIVITY_LOG") ->
  is_Some (data self !! "USER_LOG") ->
  data self !! "COMPONENT_CODES" = None ->
  merge_datasets (w, self)
  = (Raise (Wrapped "Merge operation failed" (KeyError "COMPONENT_CODES")),
     (w, self)).
Proof.
  intros [act Hact] [usr Husr] Hcodes. unfold merge_datasets. run_monad.
  destruct (decide _) as [_ | Hsub].
  - rewrite Hact, Husr, Hcodes. reflexivity.
  - exfalso. apply Hsub. intros name Hname.
    apply elem_of_dom. apply elem_of_union in Hname as [Hname | Hname];
      apply elem_of_singleton in Hname as ->; eauto.
Qed.



(** A table without a [User_ID] column cannot be reshaped: the lookup of
    the column fails and the error is re-raised wrapped. *)
Theorem reshape_requires_user_id (df : DataFrame) (s : Sys) :
  "User_ID" ∉ columns df ->
  reshape_data df s
  = (Raise (Wrapped "Reshape operation failed" (KeyError "User_ID")), s).
Proof.
  intros Habsent. unfold reshape_data, interactions. run_monad.
  unfold mbind, outcome_bind, Pandas.unique_position, Pandas.positions.
  destruct (Pandas.positions_from 0 "User_ID" (columns df)) as [| k rest] eqn:Hpos;
    [reflexivity |].
  exfalso. apply Habsent.
  assert (Hk : k ∈ Pandas.positions_from 0 "User_ID" (columns df))
    by (rewrite Hpos; left).
  apply positions_from_spec in Hk as (j & _ & Hj).
  apply list_elem_of_lookup. eauto.
Qed.

Lemma traverse_raises {A B} (f : A -> outcome B) (xs : list A) (x : A) :
  x ∈ xs -> (forall y, f x <> Return y) ->
  exists e, Pandas.traverse f xs = Raise e.
Proof.
  intros Hin Hfail. induction xs as [| x' xs IH]; [inversion Hin |].
  simpl. unfold mbind, outcome_bind.
  destruct (f x') as [y | e] eqn:Hfx; [| eauto].
  apply elem_of_cons in Hin as [-> | Hin]; [exfalso; eapply Hfail; eauto |].
  destruct (IH Hin) as [e ->]. eauto.
Qed.

(** One [User_ID] cell that is missing, or a string that is not an
    integer literal, makes [reshape_data] fail as a whole, whatever the
    other rows hold. *)
Theorem reshape_fails_on_bad_user_id (df : DataFrame) (s : Sys) (k : nat)
    (row : list value) :
  Pandas.unique_position "User_ID" (columns df) = Return k ->
  row ∈ rows df ->
  Pandas.cell k row = VNone
  \/ (exists text, Pandas.cell k row = VStr text /\ python_int text = None) ->
  exists e,
    reshape_data df s = (Raise (Wrapped "Reshape operation failed" e), s).
Proof.
  intros Hk Hrow Hbad. unfold reshape_data, interactions. run_monad.
  unfold mbind, outcome_bind. rewrite Hk.
  assert (Hcell : Pandas.cell k row ∈ map (Pandas.cell k) (rows df)).
  { change (map ?f ?l) with (f <$> l). apply list_elem_of_fmap. eauto. }
  unfold astype_int_column.
  assert (Hsigned : unsigned_column (map (Pandas.cell k) (rows df)) = false).
  { apply not_true_is_false. intros Hall. unfold unsigned_column in Hall.
    rewrite forallb_forall in Hall.
    specialize (Hall _ (proj1 (list_elem_of_In _ _) Hcell)).
    destruct Hbad as [Hbad | (text & Hbad & _)]; rewrite Hbad in Hall;
      discriminate. }
  rewrite Hsigned.
  destruct (traverse_raises astype_int (map (Pandas.cell k) (rows df))
              (Pandas.cell k row) Hcell) as [e ->]; [| eauto].
  intros z. destruct Hbad as [-> | (text & -> & Htext)]; unfold astype_int.
  - discriminate.
  - rewrite Htext. discriminate.
Qed.

End MergeEdges.

Lemma merge_requires_component_codes_witness :
  let self := Examples.processor_with
                {[ "ACTIVITY_LOG" := Examples.activity_rows;
                   "USER_LOG" := Examples.user_records ]} in
  merge_datasets (Examples.fresh_world, self)
  = (Raise (Wrapped "Merge operation failed" (KeyError "COMPONENT_CODES")),
     (Examples.fresh_world, self)).
Proof.
  cbv zeta. apply merge_requires_component_codes.
  - vm_compute. eexists. reflexivity.
  - vm_compute. eexists. reflexivity.
  - vm_compute. reflexivity.
Defined.


Lemma reshape_requires_user_id_witness :
  reshape_data (mkDataFrame ["Component"; "Action"; "Month"]
                  [[VStr "Quiz"; VStr "Viewed"; VStr "2024-01"]])
               Examples.started
  = (Raise (Wrapped "Reshape operation failed" (KeyError "User_ID")),
     Examples.started).
Proof.
  apply reshape_requires_user_id. intros Hin.
  apply list_elem_of_In in Hin. simpl in Hin.
  destruct Hin as [Heq | [Heq | [Heq | []]]]; discriminate.
Defined.

Lemma reshape_fails_on_bad_user_id_witness :
  exists e,
    reshape_data
      (mkDataFrame ["User_ID"; "Component"; "Action"; "Month"]
         [[VInt 7; VStr "Quiz"; VStr "Viewed"; VStr "2024-01"];
          [VStr "seven"; VStr "Quiz"; VStr "Viewed"; VStr "2024-01"]])
      Examples.started
    = (Raise (Wrapped "Reshape operation failed" e), Examples.started).
Proof.
  apply (reshape_fails_on_bad_user_id _ _ 0%nat
           [VStr "seven"; VStr "Quiz"; VStr "Viewed"; VStr "2024-01"]).
  - reflexivity.
  - apply list_elem_of_In. simpl. tauto.
  - right. exists "seven". split; reflexivity.
Defined.
(* ===================================================================== *)
(** * Totals of the reshaped table *)
(* ===================================================================== *)

Lemma sum_map_add {A} (f g : A -> Z) (l : list A) :
  fold_right Z.add 0 (map (fun x => f x + g x) l)
  = fold_right Z.add 0 (map f l) + fold_right Z.add 0 (map g l).
Proof. induction l as [| x l IH]; simpl; lia. Qed.

Lemma sum_map_ext {A} (f g : A -> Z) (l : list A) :
  (forall x, x ∈ l -> f x = g x) ->
  fold_right Z.add 0 (map f l) = fold_right Z.add 0 (map g l).
Proof.
  induction l as [| x l IH]; intros Hfg; simpl; [reflexivity |].
  rewrite (Hfg x) by left. rewrite IH; [reflexivity |].
  intros y Hy. apply Hfg. right. exact Hy.
Qed.

Lemma sum_map_zero {A} (f : A -> Z) (l : list A) :
  (forall x, x ∈ l -> f x = 0) -> fold_right Z.add 0 (map f l) = 0.
Proof.
  intros Hzero. rewrite (sum_map_ext f (fun _ => 0) l Hzero). clear Hzero.
  induction l as [| x l IH]; simpl; lia.
Qed.

Lemma sum_indicator {A} (f : A -> bool) (a : A) (l : list A) :
  NoDup l -> a ∈ l -> (forall x, x ∈ l -> f x = true <-> x = a) ->
  fold_right Z.add 0 (map (fun x => Z.b2z (f x)) l) = 1.
Proof.
  induction 1 as [| x l Hx Hnd IH]; intros Hin Hf; [inversion Hin |].
  simpl. destruct (f x) eqn:Hfx.
  - apply (Hf x) in Hfx as ->; [| left].
    rewrite sum_map_zero; [reflexivity |].
    intros y Hy. destruct (f y) eqn:Hfy; [| reflexivity].
    apply (Hf y) in Hfy as ->; [contradiction | right; exact Hy].
  - apply elem_of_cons in Hin as [-> | Hin].
    + assert (f x = true) by (apply Hf; [left | reflexivity]). congruence.
    + rewrite IH; [reflexivity | exact Hin |].
      intros y Hy. apply Hf. right. exact Hy.
Qed.

Lemma sum_Permutation (l l' : list Z) :
  l ≡ₚ l' -> fold_right Z.add 0 l = fold_right Z.add 0 l'.
Proof. induction 1; simpl; lia. Qed.

Lemma counts_for_group (u : Z) (m c : string) (x : interaction) :
  counts_for u m c x = true <-> counted x = true /\ in_group x u m c.
Proof.
  unfold counts_for, counted, in_group. destruct x as [xu xm xc xa]. simpl.
  rewrite !andb_true_iff, Z.eqb_eq, !value_eqb_eq. split.
  - intros [[[-> ->] ->] Ha]. auto.
  - intros [Ha (-> & -> & ->)]. auto.
Qed.

Lemma counted_group (x : interaction) :
  counted x = true -> exists m c, in_group x (i_user x) m c.
Proof.
  unfold counted, in_group. destruct x as [xu xm xc xa]. simpl.
  destruct xm as [| | | m |]; try discriminate.
  destruct xc as [| | | c |]; try discriminate. eauto.
Qed.

Lemma in_group_unique (x : interaction) (u u' : Z) (m m' c c' : string) :
  in_group x u m c -> in_group x u' m' c' -> u = u' /\ m = m' /\ c = c'.
Proof.
  intros (<- & Hm & Hc) (<- & Hm' & Hc'). rewrite Hm in Hm'. rewrite Hc in Hc'.
  injection Hm' as <-. injection Hc' as <-. auto.
Qed.

(** One row is counted in one cell of the pivot, or in none. *)
Lemma counted_once (index : list (Z * string)) (components : list string)
    (x : interaction) :
  NoDup index -> NoDup components ->
  (forall u m c, in_group x u m c -> (u, m) ∈ index /\ c ∈ components) ->
  fold_right Z.add 0
    (map (fun k => fold_right Z.add 0
                     (map (fun c => Z.b2z (counts_for (fst k) (snd k) c x))
                          components))
         index)
  = Z.b2z (counted x).
Proof.
  intros Hindex Hcomponents Hcover. destruct (counted x) eqn:Hcounted.
  - destruct (counted_group x Hcounted) as (m0 & c0 & Hgroup).
    destruct (Hcover _ _ _ Hgroup) as [Hk Hc].
    rewrite (sum_map_ext _
               (fun k => Z.b2z (bool_decide (k = (i_user x, m0))))).
    + apply sum_indicator with (a := (i_user x, m0)); auto.
      intros k _. apply bool_decide_eq_true.
    + intros [u m] _. cbn [fst snd]. destruct (decide ((u, m) = (i_user x, m0)))
        as [Heq | Hne].
      * injection Heq as -> ->. rewrite bool_decide_eq_true_2 by reflexivity.
        apply sum_indicator with (a := c0); auto.
        intros c _. rewrite counts_for_group. split.
        -- intros [_ Hg]. destruct (in_group_unique _ _ _ _ _ _ _ Hg Hgroup)
             as (_ & _ & ->). reflexivity.
        -- intros ->. auto.
      * rewrite bool_decide_eq_false_2 by exact Hne.
        apply sum_map_zero. intros c _.
        destruct (counts_for u m c x) eqn:Hfor; [| reflexivity].
        apply counts_for_group in Hfor as [_ Hg].
        destruct (in_group_unique _ _ _ _ _ _ _ Hg Hgroup) as (-> & -> & _).
        contradiction.
  - apply sum_map_zero. intros k _. apply sum_map_zero. intros c _.
    destruct (counts_for (fst k) (snd k) c x) eqn:Hfor; [| reflexivity].
    apply counts_for_group in Hfor as [Hyes _]. congruence.
Qed.

Lemma count_actions_cons (x : interaction) (xs : list interaction) (u : Z)
    (m c : string) :
  count_actions (x :: xs) u m c
  = Z.b2z (counts_for u m c x) + count_actions xs u m c.
Proof.
  unfold count_actions. simpl. destruct (counts_for u m c x); simpl; lia.
Qed.

(** The cells of the pivot add up to the number of counted rows. *)
Lemma pivot_cells_add_up (index : list (Z * string)) (components : list string)
    (xs : list interaction) :
  NoDup index -> NoDup components ->
  (forall x u m c, x ∈ xs -> in_group x u m c ->
     (u, m) ∈ index /\ c ∈ components) ->
  fold_right Z.add 0
    (map (fun k => fold_right Z.add 0
                     (map (count_actions xs (fst k) (snd k)) components))
         index)
  = Z.of_nat (length (List.filter counted xs)).
Proof.
  intros Hindex Hcomponents. induction xs as [| x xs IH]; intros Hcover.
  - simpl. apply sum_map_zero. intros k _. apply sum_map_zero. reflexivity.
  - rewrite (sum_map_ext _
      (fun k =>
         fold_right Z.add 0
           (map (fun c => Z.b2z (counts_for (fst k) (snd k) c x)) components)
         + fold_right Z.add 0
             (map (count_actions xs (fst k) (snd k)) components))).
    2:{ intros k _. rewrite <- sum_map_add. apply sum_map_ext.
        intros c _. apply count_actions_cons. }
    rewrite sum_map_add, IH, counted_once; auto.
    + simpl. destruct (counted x); simpl; lia.
    + intros u m c. apply Hcover. left.
    + intros y u m c Hy. apply Hcover. right. exact Hy.
Qed.

Lemma total_interactions_pivot_row (xs : list interaction)
    (components : list string) (k : Z * string) :
  total_interactions (pivot_row xs components k)
  = fold_right Z.add 0 (map (count_actions xs (fst k) (snd k)) components).
Proof.
  unfold total_interactions, pivot_row, pivot_counts.
  rewrite !app_comm_cons, last_snoc. reflexivity.
Qed.

Section ReshapeTotals.
Context `{Runtime}.

Lemma pivot_components_spec (xs : list interaction)
    (keys : list (option (Z * string * string))) (c : string) :
  Pandas.traverse pivot_key xs = Return keys ->
  c ∈ pivot_components keys <-> exists x u m, x ∈ xs /\ in_group x u m c.
Proof.
  intros Hkeys. unfold pivot_components.
  rewrite merge_sort_Permutation, elem_of_remove_dups.
  change (map snd ?l) with (snd <$> l). rewrite list_elem_of_fmap. split.
  - intros ([[u m] c'] & -> & Hin).
    apply (pivot_keys_groups xs keys u m c' Hkeys) in Hin as (x & Hx & Hg).
    exists x, u, m. auto.
  - intros (x & u & m & Hx & Hg). exists (u, m, c). split; [reflexivity |].
    apply (pivot_keys_groups xs keys u m c Hkeys). eauto.
Qed.

Lemma pivot_index_spec (xs : list interaction)
    (keys : list (option (Z * string * string))) (u : Z) (m : string) :
  Pandas.traverse pivot_key xs = Return keys ->
  (u, m) ∈ pivot_index keys <-> exists x c, x ∈ xs /\ in_group x u m c.
Proof.
  intros Hkeys. unfold pivot_index.
  rewrite merge_sort_Permutation, elem_of_remove_dups.
  change (map fst ?l) with (fst <$> l). rewrite list_elem_of_fmap. split.
  - intros ([[u' m'] c] & Heq & Hin). simpl in Heq. injection Heq as <- <-.
    apply (pivot_keys_groups xs keys u m c Hkeys) in Hin as (x & Hx & Hg).
    exists x, c. auto.
  - intros (x & c & Hx & Hg). exists (u, m, c). split; [reflexivity |].
    apply (pivot_keys_groups xs keys u m c Hkeys). eauto.
Qed.

(** Under the conditions of the reshaped table (integer users, [Month]
    and [Component] strings or missing, no component named like a column
    the pivot adds), the [Total_Interactions] cells of the table add up to
    the number of rows of the merged table whose [Month], [Component] and
    [Action] are all present: every such row is counted once, and no
    other row is counted. *)
Theorem reshape_totals_add_up (df : DataFrame) (s : Sys)
    (xs : list interaction) :
  interactions df = Return xs ->
  Forall (fun x => text_or_missing (i_month x)
                   /\ text_or_missing (i_component x)) xs ->
  (forall x u m c, x ∈ xs -> in_group x u m c ->
     c ∉ ["User_ID"; "Month"; "Total_Interactions"]) ->
  exists out,
    reshape_data df s = (Return out, s)
    /\ last (columns out) = Some "Total_Interactions"
    /\ fold_right Z.add 0 (map total_interactions (rows out))
       = Z.of_nat (length (List.filter counted xs)).
Proof.
  intros Hxs Htext Hreserved.
  destruct (traverse_total pivot_key xs) as [keys Hkeys].
  { eapply Forall_impl; [exact Htext |]. intros x [Hm Hc].
    apply pivot_key_total; assumption. }
  assert (Hfree : forall l, l ∈ ["User_ID"; "Month"; "Total_Interactions"] ->
                    l ∉ pivot_components keys).
  { intros l Hl Hin.
    apply (pivot_components_spec xs keys l Hkeys) in Hin as (x & u & m & Hx & Hg).
    exact (Hreserved x u m l Hx Hg Hl). }
  eexists. split; [| split].
  - apply (reshape_data_eq df s xs keys Hxs Hkeys); apply Hfree;
      apply list_elem_of_In; simpl; tauto.
  - cbn [columns]. rewrite !app_comm_cons. apply last_snoc.
  - cbn [rows].
    rewrite (sum_Permutation _
               (map total_interactions
                  (map (pivot_row xs (pivot_components keys))
                       (pivot_index keys)))).
    2:{ apply Permutation_map, merge_sort_Permutation. }
    rewrite map_map.
    rewrite (map_ext _ _ (total_interactions_pivot_row xs (pivot_components keys))).
    apply pivot_cells_add_up.
    + unfold pivot_index. rewrite merge_sort_Permutation. apply NoDup_remove_dups.
    + unfold pivot_components. rewrite merge_sort_Permutation.
      apply NoDup_remove_dups.
    + intros x u m c Hx Hg. split.
      * apply (pivot_index_spec xs keys u m Hkeys). eauto.
      * apply (pivot_components_spec xs keys c Hkeys). eauto.
Qed.

End ReshapeTotals.

Lemma reshape_totals_add_up_witness :
  let xs := [ mkInteraction 7 (VStr "2024-01") (VStr "Quiz") (VStr "Viewed");
              mkInteraction 7 (VStr "2024-01") (VStr "Quiz") (VStr "Submitted");
              mkInteraction 7 (VStr "2024-01") (VStr "Forum") (VStr "Posted");
              mkInteraction 3 (VStr "2024-02") (VStr "Quiz") VNone ] in
  exists out,
    reshape_data Examples.merged_table Examples.started
    = (Return out, Examples.started)
    /\ last (columns out) = Some "Total_Interactions"
    /\ fold_right Z.add 0 (map total_interactions (rows out))
       = Z.of_nat (length (List.filter counted xs)).
Proof.
  cbv zeta. apply reshape_totals_add_up.
  - vm_compute. reflexivity.
  - repeat (constructor;
            [split; right; eexists; reflexivity |]). constructor.
  - intros x u m c Hx (_ & _ & Hc) Hin.
    apply list_elem_of_In in Hx. simpl in Hx.
    apply list_elem_of_In in Hin. simpl in Hin.
    destruct Hx as [<- | [<- | [<- | [<- | []]]]]; simpl in Hc;
      injection Hc as <-;
      destruct Hin as [Heq | [Heq | [Heq | []]]]; discriminate.
Defined.

(* ===================================================================== *)
(** * Counting interactions *)
(* ===================================================================== *)

Lemma py_norm_missing (v : value) : py_norm v = VNone <-> v = VNone.
Proof. destruct v; simpl; split; congruence. Qed.

Lemma count_key_some (user component month : nat) (row : list value)
    (k : value * value * value) :
  count_key user component month row = Some k
  <-> Pandas.cell user row <> VNone
      /\ Pandas.cell component row <> VNone
      /\ Pandas.cell month row <> VNone
      /\ k = (py_norm (Pandas.cell user row),
              py_norm (Pandas.cell component row),
              py_norm (Pandas.cell month row)).
Proof.
  unfold count_key.
  destruct (Pandas.cell user row), (Pandas.cell component row),
    (Pandas.cell month row); split;
    try discriminate;
    try (intros (Hu & Hc & Hm & _); congruence);
    try (intros Heq; injection Heq as <-; repeat split; discriminate);
    intros (_ & _ & _ & ->); reflexivity.
Qed.

(** The size of a group is the number of rows with its key. *)
Lemma group_size_omap {A K} `{EqDecision K} (f : A -> option K)
    (g : A -> bool) (xs : list A) (k : K) :
  (forall x, f x = Some k <-> g x = true) ->
  group_size (omap f xs) k = length (List.filter g xs).
Proof.
  intros Hfg. unfold group_size.
  induction xs as [| x xs IH]; [reflexivity |].
  destruct (f x) as [k' |] eqn:Hfx.
  - change (omap f (x :: xs)) with (match f x with
                                    | Some y => y :: omap f xs
                                    | None => omap f xs
                                    end).
    rewrite Hfx. cbn [List.filter].
    destruct (decide (k' = k)) as [-> | Hne].
    + rewrite bool_decide_eq_true_2 by reflexivity.
      apply Hfg in Hfx. rewrite Hfx. cbn [length]. rewrite IH. reflexivity.
    + rewrite bool_decide_eq_false_2 by exact Hne.
      destruct (g x) eqn:Hgx; [| exact IH].
      apply Hfg in Hgx. rewrite Hfx in Hgx. injection Hgx as ->.
      contradiction.
  - change (omap f (x :: xs)) with (match f x with
                                    | Some y => y :: omap f xs
                                    | None => omap f xs
                                    end).
    rewrite Hfx. cbn [List.filter].
    destruct (g x) eqn:Hgx; [| exact IH].
    apply Hfg in Hgx. rewrite Hfx in Hgx. discriminate.
Qed.

(** The cell shown for a key that occurs in the column is a cell of the
    column and is equal to the key. *)
Lemma first_seen_spec (cells : list value) (key : value) :
  key ∈ map py_norm cells ->
  first_seen cells key ∈ cells /\ py_norm (first_seen cells key) = key.
Proof.
  unfold first_seen. induction cells as [| c cells IH]; intros Hin.
  - inversion Hin.
  - cbn [List.filter]. destruct (decide (py_norm c = key)) as [Heq | Hne].
    + rewrite bool_decide_eq_true_2 by exact Heq. simpl.
      split; [left | exact Heq].
    + rewrite bool_decide_eq_false_2 by exact Hne.
      cbn [map] in Hin. apply elem_of_cons in Hin as [Heq | Hin];
        [congruence |].
      destruct (IH Hin) as [Hcell Hnorm]. split; [right; exact Hcell | exact Hnorm].
Qed.

Section Counting.
Context `{Runtime}.

(** [count_interactions] leaves the processor alone and returns one row
    for every [(User_ID, Component, Month)] triple that occurs in the
    table with none of the three missing, each triple once, holding the
    number of rows of the table with that triple; no row is returned for
    a triple that does not occur.  Triples are compared as Python
    compares them. *)
Theorem count_interactions_sizes (df out : DataFrame) (s s' : Sys)
    (user component month : nat) :
  count_interactions df s = (Return out, s') ->
  Pandas.unique_position "User_ID" (columns df) = Return user ->
  Pandas.unique_position "Component" (columns df) = Return component ->
  Pandas.unique_position "Month" (columns df) = Return month ->
  s' = s
  /\ columns out = ["User_ID"; "Component"; "Month"; "Interaction_Count"]
  /\ NoDup (map count_row_key (rows out))
  /\ (forall row, row ∈ rows out ->
        exists u c m,
          row = [u; c; m;
                 VInt (Z.of_nat
                         (length (rows_of_group user component month df
                                    (u, c, m))))]
          /\ u <> VNone /\ c <> VNone /\ m <> VNone
          /\ rows_of_group user component month df (u, c, m) <> [])
  /\ (forall r,
        r ∈ rows df ->
        Pandas.cell user r <> VNone ->
        Pandas.cell component r <> VNone ->
        Pandas.cell month r <> VNone ->
        exists row,
          row ∈ rows out
          /\ count_row_key row
             = [py_norm (Pandas.cell user r);
                py_norm (Pandas.cell component r);
                py_norm (Pandas.cell month r)]).
Proof.
  intros Hrun Hu Hc Hm. unfold count_interactions in Hrun. revert Hrun.
  run_monad. unfold mbind, outcome_bind. rewrite Hu, Hc, Hm.
  destruct (unorderable _ || unorderable _ || unorderable _);
    [discriminate |].
  intros Heq. injection Heq as <- <-.
  set (groups := omap (count_key user component month) (rows df)).
  set (column := fun k : nat => map (Pandas.cell k) (rows df)).
  set (shown := fun k : value * value * value =>
                  [first_seen (column user) (fst (fst k));
                   first_seen (column component) (snd (fst k));
                   first_seen (column month) (snd k);
                   VInt (Z.of_nat (group_size groups k))]).
  assert (Hmember : forall k, k ∈ groups <->
            exists r, r ∈ rows df
                      /\ count_key user component month r = Some k).
  { intros k. unfold groups. rewrite list_elem_of_omap. reflexivity. }
  assert (Hcolumn : forall i r, r ∈ rows df ->
            py_norm (Pandas.cell i r) ∈ map py_norm (column i)).
  { intros i r Hr. unfold column. rewrite map_map.
    change (map ?g ?l) with (g <$> l). apply list_elem_of_fmap. eauto. }
  assert (Hshown : forall k, k ∈ groups ->
            exists u c m r,
              shown k = [u; c; m;
                         VInt (Z.of_nat
                                 (length (rows_of_group user component month
                                            df (u, c, m))))]
              /\ k = (py_norm u, py_norm c, py_norm m)
              /\ u <> VNone /\ c <> VNone /\ m <> VNone
              /\ r ∈ rows_of_group user component month df (u, c, m)).
  { intros k Hk. apply Hmember in Hk as (r & Hr & Hkey).
    apply count_key_some in Hkey as (Hru & Hrc & Hrm & ->). cbn [fst snd].
    destruct (first_seen_spec (column user) _ (Hcolumn user r Hr))
      as [_ Hnu].
    destruct (first_seen_spec (column component) _ (Hcolumn component r Hr))
      as [_ Hnc].
    destruct (first_seen_spec (column month) _ (Hcolumn month r Hr))
      as [_ Hnm].
    set (u := first_seen (column user) (py_norm (Pandas.cell user r))) in *.
    set (c := first_seen (column component)
                (py_norm (Pandas.cell component r))) in *.
    set (m := first_seen (column month) (py_norm (Pandas.cell month r))) in *.
    exists u, c, m, r.
    assert (Hsame : forall x, count_key user component month x
                              = Some (py_norm (Pandas.cell user r),
                                      py_norm (Pandas.cell component r),
                                      py_norm (Pandas.cell month r))
                              <-> bool_decide (py_norm (Pandas.cell user x)
                                               = py_norm u)
                                  && bool_decide
                                       (py_norm (Pandas.cell component x)
                                        = py_norm c)
                                  && bool_decide (py_norm (Pandas.cell month x)
                                                  = py_norm m) = true).
    { intros x. rewrite count_key_some, !andb_true_iff, !bool_decide_eq_true.
      rewrite Hnu, Hnc, Hnm. split.
      - intros (_ & _ & _ & Heq). injection Heq as -> -> ->. auto.
      - intros [[Hxu Hxc] Hxm]. repeat split.
        + intros Hnone. apply Hru, py_norm_missing. rewrite <- Hxu, Hnone.
          reflexivity.
        + intros Hnone. apply Hrc, py_norm_missing. rewrite <- Hxc, Hnone.
          reflexivity.
        + intros Hnone. apply Hrm, py_norm_missing. rewrite <- Hxm, Hnone.
          reflexivity.
        + rewrite Hxu, Hxc, Hxm. reflexivity. }
    split; [| split; [| split; [| split; [| split]]]].
    - unfold shown, groups. cbn [fst snd].
      rewrite (group_size_omap _ _ _ _ Hsame). reflexivity.
    - rewrite Hnu, Hnc, Hnm. reflexivity.
    - intros Hnone. apply Hru, py_norm_missing. rewrite <- Hnu, Hnone.
      reflexivity.
    - intros Hnone. apply Hrc, py_norm_missing. rewrite <- Hnc, Hnone.
      reflexivity.
    - intros Hnone. apply Hrm, py_norm_missing. rewrite <- Hnm, Hnone.
      reflexivity.
    - unfold rows_of_group. apply list_elem_of_In, filter_In.
      split; [apply list_elem_of_In; exact Hr |]. cbn [fst snd].
      apply Hsame. apply count_key_some. auto. }
  assert (Hsorted : forall k,
            k ∈ merge_sort triple_le (remove_dups groups) <-> k ∈ groups).
  { intros k. rewrite merge_sort_Permutation. apply elem_of_remove_dups. }
  assert (Hkeys : forall k, k ∈ groups ->
            count_row_key (shown k) = [fst (fst k); snd (fst k); snd k]).
  { intros k Hk. destruct (Hshown k Hk) as (u & c & m & r & -> & -> & _).
    reflexivity. }
  split; [reflexivity |]. split; [reflexivity |]. cbn [rows].
  split; [| split].
  - rewrite map_map.
    rewrite (map_ext_in _ (fun k => [fst (fst k); snd (fst k); snd k])).
    + apply NoDup_fmap_2.
      * intros [[u c] m] [[u' c'] m']. cbn [fst snd]. congruence.
      * rewrite merge_sort_Permutation. apply NoDup_remove_dups.
    + intros k Hk. apply Hkeys, Hsorted, list_elem_of_In. exact Hk.
  - intros row Hrow. change (map ?g ?l) with (g <$> l) in Hrow.
    apply list_elem_of_fmap in Hrow as (k & -> & Hk). apply Hsorted in Hk.
    destruct (Hshown k Hk) as (u & c & m & r & Hrow & _ & Hu' & Hc' & Hm' & Hr).
    exists u, c, m. split; [exact Hrow |]. repeat split; auto.
    intros Hnil. rewrite Hnil in Hr. inversion Hr.
  - intros r Hr Hru Hrc Hrm.
    set (k := (py_norm (Pandas.cell user r),
               py_norm (Pandas.cell component r),
               py_norm (Pandas.cell month r))).
    assert (Hk : k ∈ groups).
    { apply Hmember. exists r. split; [exact Hr |].
      apply count_key_some. auto. }
    exists (shown k). split.
    + change (map ?g ?l) with (g <$> l). apply list_elem_of_fmap.
      exists k. split; [reflexivity |]. apply Hsorted. exact Hk.
    + apply Hkeys. exact Hk.
Qed.

(** A table without one of the three grouping columns cannot be counted:
    here [Month], which only the merge adds. *)
Theorem count_interactions_requires_month (df : DataFrame) (s : Sys)
    (user component : nat) :
  Pandas.unique_position "User_ID" (columns df) = Return user ->
  Pandas.unique_position "Component" (columns df) = Return component ->
  "Month" ∉ columns df ->
  count_interactions df s
  = (Raise (Wrapped "Counting interactions failed" (KeyError "Month")), s).
Proof.
  intros Hu Hc Habsent. unfold count_interactions. run_monad.
  unfold mbind, outcome_bind. rewrite Hu, Hc.
  unfold Pandas.unique_position, Pandas.positions.
  destruct (Pandas.positions_from 0 "Month" (columns df)) as [| k rest] eqn:Hpos;
    [reflexivity |].
  exfalso. apply Habsent.
  assert (Hk : k ∈ Pandas.positions_from 0 "Month" (columns df))
    by (rewrite Hpos; left).
  apply positions_from_spec in Hk as (j & _ & Hj).
  apply list_elem_of_lookup. eauto.
Qed.

End Counting.

Lemma count_interactions_sizes_witness :
  let r := count_interactions
             (mkDataFrame ["User_ID"; "Component"; "Action"; "Month"]
                [ [VStr "u7"; VStr "Quiz"; VStr "Viewed"; VStr "2024-01"];
                  [VInt 1; VStr "Quiz"; VStr "Submitted"; VStr "2024-01"];
                  [VBool true; VStr "Quiz"; VStr "Posted"; VStr "2024-01"];
                  [VStr "u7"; VStr "Forum"; VStr "Posted"; VStr "2024-01"];
                  [VStr "u7"; VStr "Quiz"; VStr "Posted"; VStr "2024-01"];
                  [VInt 3; VNone; VNone; VStr "2024-02"] ])
             Examples.started in
  rows (match fst r with Return out => out | Raise _ => mkDataFrame [] [] end)
  = [ [VInt 1; VStr "Quiz"; VStr "2024-01"; VInt 2];
      [VStr "u7"; VStr "Forum"; VStr "2024-01"; VInt 1];
      [VStr "u7"; VStr "Quiz"; VStr "2024-01"; VInt 2] ]
  /\ snd r = Examples.started.
Proof.
  cbv zeta.
  pose proof (count_interactions_sizes
    (mkDataFrame ["User_ID"; "Component"; "Action"; "Month"]
       [ [VStr "u7"; VStr "Quiz"; VStr "Viewed"; VStr "2024-01"];
         [VInt 1; VStr "Quiz"; VStr "Submitted"; VStr "2024-01"];
         [VBool true; VStr "Quiz"; VStr "Posted"; VStr "2024-01"];
         [VStr "u7"; VStr "Forum"; VStr "Posted"; VStr "2024-01"];
         [VStr "u7"; VStr "Quiz"; VStr "Posted"; VStr "2024-01"];
         [VInt 3; VNone; VNone; VStr "2024-02"] ])
    (mkDataFrame ["User_ID"; "Component"; "Month"; "Interaction_Count"]
       [ [VInt 1; VStr "Quiz"; VStr "2024-01"; VInt 2];
         [VStr "u7"; VStr "Forum"; VStr "2024-01"; VInt 1];
         [VStr "u7"; VStr "Quiz"; VStr "2024-01"; VInt 2] ])
    Examples.started Examples.started 0%nat 1%nat 3%nat
    ltac:(vm_compute; reflexivity) ltac:(vm_compute; reflexivity)
    ltac:(vm_compute; reflexivity) ltac:(vm_compute; reflexivity)) as Hsizes.
  split; [vm_compute; reflexivity | apply Hsizes].
Defined.

Lemma count_interactions_requires_month_witness :
  count_interactions
    (mkDataFrame ["User_ID"; "Component"; "Action"]
       [[VInt 7; VStr "Quiz"; VStr "Viewed"]])
    Examples.started
  = (Raise (Wrapped "Counting interactions failed" (KeyError "Month")),
     Examples.started).
Proof.
  apply (count_interactions_requires_month _ _ 0%nat 1%nat).
  - reflexivity.
  - reflexivity.
  - intros Hin. apply list_elem_of_In in Hin. simpl in Hin.
    destruct Hin as [Heq | [Heq | [Heq | []]]]; discriminate.
Defined.
(* ===================================================================== *)
(** * Renaming columns *)
(* ===================================================================== *)

Lemma get_remove_same {V} (k : string) (d : dict V) :
  PyDict.get k (PyDict.remove k d) = None.
Proof.
  unfold PyDict.remove. induction d as [| [k' v] d IH]; simpl; [reflexivity |].
  destruct (String.eqb k' k) eqn:Hk; simpl; [exact IH |].
  rewrite Hk. exact IH.
Qed.

Lemma get_remove_ne {V} (k k' : string) (d : dict V) :
  k' <> k -> PyDict.get k' (PyDict.remove k d) = PyDict.get k' d.
Proof.
  intros Hne. unfold PyDict.remove.
  induction d as [| [k0 v] d IH]; simpl; [reflexivity |].
  destruct (String.eqb k0 k) eqn:Hk; simpl.
  - apply String.eqb_eq in Hk as ->.
    rewrite (proj2 (String.eqb_neq k k')) by congruence. exact IH.
  - rewrite IH. reflexivity.
Qed.

Lemma get_set_same {V} (k : string) (v : V) (d : dict V) :
  PyDict.get k (PyDict.set k v d) = Some v.
Proof.
  induction d as [| [k' v'] d IH]; simpl.
  - rewrite String.eqb_refl. reflexivity.
  - destruct (String.eqb k' k) eqn:Hk; simpl; rewrite Hk; [reflexivity | exact IH].
Qed.

Lemma get_set_ne {V} (k k' : string) (v : V) (d : dict V) :
  k' <> k -> PyDict.get k' (PyDict.set k v d) = PyDict.get k' d.
Proof.
  intros Hne. induction d as [| [k0 v0] d IH]; simpl.
  - rewrite (proj2 (String.eqb_neq k k')) by congruence. reflexivity.
  - destruct (String.eqb k0 k) eqn:Hk; simpl.
    + apply String.eqb_eq in Hk as ->.
      rewrite (proj2 (String.eqb_neq k k')) by congruence. reflexivity.
    + rewrite IH. reflexivity.
Qed.

Lemma rename_key_renamed (old_key new_key : string) (r : record) :
  old_key <> new_key ->
  user_column_renamed old_key new_key r (rename_key old_key new_key r).
Proof.
  intros Hne. unfold user_column_renamed, rename_key.
  destruct (PyDict.get old_key r) as [v |] eqn:Hold.
  - split; [| split].
    + rewrite get_set_ne by exact Hne. apply get_remove_same.
    + apply get_set_same.
    + intros k Hk_old Hk_new.
      rewrite get_set_ne by exact Hk_new. apply get_remove_ne. exact Hk_old.
  - auto.
Qed.

Lemma rename_key_again (old_key new_key : string) (r : record) :
  old_key <> new_key ->
  rename_key old_key new_key (rename_key old_key new_key r)
  = rename_key old_key new_key r.
Proof.
  intros Hne.
  destruct (rename_key_renamed old_key new_key r Hne) as [Hgone _].
  unfold rename_key at 1. rewrite Hgone. reflexivity.
Qed.

Lemma set_fresh {V} (k : string) (v : V) (d : dict V) :
  k ∉ PyDict.keys d -> PyDict.set k v d = (d ++ [(k, v)])%list.
Proof.
  unfold PyDict.keys. induction d as [| [k' v'] d IH]; intros Hfresh; simpl.
  - reflexivity.
  - rewrite (proj2 (String.eqb_neq k' k)).
    + rewrite IH; [reflexivity |]. intros Hin. apply Hfresh. right. exact Hin.
    + intros ->. apply Hfresh. left.
Qed.

Section Renaming.
Context `{Runtime}.

(** Whether or not the files can be written afterwards,
    [rename_user_column] keeps the datasets and their records, and in
    every record the key [User Full Name *Anonymized] is gone, its value
    is under [User_ID], and the values under the other keys stay. *)
Theorem rename_user_column_renames (s : Sys) (name : string)
    (records : list record) :
  data (snd s) !! name = Some records ->
  exists records',
    data (snd (snd (rename_user_column s))) !! name = Some records'
    /\ Forall2 (user_column_renamed "User Full Name *Anonymized" "User_ID")
               records records'.
Proof.
  intros Hdata. rewrite rename_user_column_self. cbn [data set_data].
  rewrite lookup_fmap, Hdata. eexists. split; [reflexivity |].
  clear Hdata. induction records as [| r records IH]; constructor; [| exact IH].
  apply rename_key_renamed. discriminate.
Qed.

(** Renaming the user column a second time changes no dataset. *)
Theorem rename_user_column_twice (s : Sys) :
  data (snd (snd (rename_user_column (snd (rename_user_column s)))))
  = data (snd (snd (rename_user_column s))).
Proof.
  rewrite !rename_user_column_self. cbn [data set_data].
  rewrite <- map_fmap_compose. apply map_fmap_ext. intros name records _.
  cbn. rewrite map_map. apply map_ext. intros r.
  apply rename_key_again. discriminate.
Qed.

(** When the renamed datasets hold a value [json.dump] cannot encode,
    [rename_user_column] raises after the records were renamed: the
    renaming stays in memory, the export file is left unreadable and the
    snapshot file is not written. *)
Theorem rename_user_column_fails_after_renaming (w : World)
    (self : DataProcessor) :
  data self <> ∅ ->
  data_encodable
    (map (rename_key "User Full Name *Anonymized" "User_ID") <$> data self)
  = false ->
  let r := rename_user_column (w, self) in
  fst r = Raise (Wrapped "Error renaming user column"
                   (Wrapped "Error saving JSON records"
                      (TypeError "not JSON serializable")))
  /\ data (snd (snd r))
     = (map (rename_key "User Full Name *Anonymized" "User_ID") <$> data self)
  /\ fs (fst (snd r)) !! export_file self (clock w (ticks w))
     = Some Unreadable
  /\ fs (fst (snd r)) !! state_file self = fs w !! state_file self.
Proof.
  intros Hdata Hbad. cbv zeta.
  unfold rename_user_column, _save_json_records, now, json_dump, write_file.
  run_monad.
  destruct (decide _) as [Hempty | _].
  { apply fmap_empty_inv in Hempty. contradiction. }
  rewrite Hbad, andb_false_r. simpl.
  split; [reflexivity |]. split; [reflexivity |]. split.
  - apply lookup_insert_eq.
  - apply lookup_insert_ne. apply export_file_not_state_file.
Qed.

Lemma fold_set_fresh (mappings : dict string) (row acc : record) :
  NoDup (PyDict.keys acc ++ map (mapped_key mappings) (PyDict.keys row)) ->
  fold_left (fun acc kv =>
               PyDict.set (default (fst kv) (PyDict.get (fst kv) mappings))
                          (snd kv) acc)
            row acc
  = (acc ++ map (fun kv => (mapped_key mappings (fst kv), snd kv)) row)%list.
Proof.
  unfold PyDict.keys. revert acc.
  induction row as [| [k v] row IH]; intros acc Hnodup; simpl.
  - rewrite app_nil_r. reflexivity.
  - simpl in Hnodup. fold (mapped_key mappings k).
    rewrite set_fresh.
    + rewrite IH.
      * rewrite <- app_assoc. reflexivity.
      * rewrite map_app. simpl. rewrite <- app_assoc. exact Hnodup.
    + apply NoDup_app in Hnodup as (_ & Hdisjoint & _).
      intros Hin. apply (Hdisjoint _ Hin). left.
Qed.

(** [_rename_columns] gives every column the name [column_mappings] has
    for it and keeps the values and their order, as long as no two
    columns end up with the same name; the processor is not changed. *)
Theorem _rename_columns_renames (row : record) (s : Sys) :
  NoDup (map (mapped_key (column_mappings (snd s))) (PyDict.keys row)) ->
  _rename_columns row s
  = (Return (map (fun kv => (mapped_key (column_mappings (snd s)) (fst kv),
                             snd kv)) row), s).
Proof.
  intros Hnodup. destruct s as [w self]. unfold _rename_columns. run_monad.
  rewrite fold_set_fresh by exact Hnodup. reflexivity.
Qed.

End Renaming.

Lemma rename_user_column_renames_witness :
  exists records',
    data (snd (snd (rename_user_column Examples.with_activity)))
      !! "ACTIVITY_LOG" = Some records'
    /\ Forall2 (user_column_renamed "User Full Name *Anonymized" "User_ID")
               Examples.activity_records records'.
Proof.
  apply rename_user_column_renames. vm_compute. reflexivity.
Defined.

Lemma rename_user_column_fails_after_renaming_witness :
  let w := fst Examples.uneven_logs in
  let self := snd Examples.uneven_logs in
  let r := rename_user_column (w, self) in
  fst r = Raise (Wrapped "Error renaming user column"
                   (Wrapped "Error saving JSON records"
                      (TypeError "not JSON serializable")))
  /\ data (snd (snd r))
     = (map (rename_key "User Full Name *Anonymized" "User_ID") <$> data self)
  /\ fs (fst (snd r)) !! export_file self (clock w (ticks w))
     = Some Unreadable
  /\ fs (fst (snd r)) !! state_file self = fs w !! state_file self.
Proof.
  cbv zeta. apply rename_user_column_fails_after_renaming.
  - intros Hempty.
    assert (Hsome : data (snd Examples.uneven_logs) !! "USER_LOG" <> None)
      by (vm_compute; discriminate).
    apply Hsome. rewrite Hempty. apply lookup_empty.
  - vm_compute. reflexivity.
Defined.

Lemma _rename_columns_renames_witness :
  _rename_columns
    [("Date", VStr "2024-01-10"); ("User Full Name *Anonymized", VInt 7);
     ("Component", VStr "Quiz")]
    Examples.started
  = (Return [("Date", VStr "2024-01-10"); ("User_ID", VInt 7);
             ("Component", VStr "Quiz")],
     Examples.started).
Proof.
  apply (_rename_columns_renames
           [("Date", VStr "2024-01-10"); ("User Full Name *Anonymized", VInt 7);
            ("Component", VStr "Quiz")] Examples.started).
  apply (bool_decide_eq_true_1 _). vm_compute. reflexivity.
Defined.
(* ===================================================================== *)
(** * The order of the datasets *)
(* ===================================================================== *)

Lemma keys_listed_intro (self : DataProcessor) (order : list string) :
  data_order self = ordered_keys order (data self) -> keys_listed self.
Proof.
  intros Horder. unfold keys_listed. rewrite Horder at 2.
  rewrite ordered_keys_again by reflexivity. exact Horder.
Qed.

Lemma keys_listed_items (self : DataProcessor) :
  keys_listed self -> map fst (data_items self) = data_order self.
Proof. intros Hlisted. rewrite data_items_keys. symmetry. exact Hlisted. Qed.

Lemma filter_single {A} (f : A -> bool) (a : A) (l : list A) :
  NoDup l -> a ∈ l -> (forall x, x ∈ l -> f x = true <-> x = a) ->
  List.filter f l = [a].
Proof.
  induction 1 as [| x l Hx Hnd IH]; intros Hin Hf; [inversion Hin |].
  simpl. destruct (f x) eqn:Hfx.
  - apply (Hf x) in Hfx as ->; [| left].
    rewrite filter_none_in; [reflexivity |].
    intros y Hy. destruct (f y) eqn:Hfy; [| reflexivity].
    apply (Hf y) in Hfy as ->; [contradiction | right; exact Hy].
  - apply elem_of_cons in Hin as [-> | Hin].
    + assert (f x = true) by (apply Hf; [left | reflexivity]). congruence.
    + apply IH; [exact Hin |]. intros y Hy. apply Hf. right. exact Hy.
Qed.

(** A key assigned for the first time goes last. *)
Lemma ordered_keys_insert_new (order : list string)
    (d : gmap string (list record)) (name : string) (records : list record) :
  order = ordered_keys order d -> d !! name = None ->
  ordered_keys order (<[name := records]> d) = (order ++ [name])%list.
Proof.
  intros Hlisted Hnew.
  assert (Hnodup : NoDup order) by (rewrite Hlisted; apply ordered_keys_NoDup).
  assert (Hdom : forall k, k ∈ order <-> k ∈ dom d)
    by (intros k; rewrite Hlisted at 1; apply ordered_keys_dom).
  unfold ordered_keys. rewrite remove_dups_NoDup by exact Hnodup.
  rewrite filter_all_in.
  2:{ intros k Hk. apply bool_decide_eq_true. rewrite dom_insert_L.
      apply elem_of_union_r, Hdom. exact Hk. }
  f_equal. apply filter_single.
  - apply NoDup_elements.
  - apply elem_of_elements. rewrite dom_insert_L.
    apply elem_of_union_l, elem_of_singleton. reflexivity.
  - intros k Hk. apply elem_of_elements in Hk. rewrite dom_insert_L in Hk.
    rewrite bool_decide_eq_true. split.
    + intros Hout. apply elem_of_union in Hk as [Hk | Hk].
      * apply elem_of_singleton in Hk. exact Hk.
      * exfalso. apply Hout, Hdom. exact Hk.
    + intros -> Hin. apply Hdom, elem_of_dom in Hin as [r Hr]. congruence.
Qed.

(** A key that is assigned again keeps its place. *)
Lemma ordered_keys_insert_old (order : list string)
    (d : gmap string (list record)) (name : string) (records : list record) :
  order = ordered_keys order d -> is_Some (d !! name) ->
  ordered_keys order (<[name := records]> d) = order.
Proof.
  intros Hlisted Hold. rewrite Hlisted at 2.
  unfold ordered_keys. rewrite dom_insert_L.
  assert (Hsame : {[ name ]} ∪ dom d = dom d).
  { apply subseteq_union_1_L, singleton_subseteq_l, elem_of_dom. exact Hold. }
  rewrite Hsame. reflexivity.
Qed.

Section Order.
Context `{Runtime}.

Lemma process_one_listed (file_path : string) (s : Sys) :
  keys_listed (snd s) -> keys_listed (snd (snd (process_one file_path s))).
Proof.
  destruct s as [w self]. intros Hlisted. rewrite process_one_eq.
  destruct (decide _); [exact Hlisted |].
  destruct (csv_source w (path_str file_path)) as [records |]; [| exact Hlisted].
  eapply keys_listed_intro. reflexivity.
Qed.

Lemma process_loop_listed (file_paths : list string) (flag : bool) (s : Sys) :
  keys_listed (snd s) ->
  keys_listed (snd (snd (process_loop file_paths flag s))).
Proof.
  revert flag s. induction file_paths as [| p ps IH]; intros flag s Hlisted.
  - exact Hlisted.
  - rewrite process_loop_cons.
    pose proof (process_one_listed p s Hlisted) as Hnext.
    destruct (process_one p s) as [[b | e] s']; apply IH; exact Hnext.
Qed.

Lemma filter_loop_listed (items : list (string * list record)) (s : Sys) :
  keys_listed (snd s) ->
  keys_listed (snd (snd (for_each items filter_dataset s))).
Proof.
  revert s. induction items as [| [n0 r0] items IH]; intros [w self] Hlisted.
  - exact Hlisted.
  - cbn [for_each]. unfold mbind, M_bind, bind. rewrite filter_dataset_eq.
    destruct (stats self !! n0) as [entry0 |]; [| exact Hlisted].
    destruct (as_int (original_rows_of entry0)) as [o0 |]; [| exact Hlisted].
    apply IH. eapply keys_listed_intro. reflexivity.
Qed.

Lemma remove_excluded_components_listed (s : Sys) :
  keys_listed (snd s) ->
  keys_listed (snd (snd (remove_excluded_components s))).
Proof.
  destruct s as [w self]. intros Hlisted.
  pose proof (filter_loop_listed (data_items self) (w, self) Hlisted) as Hloop.
  unfold remove_excluded_components. run_monad.
  destruct (for_each (data_items self) filter_dataset (w, self))
    as [[[] | e] s1]; [| exact Hloop].
  rewrite _save_state_eq. exact Hloop.
Qed.

Lemma restart_listed (s : Sys) :
  keys_listed
    (snd (snd (__init__ (backup_file_path (snd s)) (fst (snd (_save_state s)))))).
Proof.
  destruct s as [w self]. rewrite _save_state_eq. cbn [fst snd].
  unfold __init__, _ensure_backup_path, _load_state, saved_world. run_monad.
  unfold state_file at 1. cbn [backup_file_path]. fold (state_file self).
  rewrite lookup_insert_eq.
  destruct (stats_encodable (stats self) && data_encodable (data self)).
  - simpl. eapply keys_listed_intro. reflexivity.
  - simpl. unfold _initialize_new_state. run_monad.
    match goal with |- context [_save_state ?s0] =>
      rewrite (_save_state_eq s0)
    end.
    eapply keys_listed_intro. reflexivity.
Qed.

(** In every state a session reaches the order kept beside the datasets
    lists their names, each once. *)
Lemma reachable_listed (s : Sys) : reachable s -> keys_listed (snd s).
Proof.
  induction 1 as [backup w Hnone | w w' self _ IH | paths s _ IH | s _ IH
                  | s _ IH | s _ IH | s _ IH].
  - rewrite (start_without_state_file backup w Hnone).
    apply (keys_listed_intro _ []). symmetry. apply ordered_keys_empty.
  - exact IH.
  - rewrite process_csv_files_self. apply process_loop_listed. exact IH.
  - apply remove_excluded_components_listed. exact IH.
  - rewrite rename_user_column_self. eapply keys_listed_intro. reflexivity.
  - destruct s as [w self]. unfold clear_state.
    rewrite _initialize_new_state_eq.
    apply (keys_listed_intro _ []). symmetry. apply ordered_keys_empty.
  - apply restart_listed.
Qed.

(** Ingesting a file whose dataset is new puts its name last in the list
    of datasets [get_state_summary] returns and leaves the names before
    it as they were; whether the state could be saved afterwards does
    not matter. *)
Theorem summary_lists_new_dataset_last (s : Sys) (p : string)
    (records : list record) :
  reachable s ->
  path_str p ∉ processed_files (snd s) ->
  csv_source (fst s) (path_str p) = Some records ->
  data (snd s) !! path_stem_upper p = None ->
  exists before after,
    fst (get_state_summary s) = Return before
    /\ fst (get_state_summary (snd (process_csv_files [p] s))) = Return after
    /\ sum_datasets after = (sum_datasets before ++ [path_stem_upper p])%list.
Proof.
  intros Hreach Hnew Hsrc Hfresh. apply reachable_listed in Hreach.
  destruct s as [w self]. cbn [fst snd] in *.
  eexists _, _. split; [reflexivity |]. split; [reflexivity |].
  cbn [get_state_summary sum_datasets]. unfold get_state_summary. run_monad.
  rewrite process_csv_files_self. cbn [process_loop].
  unfold mbind, M_bind, bind. run_monad. rewrite process_one_eq.
  rewrite decide_False by exact Hnew. rewrite Hsrc. cbn [snd sum_datasets].
  rewrite !data_items_keys. cbn [data_order data ingested].
  rewrite ordered_keys_again by reflexivity.
  rewrite <- Hreach. apply ordered_keys_insert_new; assumption.
Qed.

(** Ingesting a file for a dataset that is there already, under another
    path, leaves the list of datasets as it was. *)
Theorem summary_keeps_place_of_dataset (s : Sys) (p : string)
    (records : list record) :
  reachable s ->
  path_str p ∉ processed_files (snd s) ->
  csv_source (fst s) (path_str p) = Some records ->
  is_Some (data (snd s) !! path_stem_upper p) ->
  exists before after,
    fst (get_state_summary s) = Return before
    /\ fst (get_state_summary (snd (process_csv_files [p] s))) = Return after
    /\ sum_datasets after = sum_datasets before.
Proof.
  intros Hreach Hnew Hsrc Hold. apply reachable_listed in Hreach.
  destruct s as [w self]. cbn [fst snd] in *.
  eexists _, _. split; [reflexivity |]. split; [reflexivity |].
  unfold get_state_summary. run_monad.
  rewrite process_csv_files_self. cbn [process_loop].
  unfold mbind, M_bind, bind. run_monad. rewrite process_one_eq.
  rewrite decide_False by exact Hnew. rewrite Hsrc. cbn [snd sum_datasets].
  rewrite !data_items_keys. cbn [data_order data ingested].
  rewrite ordered_keys_again by reflexivity.
  rewrite <- Hreach. apply ordered_keys_insert_old; assumption.
Qed.

(** The loop stamps the datasets one after the other: the dataset at
    position [i] gets reading [i] of the clock. *)
Lemma filter_loop_stamps (items : list (string * list record)) (w w' : World)
    (self self' : DataProcessor) (i : nat) (name : string)
    (records : list record) :
  NoDup items.*1 ->
  for_each items filter_dataset (w, self) = (Return tt, (w', self')) ->
  items !! i = Some (name, records) ->
  stat self' name "filtered_at"
  = Some (VStr (isoformat (clock w (ticks w + i)%nat))).
Proof.
  revert w self i. induction items as [| [n0 r0] items IH];
    intros w self i Hnd Hrun Hi; [discriminate |].
  rewrite fmap_cons in Hnd. apply NoDup_cons in Hnd as [Hfresh Hnd].
  cbn [for_each] in Hrun. unfold mbind, M_bind, bind in Hrun.
  rewrite filter_dataset_eq in Hrun.
  destruct (stats self !! n0) as [entry0 |] eqn:Hentry0; [| discriminate].
  destruct (as_int (original_rows_of entry0)) as [o0 |] eqn:Ho0;
    [| discriminate].
  destruct i as [| i]; simpl in Hi.
  - injection Hi as <- <-.
    apply filter_loop_spec in Hrun as (_ & Hother & _); [| exact Hnd].
    destruct (Hother n0 Hfresh) as [Hs _].
    rewrite stats_filtered, lookup_insert_eq in Hs.
    unfold stat. rewrite Hs. cbn. unfold filtered_entry.
    rewrite lookup_insert_eq. rewrite Nat.add_0_r. reflexivity.
  - rewrite (IH _ _ i Hnd Hrun Hi). cbn [tick clock ticks].
    replace (S (ticks w) + i)%nat with (ticks w + S i)%nat by lia.
    reflexivity.
Qed.

(** [remove_excluded_components] goes through the datasets in the order
    [get_state_summary] lists them: the dataset at position [i] of that
    list is stamped with reading [i] of the clock, counted from the
    call. *)
Theorem filtering_stamps_in_listed_order (w w' : World)
    (self self' : DataProcessor) (listed : state_summary) (i : nat)
    (name : string) :
  remove_excluded_components (w, self) = (Return tt, (w', self')) ->
  fst (get_state_summary (w, self)) = Return listed ->
  sum_datasets listed !! i = Some name ->
  stat self' name "filtered_at"
  = Some (VStr (isoformat (clock w (ticks w + i)%nat))).
Proof.
  unfold remove_excluded_components, get_state_summary. run_monad.
  destruct (for_each (data_items self) filter_dataset (w, self))
    as [[[] | e] [w1 self1]] eqn:Hloop; [| discriminate].
  rewrite _save_state_eq. simpl. intros Heq Hsum Hi.
  injection Heq as _ <-. injection Hsum as <-. cbn [sum_datasets] in Hi.
  change (map fst ?l) with (fst <$> l) in Hi.
  rewrite list_lookup_fmap in Hi.
  destruct (data_items self !! i) as [[n records] |] eqn:Hitem;
    [| discriminate].
  injection Hi as <-.
  apply (filter_loop_stamps _ _ _ _ _ _ _ _ (data_items_NoDup self) Hloop Hitem).
Qed.

Lemma restart_state (w : World) (self : DataProcessor) :
  encodable self = true ->
  snd (snd (__init__ (backup_file_path self) (saved_world (w, self))))
  = mkDataProcessor (backup_file_path self) (data self)
      (excluded_components self) [("User Full Name *Anonymized", "User_ID")]
      (stats self) (processed_files self)
      (ordered_keys (data_order self) (data self)).
Proof.
  intros Henc. unfold encodable in Henc.
  unfold __init__, _ensure_backup_path, _load_state, saved_world. run_monad.
  unfold state_file at 1. cbn [backup_file_path]. fold (state_file self).
  rewrite lookup_insert_eq, Henc. cbn.
  unfold load_data, set_stats, set_processed_files, set_excluded_components.
  cbn. rewrite !list_to_set_elements_L, data_items_keys.
  rewrite ordered_keys_again by reflexivity. reflexivity.
Qed.

Lemma summary_of_self (s : Sys) :
  fst (get_state_summary s)
  = Return (mkSummary
              (size (processed_files (snd s)))
              (list_sum (map (fun item : string * list record =>
                                length (snd item))
                             (data_items (snd s))))
              (map fst (data_items (snd s)))
              (match stats (snd s) !! "last_updated" with
               | Some entry => StatsEntry entry
               | None => Never
               end)).
Proof. destruct s. reflexivity. Qed.

(** A restart keeps what [get_state_summary] returns, the order of the
    datasets included, when the state could be saved. *)
Theorem restart_keeps_summary (w : World) (self : DataProcessor) :
  encodable self = true ->
  fst (get_state_summary
         (snd (__init__ (backup_file_path self)
                        (fst (snd (_save_state (w, self)))))))
  = fst (get_state_summary (w, self)).
Proof.
  intros Henc. rewrite _save_state_eq. cbn [fst snd].
  rewrite !summary_of_self, (restart_state w self Henc). cbn [snd].
  unfold data_items. cbn [data data_order stats processed_files].
  rewrite ordered_keys_again by reflexivity. reflexivity.
Qed.

End Order.

Lemma summary_lists_new_dataset_last_witness :
  exists before after,
    fst (get_state_summary Examples.with_codes) = Return before
    /\ fst (get_state_summary
              (snd (process_csv_files ["logs/activity_log.csv"]
                      Examples.with_codes))) = Return after
    /\ sum_datasets after
       = (sum_datasets before ++ [path_stem_upper "logs/activity_log.csv"])%list.
Proof.
  apply (summary_lists_new_dataset_last Examples.with_codes
           "logs/activity_log.csv" Examples.activity_records).
  - exact reachable_with_codes.
  - apply (bool_decide_eq_true_1 _). vm_compute. reflexivity.
  - vm_compute. reflexivity.
  - vm_compute. reflexivity.
Defined.

Lemma reachable_with_activity : reachable Examples.with_activity.
Proof.
  apply (reach_ingest ["logs/activity_log.csv"] Examples.started).
  apply (reach_start "files" Examples.fresh_world). reflexivity.
Qed.

Lemma summary_keeps_place_of_dataset_witness :
  let archive (path : string) : option (list record) :=
    if String.eqb path "archive/component_codes.csv"
    then Some [[("Component", VStr "Wiki"); ("Code", VStr "Wiki_1")]]
    else None in
  let s := (mkWorld archive (fs (fst Examples.with_codes))
                    Examples.wall_clock (ticks (fst Examples.with_codes)),
            snd Examples.with_codes) in
  exists before after,
    fst (get_state_summary s) = Return before
    /\ fst (get_state_summary
              (snd (process_csv_files ["archive/component_codes.csv"] s)))
       = Return after
    /\ sum_datasets after = sum_datasets before.
Proof.
  cbv zeta.
  apply (summary_keeps_place_of_dataset _ "archive/component_codes.csv"
           [[("Component", VStr "Wiki"); ("Code", VStr "Wiki_1")]]).
  - apply (reach_world (fst Examples.with_codes)). exact reachable_with_codes.
  - apply (bool_decide_eq_true_1 _). vm_compute. reflexivity.
  - reflexivity.
  - vm_compute. eexists. reflexivity.
Defined.

Lemma filtering_stamps_in_listed_order_witness :
  let s := snd (process_csv_files
                  ["logs/component_codes.csv"; "logs/activity_log.csv"]
                  Examples.started) in
  stat (snd (snd (remove_excluded_components s))) "ACTIVITY_LOG" "filtered_at"
  = Some (VStr (isoformat (clock (fst s) (ticks (fst s) + 1)%nat))).
Proof.
  cbv zeta.
  set (s := snd (process_csv_files
                   ["logs/component_codes.csv"; "logs/activity_log.csv"]
                   Examples.started)).
  apply (filtering_stamps_in_listed_order (fst s)
           (fst (snd (remove_excluded_components s))) (snd s)
           (snd (snd (remove_excluded_components s)))
           (mkSummary 2 7 ["COMPONENT_CODES"; "ACTIVITY_LOG"] Never)).
  - vm_compute. reflexivity.
  - vm_compute. reflexivity.
  - reflexivity.
Defined.

Lemma restart_keeps_summary_witness :
  fst (get_state_summary
         (snd (__init__ (backup_file_path (snd Examples.with_codes))
                 (fst (snd (_save_state (fst Examples.with_codes,
                                         snd Examples.with_codes)))))))
  = fst (get_state_summary (fst Examples.with_codes, snd Examples.with_codes)).
Proof. apply restart_keeps_summary. vm_compute. reflexivity. Defined.
